(** * Cogno Solution: activity bookkeeping and realtime wiring

    A shallow embedding of the browser-side bookkeeping code of the
    repository and the properties its specification states about it:

    - [CognoTracker] of [frontend/js/activity-tracker.js]
      ([getCurrentUser], [saveActivity], [logActivityHistory],
      [checkAchievements], [notifyDoctor], the feedback helpers,
      [getModuleProgress] and [generateCertificate]);
    - [CognoModules] and [CognoActivity] of the modules handler
      ([startActivity], [completeActivity], [calculatePoints],
      [checkAchievements]; [start], [addScore], [complete],
      [showResultsModal], [getElapsedTime], [formatTime]);
    - [CognoPaths.getBasePath], [getCurrentUser] and [logActivity] of the
      client;
    - [RealtimeManager], [TableSubscriptions], [ActivityFeed] and
      [NotificationListener] of [js/realtime.js].

    Conventions of the embedding.

    - A JavaScript number is the rational it denotes ([Q]); [Math.round] is
      [floor (x + 1/2)].  The percentage of a recording and of a completion
      is computed as the code computes it, in IEEE 754 doubles ([Double]):
      the quotient and the product are rounded to the nearest double.  The
      points, the sums and the averages of the reports are computed
      exactly.  Where the code divides by a count that can be zero, the
      numbers are those of [Num], with [NaN] and the infinities; elsewhere
      a division is only read where the divisor is not zero, and a result
      beyond the largest double is outside the model.
    - An [async] function is a computation in the monad [M] over the state of
      the page and of the hosted store: it returns a value or throws, and it
      runs to completion before the next one starts (sequential execution).
    - [console.log], [console.warn] and [console.error] are not modelled.
    - A string that the code tests for truthiness is absent ([undefined],
      [null]) exactly when it is the empty string. *)

From Stdlib Require Import ZArith QArith Qround Qminmax Qabs Qpower Lia Lqa Ascii String.
From stdpp Require Import gmap strings list pretty.

Open Scope Z_scope.
Open Scope string_scope.
Open Scope list_scope.

(** ** JavaScript numbers *)

Module JS.

(** [Math.round]: the nearest integer, a half rounds up. *)
Definition Math_round (x : Q) : Z := Qfloor (x + (1 # 2))%Q.

(** [Math.min] and [Math.max]. *)
Definition Math_min (x y : Z) : Z := Z.min x y.
Definition Math_max (x y : Q) : Q := Qmax x y.

(** [x < y] on numbers. *)
Definition lt (x y : Q) : bool := negb (Qle_bool y x).

(** [x === y] on numbers. *)
Definition eq (x y : Q) : bool := Qeq_bool x y.

(** [x || d] where [x] is a number or absent: zero and absent are falsy. *)
Definition num_or (x : option Q) (d : Q) : Q :=
  match x with
  | Some q => if Qeq_bool q 0 then d else q
  | None => d
  end.

(** [x ?? d]: only absent falls through. *)
Definition nullish {A} (x : option A) (d : A) : A :=
  match x with Some a => a | None => d end.

(** Truthiness of a string. *)
Definition truthy (s : string) : bool := negb (String.eqb s "").

(** [s || d] on strings. *)
Definition str_or (s : option string) (d : string) : string :=
  match s with
  | Some x => if truthy x then x else d
  | None => d
  end.

(** An absent value inside a template literal prints as ["undefined"]. *)
Definition show (s : option string) : string :=
  match s with Some x => x | None => "undefined" end.

(** An integer inside a template literal. *)
Definition show_int (z : Z) : string := pretty z.

(** [s.split(c)[0]]: the text before the first [c]. *)
Fixpoint before (c : Ascii.ascii) (s : string) : string :=
  match s with
  | EmptyString => EmptyString
  | String a rest => if Ascii.eqb a c then EmptyString else String a (before c rest)
  end.

(** [s.toUpperCase()], on ASCII text (the identifiers of the modules are
    ASCII). *)
Definition upper (c : Ascii.ascii) : Ascii.ascii :=
  let n := Ascii.nat_of_ascii c in
  if ((97 <=? n) && (n <=? 122))%nat then Ascii.ascii_of_nat (n - 32) else c.

Fixpoint toUpperCase (s : string) : string :=
  match s with
  | EmptyString => EmptyString
  | String c rest => String (upper c) (toUpperCase rest)
  end.

(** [c.repeat(n)] for a one-character string and [s.padStart(n, c)]. *)
Fixpoint repeat (c : Ascii.ascii) (n : nat) : string :=
  match n with
  | O => EmptyString
  | S k => String c (repeat c k)
  end.

Definition padStart (n : nat) (c : Ascii.ascii) (s : string) : string :=
  repeat c (n - String.length s) ++ s.

(** [s.repeat(n)] *)
Fixpoint times (s : string) (n : nat) : string :=
  match n with
  | O => EmptyString
  | S k => s ++ times s k
  end.

(** [s.split(c)] for a separator of one character. *)
Fixpoint split (c : Ascii.ascii) (s : string) : list string :=
  match s with
  | EmptyString => [EmptyString]
  | String a rest =>
      if Ascii.eqb a c then EmptyString :: split c rest
      else match split c rest with
           | [] => [String a EmptyString]
           | x :: xs => String a x :: xs
           end
  end.

(** [l.indexOf(x)]; [None] is [-1]. *)
Fixpoint indexOf (x : string) (l : list string) : option nat :=
  match l with
  | [] => None
  | y :: rest => if String.eqb y x then Some O else option_map S (indexOf x rest)
  end.

End JS.

(** ** Doubles

    The arithmetic of the percentages is that of IEEE 754 doubles: a
    quotient or a product is the exact one rounded to the nearest double, a
    tie going to the even one ([fl]).  A double is the rational it denotes;
    53 bits, exponents from the subnormal numbers up; there is no
    infinity, a result beyond the largest double is outside the model.
    29 of 200 is 14 percent here, as in the code, where the exact quotient
    gives 14.5 and would round to 15. *)

Module Double.

(** [2^e] *)
Definition pow2 (e : Z) : Q := (2 ^ e)%Q.

(** The binade of a positive number: the [e] with [2^e <= x < 2^(e+1)]. *)
Definition ilog2 (x : Q) : Z :=
  let e := Z.log2 (Qnum x) - Z.log2 (Zpos (Qden x)) in
  if Qle_bool (pow2 e) x then e else e - 1.

(** The nearest integer, a half goes to the even one. *)
Definition nearest_even (x : Q) : Z :=
  let f := Qfloor x in
  match (x - inject_Z f ?= 1 # 2)%Q with
  | Lt => f
  | Gt => f + 1
  | Eq => if Z.even f then f else f + 1
  end.

(** The exponent of the last bit of the double nearest to [x]: 53 bits,
    and not below the subnormal numbers. *)
Definition exponent (x : Q) : Z := Z.max (ilog2 (Qabs x) - 52) (-1074).

(** The double nearest to [x]. *)
Definition fl (x : Q) : Q :=
  if Qeq_bool x 0 then 0%Q
  else
    let u := pow2 (exponent x) in
    (inject_Z (nearest_even (x / u)) * u)%Q.

(** [a / b] and [a * b] on doubles. *)
Definition div (a b : Q) : Q := fl (a / b).
Definition mul (a b : Q) : Q := fl (a * b).

End Double.

(** ** Numbers that need not be finite

    Where the code divides by a count or by a stored maximum that can be
    zero, a number is a rational, an infinity or [NaN].  Signed zeros are
    not modelled: a zero divisor counts as [+0]. *)

Module Num.

Inductive t : Type :=
| Fin (q : Q)
| PInf
| NInf
| NaN.

Definition of_nat (n : nat) : t := Fin (inject_Z (Z.of_nat n)).

Definition is_zero (q : Q) : bool := Qeq_bool q 0.
Definition is_pos (q : Q) : bool := negb (Qle_bool q 0).

(** The infinity of a sign. *)
Definition inf (positive : bool) : t := if positive then PInf else NInf.

(** [x + y] *)
Definition add (x y : t) : t :=
  match x, y with
  | NaN, _ | _, NaN => NaN
  | Fin a, Fin b => Fin (a + b)
  | PInf, NInf | NInf, PInf => NaN
  | PInf, _ | _, PInf => PInf
  | NInf, _ | _, NInf => NInf
  end.

(** [x * y] *)
Definition mul (x y : t) : t :=
  match x, y with
  | NaN, _ | _, NaN => NaN
  | Fin a, Fin b => Fin (a * b)
  | Fin a, PInf | PInf, Fin a => if is_zero a then NaN else inf (is_pos a)
  | Fin a, NInf | NInf, Fin a => if is_zero a then NaN else inf (negb (is_pos a))
  | PInf, PInf | NInf, NInf => PInf
  | PInf, NInf | NInf, PInf => NInf
  end.

(** [x / y] *)
Definition div (x y : t) : t :=
  match x, y with
  | NaN, _ | _, NaN => NaN
  | Fin a, Fin b =>
      if is_zero b then (if is_zero a then NaN else inf (is_pos a)) else Fin (a / b)
  | Fin _, PInf | Fin _, NInf => Fin 0
  | PInf, Fin b => inf (is_zero b || is_pos b)
  | NInf, Fin b => inf (negb (is_zero b || is_pos b))
  | PInf, PInf | PInf, NInf | NInf, PInf | NInf, NInf => NaN
  end.

(** [Math.round(x)] *)
Definition round (x : t) : t :=
  match x with
  | Fin q => Fin (inject_Z (JS.Math_round q))
  | other => other
  end.

(** [x || 0]: zero and [NaN] are falsy. *)
Definition or0 (x : t) : t :=
  match x with
  | Fin q => if is_zero q then Fin 0 else x
  | NaN => Fin 0
  | other => other
  end.

(** [x < y]; a comparison with [NaN] is false. *)
Definition lt (x y : t) : bool :=
  match x, y with
  | NaN, _ | _, NaN => false
  | Fin a, Fin b => JS.lt a b
  | _, NInf => false
  | NInf, _ => true
  | PInf, _ => false
  | Fin _, PInf => true
  end.


End Num.

(** ** The monad of asynchronous code

    A computation takes the state [W] and either returns a value or throws
    an error message, with the state it reached. *)

Section Monad.
Context {W : Type}.

Inductive Outcome (A : Type) : Type :=
| Returned (a : A) (w : W)
| Threw (e : string) (w : W).

Definition M (A : Type) : Type := W -> Outcome A.

Definition ret {A} (a : A) : M A := fun w => Returned A a w.

Definition bind {A B} (m : M A) (f : A -> M B) : M B :=
  fun w =>
    match m w with
    | Returned _ a w' => f a w'
    | Threw _ e w' => Threw B e w'
    end.

Definition throw {A} (e : string) : M A := fun w => Threw A e w.

(** [try { body } catch (error) { handler(error) }] *)
Definition try_catch {A} (body : M A) (handler : string -> M A) : M A :=
  fun w =>
    match body w with
    | Returned _ a w' => Returned A a w'
    | Threw _ e w' => handler e w'
    end.

Definition get : M W := fun w => Returned W w w.
Definition gets {A} (f : W -> A) : M A := fun w => Returned A (f w) w.
Definition modify (f : W -> W) : M unit := fun w => Returned unit tt (f w).

(** [for (const x of xs) { body(x) }] *)
Fixpoint for_of {A} (xs : list A) (body : A -> M unit) : M unit :=
  match xs with
  | [] => ret tt
  | x :: rest => bind (body x) (fun _ => for_of rest body)
  end.

(** The state a computation ends in, whichever way it ends. *)
Definition final {A} (o : Outcome A) : W :=
  match o with Returned _ _ w => w | Threw _ _ w => w end.

(** The value a computation returned, if it did. *)
Definition value {A} (o : Outcome A) : option A :=
  match o with Returned _ a _ => Some a | Threw _ _ _ => None end.

(** [m] never throws. *)
Definition total {A} (m : M A) : Prop :=
  forall w, exists a w', m w = Returned A a w'.

(** [m] takes every state to a state related to it by [R], however it
    ends. *)
Definition keeps {A} (R : W -> W -> Prop) (m : M A) : Prop :=
  forall w, R w (final (m w)).

End Monad.

Arguments Outcome : clear implicits.
Arguments M : clear implicits.
Arguments Returned {W A} a w.
Arguments Threw {W A} e w.

Declare Scope js_scope.
Delimit Scope js_scope with js.
Notation "x <- m ;; k" := (bind m (fun x => k))
  (at level 100, m at next level, right associativity) : js_scope.
Notation "m ;;; k" := (bind m (fun _ => k))
  (at level 100, right associativity) : js_scope.
Open Scope js_scope.

(** ** The persistence gateway, as the page sees it

    Every call to the hosted store is recorded in the trace of requests and
    answered by the store, unless the next entry of the fault script says
    otherwise: an error result ([{ data: null, error }]) or a rejected
    promise.  An exhausted script means a healthy gateway. *)

Inductive Fault : Type :=
| NoFault
| ErrorResult (msg : string)
| NetworkThrow (msg : string).

Inductive Op : Type := OpAuth | OpSelect | OpInsert | OpUpsert.

Record Request : Type := { req_table : string; req_op : Op }.

(** The [{ data, error }] object a query resolves to. *)
Record Reply (R : Type) : Type := { data : option R; error : option string }.
Arguments data {R} _.
Arguments error {R} _.

Definition answered {R} (r : R) : Reply R := {| data := Some r; error := None |}.
Definition failed {R} (msg : string) : Reply R := {| data := None; error := Some msg |}.

(** [.single()]: the row when exactly one row matches; otherwise no data and
    the error [PGRST116], the code [getCurrentUser] of the client tests for. *)
Definition single {R} (rows : list R) : Reply R :=
  match rows with
  | [r] => answered r
  | _ => failed "PGRST116"
  end.

Definition is_write (op : Op) : bool :=
  match op with
  | OpInsert | OpUpsert => true
  | OpAuth | OpSelect => false
  end.

(** A scalar of a metadata bag. *)
Inductive Scalar : Type :=
| SNull
| SBool (b : bool)
| SNum (q : Q)
| SStr (s : string).

(** Where a toast is shown: [CognoNotifications.toast] or the tracker's own
    [showToast] fallback. *)
Inductive Sink : Type := ViaNotifications | ViaShowToast.

Record Toast : Type := { toast_sink : Sink; toast_message : string; toast_type : string }.

(** ** The activity catalog of the tracker ([CognoTracker.modules]) *)

Record ActivityInfo : Type := { activity_name : string; activity_maxScore : Q }.

Record ModuleInfo : Type := {
  module_name : string;
  module_icon : string;
  module_color : string;
  module_activities : list (string * ActivityInfo)
}.

(** [obj[key]] on an object literal. *)
Fixpoint prop {A} (key : string) (obj : list (string * A)) : option A :=
  match obj with
  | [] => None
  | (k, v) :: rest => if String.eqb k key then Some v else prop key rest
  end.

(** [Object.keys(obj)] *)
Definition Object_keys {A} (obj : list (string * A)) : list string := map fst obj.

Definition act (name : string) (maxScore : Q) : ActivityInfo :=
  {| activity_name := name; activity_maxScore := maxScore |}.

Definition modules : list (string * ModuleInfo) :=
  [ ("dyslexia",
      {| module_name := "Dyslexia"; module_icon := "fa-book-reader"; module_color := "#0066cc";
         module_activities :=
           [ ("text-reader", act "Text Reader" 100);
             ("text-simplifier", act "Text Simplifier" 100);
             ("letter-match", act "Letter Match" 130);
             ("word-builder", act "Word Builder" 100);
             ("sight-words", act "Sight Words" 100);
             ("rhyme-time", act "Rhyme Time" 100);
             ("spelling-bee", act "Spelling Bee" 100);
             ("word-scramble", act "Word Scramble" 100) ] |});
    ("dyscalculia",
      {| module_name := "Dyscalculia"; module_icon := "fa-calculator"; module_color := "#10b981";
         module_activities :=
           [ ("number-line", act "Number Line" 100);
             ("counting", act "Counting" 100);
             ("number-match", act "Number Match" 100);
             ("addition", act "Addition" 100);
             ("subtraction", act "Subtraction" 100);
             ("multiplication", act "Multiplication" 100);
             ("division", act "Division" 100);
             ("math-pop", act "Math Pop" 100);
             ("number-puzzle", act "Number Puzzle" 100) ] |});
    ("dysgraphia",
      {| module_name := "Dysgraphia"; module_icon := "fa-pen-fancy"; module_color := "#f59e0b";
         module_activities :=
           [ ("letter-tracing", act "Letter Tracing" 100);
             ("letter-formation", act "Letter Formation" 100);
             ("alphabet-practice", act "Alphabet Practice" 100);
             ("word-tracing", act "Word Tracing" 100);
             ("spelling-write", act "Spelling Write" 100);
             ("copy-practice", act "Copy Practice" 100);
             ("free-draw", act "Free Draw" 100);
             ("shape-tracing", act "Shape Tracing" 100);
             ("sentence-write", act "Sentence Write" 100) ] |});
    ("dyspraxia",
      {| module_name := "Dyspraxia"; module_icon := "fa-hand-paper"; module_color := "#8b5cf6";
         module_activities :=
           [ ("balloon-pop", act "Balloon Pop" 100);
             ("catch-stars", act "Catch Stars" 100);
             ("mirror-me", act "Mirror Me" 100);
             ("freeze-dance", act "Freeze Dance" 100);
             ("tightrope-walk", act "Tightrope Walk" 100);
             ("obstacle-course", act "Obstacle Course" 100);
             ("finger-tap", act "Finger Tap" 100);
             ("drag-drop", act "Drag & Drop" 100);
             ("track-path", act "Track Path" 100) ] |}) ].

(** [this.modules[moduleId]] and [moduleInfo?.activities?.[activityId]] *)
Definition moduleInfo_of (moduleId : string) : option ModuleInfo := prop moduleId modules.

Definition activityInfo_of (moduleId activityId : string) : option ActivityInfo :=
  match moduleInfo_of moduleId with
  | Some m => prop activityId (module_activities m)
  | None => None
  end.

(** ** Rows of the tables the tracker reads and writes *)

(** The argument of [saveActivity].  [maxScore], [accuracy] and [metadata]
    are optional. *)
Module Activity.
Record t : Type := mk {
  moduleId : string;
  activityId : string;
  score : Q;
  maxScore : option Q;
  duration : Q;
  accuracy : option Q;
  metadata : option (gmap string Scalar)
}.
End Activity.

(** The tracker's [this.user]. *)
Module User.
Record t : Type := mk {
  id : string;
  email : string;
  name : string;
  role : string;
  avatarUrl : option string
}.
End User.

(** The identity of the session provider ([supabaseClient.auth.getUser()]). *)
Module AuthUser.
Record t : Type := mk { id : string; email : string }.
End AuthUser.

(** [profiles] *)
Module ProfileRow.
Record t : Type := mk {
  id : string;
  full_name : string;
  role : string;
  avatar_url : option string
}.
End ProfileRow.

(** [student_progress]; the key of the upsert is
    [student_id, module_type, activity_id]. *)
Module ProgressRow.
Record t : Type := mk {
  student_id : string;
  module_type : string;
  activity_type : string;
  activity_id : string;
  score : Q;
  max_score : Q;
  accuracy : Q;
  time_spent_seconds : Q;
  completed : bool;
  attempts : Z;
  data : gmap string Scalar;
  updated_at : nat
}.
End ProgressRow.

(** The metadata of an [activity_completed] log entry. *)
Module LogMeta.
Record t : Type := mk {
  module_type : string;
  module_name : option string;
  activity_id : string;
  activity_name : string;
  score : Q;
  percentage : Z;
  duration : Q
}.
End LogMeta.

(** [activity_logs] *)
Module LogRow.
Record t : Type := mk {
  user_id : string;
  activity_type : string;
  metadata : LogMeta.t
}.
End LogRow.

(** [user_achievements] *)
Module AchievementRow.
Record t : Type := mk {
  user_id : string;
  achievement_type : string;
  achievement_id : string;
  title : string;
  description : string;
  icon : string;
  xp_reward : Z;
  unlocked_at : nat
}.
End AchievementRow.

(** [doctor_patients] *)
Module LinkRow.
Record t : Type := mk {
  doctor_id : string;
  patient_id : string;
  status : string
}.
End LinkRow.

(** The [data] of a notification for the doctor. *)
Module NotificationData.
Record t : Type := mk {
  patient_id : string;
  patient_name : string;
  module_id : string;
  activity_id : string;
  score : Q;
  percentage : Z
}.
End NotificationData.

(** [notifications] *)
Module NotificationRow.
Record t : Type := mk {
  user_id : string;
  title : string;
  message : string;
  type : string;
  read : bool;
  data : NotificationData.t;
  created_at : nat
}.
End NotificationRow.

(** An achievement the evaluator considers ([achievementsToCheck]). *)
Module Achievement.
Record t : Type := mk {
  type : string;
  id : string;
  title : string;
  description : string;
  icon : string
}.
End Achievement.

(** An achievement mail handed to [CognoAPI.Email]. *)
Record Email : Type := {
  email_name : string;
  email_address : string;
  email_title : string;
  email_description : string
}.

(** A value of a result object. *)
Inductive JsVal : Type :=
| VNull
| VBool (b : bool)
| VNum (q : Q)
| VStr (s : string)
| VRows (rows : list ProgressRow.t).

(** ** The state of the page and of the hosted store *)

Module Store.

Record DB : Type := {
  profiles : list ProfileRow.t;
  student_progress : list ProgressRow.t;
  activity_logs : list LogRow.t;
  user_achievements : list AchievementRow.t;
  doctor_patients : list LinkRow.t;
  notifications : list NotificationRow.t
}.

Record World : Type := {
  tracker_user : option User.t;      (* [CognoTracker.user] *)
  supabase_loaded : bool;            (* [typeof CognoSupabase !== 'undefined'] *)
  notifications_loaded : bool;       (* [CognoNotifications] and its [toast] *)
  api_loaded : bool;                 (* [CognoAPI] and its [Email] *)
  auth_user : option AuthUser.t;     (* the identity the session provider holds *)
  db : DB;
  faults : list Fault;               (* what the gateway does to the next calls *)
  requests : list Request;           (* the calls made so far, oldest first *)
  toasts : list Toast;               (* the feedback shown so far *)
  emails : list Email;               (* the mails handed to the REST client *)
  clock : nat                        (* [Date.now()] *)
}.

Definition set_student_progress (rows : list ProgressRow.t) (d : DB) : DB :=
  {| profiles := profiles d; student_progress := rows; activity_logs := activity_logs d;
     user_achievements := user_achievements d; doctor_patients := doctor_patients d;
     notifications := notifications d |}.

Definition set_activity_logs (rows : list LogRow.t) (d : DB) : DB :=
  {| profiles := profiles d; student_progress := student_progress d; activity_logs := rows;
     user_achievements := user_achievements d; doctor_patients := doctor_patients d;
     notifications := notifications d |}.

Definition set_user_achievements (rows : list AchievementRow.t) (d : DB) : DB :=
  {| profiles := profiles d; student_progress := student_progress d;
     activity_logs := activity_logs d; user_achievements := rows;
     doctor_patients := doctor_patients d; notifications := notifications d |}.

Definition set_notifications (rows : list NotificationRow.t) (d : DB) : DB :=
  {| profiles := profiles d; student_progress := student_progress d;
     activity_logs := activity_logs d; user_achievements := user_achievements d;
     doctor_patients := doctor_patients d; notifications := rows |}.

Definition set_tracker_user (u : option User.t) (w : World) : World :=
  {| tracker_user := u; supabase_loaded := supabase_loaded w;
     notifications_loaded := notifications_loaded w; api_loaded := api_loaded w;
     auth_user := auth_user w; db := db w; faults := faults w; requests := requests w;
     toasts := toasts w; emails := emails w; clock := clock w |}.

Definition set_toasts (ts : list Toast) (w : World) : World :=
  {| tracker_user := tracker_user w; supabase_loaded := supabase_loaded w;
     notifications_loaded := notifications_loaded w; api_loaded := api_loaded w;
     auth_user := auth_user w; db := db w; faults := faults w; requests := requests w;
     toasts := ts; emails := emails w; clock := clock w |}.

Definition set_emails (es : list Email) (w : World) : World :=
  {| tracker_user := tracker_user w; supabase_loaded := supabase_loaded w;
     notifications_loaded := notifications_loaded w; api_loaded := api_loaded w;
     auth_user := auth_user w; db := db w; faults := faults w; requests := requests w;
     toasts := toasts w; emails := es; clock := clock w |}.

(** The state after a call: the call is in the trace, the fault script has
    lost its head, the store is [d]. *)
Definition after_call (rq : Request) (d : DB) (w : World) : World :=
  {| tracker_user := tracker_user w; supabase_loaded := supabase_loaded w;
     notifications_loaded := notifications_loaded w; api_loaded := api_loaded w;
     auth_user := auth_user w; db := d; faults := tail (faults w);
     requests := requests w ++ [rq]; toasts := toasts w; emails := emails w;
     clock := clock w |}.

(** One call to the hosted service.  Without the client script the name
    [CognoSupabase] is unbound and the call throws; otherwise the fault
    script decides whether the store answers. *)
Definition call {R} (table : string) (op : Op) (answer : World -> Reply R * DB)
  : M World (Reply R) :=
  fun w =>
    let rq := {| req_table := table; req_op := op |} in
    if supabase_loaded w then
      match head (faults w) with
      | None | Some NoFault =>
          let '(r, d) := answer w in Returned r (after_call rq d w)
      | Some (ErrorResult msg) => Returned (failed msg) (after_call rq (db w) w)
      | Some (NetworkThrow msg) => Threw msg (after_call rq (db w) w)
      end
    else Threw "CognoSupabase is not defined" w.

(** [await client.from(table).select(...)...] *)
Definition select {R} (table : string) (query : DB -> Reply R) : M World (Reply R) :=
  call table OpSelect (fun w => (query (db w), db w)).

(** [await client.from(table).insert(row)] *)
Definition insert (table : string) (write : DB -> DB) : M World (Reply unit) :=
  call table OpInsert (fun w => (answered tt, write (db w))).

(** [await supabaseClient.auth.getUser()]: [data.user]. *)
Definition auth_getUser : M World (Reply (option AuthUser.t)) :=
  call "auth" OpAuth (fun w => (answered (auth_user w), db w)).

(** The gateway answers every call from now on. *)
Definition healthy (w : World) : Prop := supabase_loaded w = true /\ faults w = [].

(** *** Vocabulary for the effects of a computation *)

(** What neither a gateway call nor a toast changes. *)
Definition same_page (w w' : World) : Prop :=
  supabase_loaded w' = supabase_loaded w
  /\ notifications_loaded w' = notifications_loaded w
  /\ api_loaded w' = api_loaded w
  /\ auth_user w' = auth_user w
  /\ clock w' = clock w.

(** A request that writes to [table]. *)
Definition writes_to (table : string) (rq : Request) : bool :=
  String.eqb (req_table rq) table && is_write (req_op rq).

(** No request of [l] writes to [table]. *)
Definition untouched (l : list Request) (table : string) : Prop :=
  Forall (fun rq => writes_to table rq = false) l.

(** A table that no request of [l] writes to is the same in [d] and [d']. *)
Definition db_frame (l : list Request) (d d' : DB) : Prop :=
  (untouched l "profiles" -> profiles d' = profiles d)
  /\ (untouched l "student_progress" -> student_progress d' = student_progress d)
  /\ (untouched l "activity_logs" -> activity_logs d' = activity_logs d)
  /\ (untouched l "user_achievements" -> user_achievements d' = user_achievements d)
  /\ (untouched l "doctor_patients" -> doctor_patients d' = doctor_patients d)
  /\ (untouched l "notifications" -> notifications d' = notifications d).

(** [trans P w w']: from [w] to [w'] the page made the requests [l], all in
    [P]; each consumed one entry of the fault script; the tracker kept its
    user; a table changed only if a request wrote to it. *)
Definition trans (P : Request -> Prop) (w w' : World) : Prop :=
  same_page w w'
  /\ tracker_user w' = tracker_user w
  /\ exists l,
       requests w' = requests w ++ l
       /\ faults w' = drop (length l) (faults w)
       /\ Forall P l
       /\ db_frame l (db w) (db w').

(** [m] stays within the requests [P], however it ends. *)
Definition within {A} (P : Request -> Prop) (m : M World A) : Prop :=
  keeps (trans P) m.

(** No toast and no mail between [w] and [w']. *)
Definition quiet (w w' : World) : Prop :=
  toasts w' = toasts w /\ emails w' = emails w.

(** The requests made from [w] to [w']. *)
Definition new_requests (w w' : World) : list Request :=
  drop (length (requests w)) (requests w').

(** The requests of a given list. *)
Definition among (rqs : list Request) (r : Request) : Prop := In r rqs.

Definition rq (table : string) (op : Op) : Request :=
  {| req_table := table; req_op := op |}.

(** The requests of resolving the identity, of the history log, of the
    achievement evaluator and of the notification fan-out. *)
Definition rq_identity : list Request := [rq "auth" OpAuth; rq "profiles" OpSelect].
Definition rq_history : list Request := [rq "auth" OpAuth; rq "activity_logs" OpInsert].
Definition rq_achievements : list Request :=
  [rq "student_progress" OpSelect; rq "user_achievements" OpSelect;
   rq "user_achievements" OpInsert].
Definition rq_notify : list Request :=
  [rq "doctor_patients" OpSelect; rq "notifications" OpInsert].

End Store.

(** ** The client wrappers the tracker calls ([window.CognoSupabase]) *)

Module CognoSupabase.
Import Store.

(** What [getCurrentUser] resolves to: [{ success, user, error }], where
    the profile sits inside [user]. *)
Record CurrentUser : Type := {
  success : bool;
  user : option (AuthUser.t * option ProfileRow.t);
  error_message : option string
}.

Definition getCurrentUser : M World CurrentUser :=
  try_catch
    (r <- auth_getUser ;;
     match error r with
     | Some e => throw e
     | None =>
         match data r with
         | Some (Some u) =>
             p <- select "profiles"
                    (fun d => single (List.filter
                                        (fun row => String.eqb (ProfileRow.id row) (AuthUser.id u))
                                        (profiles d))) ;;
             ret {| success := true; user := Some (u, data p); error_message := None |}
         | _ => ret {| success := true; user := None; error_message := None |}
         end
     end)
    (fun e => ret {| success := false; user := None; error_message := Some e |}).

(** [logActivity(activityType, metadata)]; the columns [ip_address] and
    [user_agent] of the row are left out.  The result is [success]. *)
Definition logActivity (activityType : string) (metadata : LogMeta.t) : M World bool :=
  try_catch
    (r <- auth_getUser ;;
     match data r with
     | Some (Some u) =>
         let row := LogRow.mk (AuthUser.id u) activityType metadata in
         ins <- insert "activity_logs"
                  (fun d => set_activity_logs (activity_logs d ++ [row]) d) ;;
         match error ins with
         | Some e => throw e
         | None => ret true
         end
     | _ => ret false
     end)
    (fun _ => ret false).

End CognoSupabase.

(** ** The activity tracker ([CognoTracker]) *)

Module CognoTracker.
Import Store.

(** [config] *)
Definition notifyDoctorThreshold : Z := 80.
Definition celebrateThreshold : Z := 90.
Definition minDurationSeconds : Z := 5.

(** [getCurrentUser].  The code destructures [{ user, profile }] from the
    result of the client, which has no [profile] at its top level. *)
Definition getCurrentUser : M World (option User.t) :=
  try_catch
    (loaded <- gets supabase_loaded ;;
     if negb loaded then ret None
     else
       r <- CognoSupabase.getCurrentUser ;;
       let profile : option ProfileRow.t := None in
       match CognoSupabase.user r with
       | None => ret None
       | Some (u, _) =>
           ret (Some (User.mk
                        (AuthUser.id u)
                        (AuthUser.email u)
                        (JS.str_or (option_map ProfileRow.full_name profile)
                                   (JS.before "@"%char (AuthUser.email u)))
                        (JS.str_or (option_map ProfileRow.role profile) "student")
                        (match profile with
                         | Some p => ProfileRow.avatar_url p
                         | None => None
                         end)))
       end)
    (fun _ => ret None).

(** [showToast(message, type)]: the fallback toast of the tracker. *)
Definition showToast (message type : string) : M World unit :=
  modify (fun w => set_toasts (toasts w ++ [Build_Toast ViaShowToast message type]) w).

(** A toast through [CognoNotifications.toast] when it is loaded, through
    [showToast] otherwise. *)
Definition toast (message type : string) : M World unit :=
  loaded <- gets notifications_loaded ;;
  if loaded
  then modify (fun w => set_toasts (toasts w ++ [Build_Toast ViaNotifications message type]) w)
  else showToast message type.

(** [showLocalFeedback(activity, percentage)] *)
Definition showLocalFeedback (activity : Activity.t) : M World unit :=
  showToast "Score saved locally! Log in to track your progress." "info".

(** [showSuccessFeedback(activity, percentage)] *)
Definition showSuccessFeedback (activity : Activity.t) (percentage : Z) : M World unit :=
  let activityInfo := activityInfo_of (Activity.moduleId activity) (Activity.activityId activity) in
  let shown := JS.str_or (option_map activity_name activityInfo) "activity" in
  let pct := JS.show_int percentage in
  if (90 <=? percentage)%Z then
    toast ("🌟 Excellent! " ++ pct ++ "% on " ++ shown ++ "!") "success"
  else if (70 <=? percentage)%Z then
    toast ("✅ Great job! " ++ pct ++ "% on " ++ shown ++ "!") "success"
  else if (50 <=? percentage)%Z then
    toast ("👍 Good effort! " ++ pct ++ "% on " ++ shown) "success"
  else
    toast ("Keep practicing! " ++ pct ++ "% - You'll improve!") "info".

(** [showAchievementUnlocked(achievement)] *)
Definition showAchievementUnlocked (achievement : Achievement.t) : M World unit :=
  toast ("🎉 Achievement Unlocked: " ++ Achievement.title achievement ++ "!") "success".

(** [logActivityHistory(activity, percentage)] *)
Definition logActivityHistory (activity : Activity.t) (percentage : Z) : M World unit :=
  try_catch
    (let moduleInfo := moduleInfo_of (Activity.moduleId activity) in
     let activityInfo := activityInfo_of (Activity.moduleId activity) (Activity.activityId activity) in
     CognoSupabase.logActivity "activity_completed"
       (LogMeta.mk
          (Activity.moduleId activity)
          (option_map module_name moduleInfo)
          (Activity.activityId activity)
          (JS.str_or (option_map activity_name activityInfo) (Activity.activityId activity))
          (Activity.score activity)
          percentage
          (Activity.duration activity)) ;;;
     ret tt)
    (fun _ => ret tt).

(** The three achievements of the evaluator. *)
Definition first_activity : Achievement.t :=
  Achievement.mk "milestone" "first_activity" "First Steps" "Complete your first activity" "🌟".

Definition perfect (moduleId : string) : Achievement.t :=
  Achievement.mk "performance" ("perfect_" ++ moduleId) "Perfect Score!"
    ("Get 100% on a " ++ JS.show (option_map module_name (moduleInfo_of moduleId)) ++ " activity")
    "🏆".

Definition mastery (moduleId : string) : Achievement.t :=
  Achievement.mk "mastery" ("mastery_" ++ moduleId)
    (JS.show (option_map module_name (moduleInfo_of moduleId)) ++ " Master")
    ("Complete all " ++ JS.show (option_map module_name (moduleInfo_of moduleId)) ++ " activities")
    "👑".

(** The rows of [user_achievements] for a user and an achievement id. *)
Definition earned (userId achievementId : string) (d : DB) : list AchievementRow.t :=
  List.filter
    (fun r => String.eqb (AchievementRow.user_id r) userId
              && String.eqb (AchievementRow.achievement_id r) achievementId)
    (user_achievements d).

(** The body of the loop over [achievementsToCheck]. *)
Definition award (usr : User.t) (percentage : Z) (achievement : Achievement.t) : M World unit :=
  existing <- select "user_achievements"
                (fun d => single (earned (User.id usr) (Achievement.id achievement) d)) ;;
  match data existing with
  | Some _ => ret tt
  | None =>
      now <- gets clock ;;
      let row :=
        AchievementRow.mk
          (User.id usr)
          (Achievement.type achievement)
          (Achievement.id achievement)
          (Achievement.title achievement)
          (Achievement.description achievement)
          (Achievement.icon achievement)
          (if (90 <=? percentage)%Z then 50 else 25)
          now in
      r <- insert "user_achievements"
             (fun d => set_user_achievements (user_achievements d ++ [row]) d) ;;
      match error r with
      | Some _ => ret tt
      | None =>
          showAchievementUnlocked achievement ;;;
          api <- gets api_loaded ;;
          if api
          then modify (fun w => set_emails
                                  (emails w ++ [{| email_name := User.name usr;
                                                   email_address := User.email usr;
                                                   email_title := Achievement.title achievement;
                                                   email_description := Achievement.description achievement |}])
                                  w)
          else ret tt
      end
  end.

(** The achievements that qualify, from the answers of the two queries. *)
Definition achievementsToCheck (moduleId : string) (percentage : Z)
    (allProgress moduleProgress : Reply (list ProgressRow.t)) : list Achievement.t :=
  let moduleActivities :=
    Object_keys (match moduleInfo_of moduleId with
                 | Some m => module_activities m
                 | None => []
                 end) in
  let completedActivities : gset string :=
    list_to_set (match data moduleProgress with
                 | Some rows => map ProgressRow.activity_id rows
                 | None => []
                 end) in
  (match data allProgress with
   | Some rows => if (length rows =? 1)%nat then [first_activity] else []
   | None => []
   end)
  ++ (if (percentage =? 100)%Z then [perfect moduleId] else [])
  ++ (if (0 <? length moduleActivities)%nat
         && forallb (fun a => bool_decide (a ∈ completedActivities)) moduleActivities
      then [mastery moduleId] else []).

(** [checkAchievements(moduleId, percentage)] *)
Definition checkAchievements (moduleId : string) (percentage : Z) : M World unit :=
  try_catch
    (u <- gets tracker_user ;;
     match u with
     | None => ret tt
     | Some usr =>
         allProgress <- select "student_progress"
           (fun d => answered (List.filter
                                 (fun r => String.eqb (ProgressRow.student_id r) (User.id usr))
                                 (student_progress d))) ;;
         moduleProgress <- select "student_progress"
           (fun d => answered (List.filter
                                 (fun r => String.eqb (ProgressRow.student_id r) (User.id usr)
                                           && String.eqb (ProgressRow.module_type r) moduleId
                                           && ProgressRow.completed r)
                                 (student_progress d))) ;;
         for_of (achievementsToCheck moduleId percentage allProgress moduleProgress)
                (award usr percentage)
     end)
    (fun _ => ret tt).

(** The active links of a patient, as [notifyDoctor] filters them. *)
Definition activeLinks (patientId : string) (d : DB) : list LinkRow.t :=
  List.filter
    (fun l => String.eqb (LinkRow.patient_id l) patientId
              && String.eqb (LinkRow.status l) "active")
    (doctor_patients d).

(** The notification [notifyDoctor] builds for the doctor. *)
Definition notification (usr : User.t) (activity : Activity.t) (percentage : Z)
    (doctorId : string) (now : nat) : NotificationRow.t :=
  let moduleInfo := moduleInfo_of (Activity.moduleId activity) in
  let activityInfo := activityInfo_of (Activity.moduleId activity) (Activity.activityId activity) in
  NotificationRow.mk
    doctorId
    (if (90 <=? percentage)%Z then "🌟 Excellent Progress!" else "✅ Activity Completed")
    (User.name usr ++ " scored " ++ JS.show_int percentage ++ "% on "
       ++ JS.str_or (option_map activity_name activityInfo) (Activity.activityId activity)
       ++ " (" ++ JS.show (option_map module_name moduleInfo) ++ ")")
    (if (90 <=? percentage)%Z then "achievement" else "info")
    false
    (NotificationData.mk
       (User.id usr)
       (User.name usr)
       (Activity.moduleId activity)
       (Activity.activityId activity)
       (Activity.score activity)
       percentage)
    now.

(** [notifyDoctor(activity, percentage)] *)
Definition notifyDoctor (activity : Activity.t) (percentage : Z) : M World unit :=
  try_catch
    (u <- gets tracker_user ;;
     match u with
     | None => ret tt
     | Some usr =>
         link <- select "doctor_patients" (fun d => single (activeLinks (User.id usr) d)) ;;
         match data link with
         | None => ret tt
         | Some l =>
             if negb (JS.truthy (LinkRow.doctor_id l)) then ret tt
             else
               now <- gets clock ;;
               let row := notification usr activity percentage (LinkRow.doctor_id l) now in
               insert "notifications"
                 (fun d => set_notifications (notifications d ++ [row]) d) ;;;
               ret tt
         end
     end)
    (fun _ => ret tt).

(** The [maxScore] and the [percentage] of [saveActivity]. *)
Definition maxScore_of (activity : Activity.t) : Q :=
  let activityInfo := activityInfo_of (Activity.moduleId activity) (Activity.activityId activity) in
  JS.num_or (Activity.maxScore activity)
            (JS.num_or (option_map activity_maxScore activityInfo) 100).

Definition percentage_of (activity : Activity.t) : Z :=
  JS.Math_min 100
    (JS.Math_round (Double.mul (Double.div (Activity.score activity) (maxScore_of activity))
                               100)).

(** The [progressRecord] of [saveActivity]. *)
Definition progressRecord (usr : User.t) (activity : Activity.t) (now : nat) : ProgressRow.t :=
  let activityInfo := activityInfo_of (Activity.moduleId activity) (Activity.activityId activity) in
  let maxScore := maxScore_of activity in
  let percentage := percentage_of activity in
  let accuracy := JS.nullish (Activity.accuracy activity) (inject_Z percentage) in
  ProgressRow.mk
    (User.id usr)
    (Activity.moduleId activity)
    (JS.str_or (option_map activity_name activityInfo) (Activity.activityId activity))
    (Activity.activityId activity)
    (Activity.score activity)
    maxScore
    accuracy
    (JS.num_or (Some (Activity.duration activity)) 0)
    (50 <=? percentage)%Z
    1
    (JS.nullish (Activity.metadata activity) ∅ ∪ {[ "completion_percentage" := SNum (inject_Z percentage) ]})
    now.

(** Two rows with the same [student_id, module_type, activity_id]. *)
Definition same_key (r x : ProgressRow.t) : bool :=
  String.eqb (ProgressRow.student_id x) (ProgressRow.student_id r)
  && String.eqb (ProgressRow.module_type x) (ProgressRow.module_type r)
  && String.eqb (ProgressRow.activity_id x) (ProgressRow.activity_id r).

(** [upsert(row, { onConflict: 'student_id,module_type,activity_id' })]:
    the row replaces the row with its key, or is added. *)
Definition upsert_row (r : ProgressRow.t) (rows : list ProgressRow.t) : list ProgressRow.t :=
  if existsb (same_key r) rows
  then map (fun x => if same_key r x then r else x) rows
  else rows ++ [r].

(** [await client.from('student_progress').upsert(row, ...).select()] *)
Definition upsert (r : ProgressRow.t) : M World (Reply (list ProgressRow.t)) :=
  call "student_progress" OpUpsert
    (fun w =>
       let rows := upsert_row r (student_progress (db w)) in
       (answered (List.filter (same_key r) rows), set_student_progress rows (db w))).

(** [saveActivity(activity)] *)
Definition saveActivity (activity : Activity.t) : M World (gmap string JsVal) :=
  try_catch
    (if negb (JS.truthy (Activity.moduleId activity))
        || negb (JS.truthy (Activity.activityId activity))
     then ret {[ "success" := VBool false; "error" := VStr "Missing required fields" ]}
     else
       u0 <- gets tracker_user ;;
       (match u0 with
        | Some _ => ret tt
        | None => u <- getCurrentUser ;; modify (set_tracker_user u)
        end) ;;;
       u1 <- gets tracker_user ;;
       match u1 with
       | None =>
           showLocalFeedback activity ;;;
           ret {[ "success" := VBool true; "guest" := VBool true ]}
       | Some usr =>
           let percentage := percentage_of activity in
           now <- gets clock ;;
           r <- upsert (progressRecord usr activity now) ;;
           match error r with
           | Some e =>
               showLocalFeedback activity ;;;
               ret {[ "success" := VBool false; "error" := VStr e ]}
           | None =>
               logActivityHistory activity percentage ;;;
               checkAchievements (Activity.moduleId activity) percentage ;;;
               (if (notifyDoctorThreshold <=? percentage)%Z
                then notifyDoctor activity percentage
                else ret tt) ;;;
               showSuccessFeedback activity percentage ;;;
               ret {[ "success" := VBool true;
                      "data" := match data r with Some rows => VRows rows | None => VNull end;
                      "percentage" := VNum (inject_Z percentage) ]}
           end
       end)
    (fun e => ret {[ "success" := VBool false; "error" := VStr e ]}).

(** *** The runs of [saveActivity] *)

(** The result objects. *)
Definition missingFields : gmap string JsVal :=
  {[ "success" := VBool false; "error" := VStr "Missing required fields" ]}.

Definition guestResult : gmap string JsVal :=
  {[ "success" := VBool true; "guest" := VBool true ]}.

Definition failure (e : string) : gmap string JsVal :=
  {[ "success" := VBool false; "error" := VStr e ]}.

Definition saved (r : Reply (list ProgressRow.t)) (percentage : Z) : gmap string JsVal :=
  {[ "success" := VBool true;
     "data" := match data r with Some rows => VRows rows | None => VNull end;
     "percentage" := VNum (inject_Z percentage) ]}.

(** The toast of [showLocalFeedback]. *)
Definition localFeedback : Toast :=
  {| toast_sink := ViaShowToast;
     toast_message := "Score saved locally! Log in to track your progress.";
     toast_type := "info" |}.

(** Both required fields are there. *)
Definition valid (activity : Activity.t) : bool :=
  JS.truthy (Activity.moduleId activity) && JS.truthy (Activity.activityId activity).

(** [w1] is [w] after "refresh user if needed". *)
Definition refreshed (w w1 : World) : Prop :=
  match tracker_user w with
  | Some _ => w1 = w
  | None => exists u wg, getCurrentUser w = Returned u wg /\ w1 = set_tracker_user u wg
  end.

(** The five ways [saveActivity] runs from [w]: the result and the state it
    ends in. *)
Inductive SaveRun (activity : Activity.t) (w : World) : gmap string JsVal -> World -> Prop :=
| RunMissing :
    valid activity = false ->
    SaveRun activity w missingFields w
| RunGuest w1 :
    valid activity = true ->
    refreshed w w1 ->
    tracker_user w1 = None ->
    SaveRun activity w guestResult (set_toasts (toasts w1 ++ [localFeedback]) w1)
| RunThrown usr w1 e w2 :
    valid activity = true ->
    refreshed w w1 ->
    tracker_user w1 = Some usr ->
    upsert (progressRecord usr activity (clock w1)) w1 = Threw e w2 ->
    SaveRun activity w (failure e) w2
| RunRejected usr w1 r e w2 :
    valid activity = true ->
    refreshed w w1 ->
    tracker_user w1 = Some usr ->
    upsert (progressRecord usr activity (clock w1)) w1 = Returned r w2 ->
    error r = Some e ->
    SaveRun activity w (failure e) (set_toasts (toasts w2 ++ [localFeedback]) w2)
| RunSaved usr w1 r w2 w3 w4 w5 w6 :
    valid activity = true ->
    refreshed w w1 ->
    tracker_user w1 = Some usr ->
    upsert (progressRecord usr activity (clock w1)) w1 = Returned r w2 ->
    error r = None ->
    logActivityHistory activity (percentage_of activity) w2 = Returned tt w3 ->
    checkAchievements (Activity.moduleId activity) (percentage_of activity) w3
      = Returned tt w4 ->
    (if (notifyDoctorThreshold <=? percentage_of activity)%Z
     then notifyDoctor activity (percentage_of activity)
     else ret tt) w4 = Returned tt w5 ->
    showSuccessFeedback activity (percentage_of activity) w5 = Returned tt w6 ->
    SaveRun activity w (saved r (percentage_of activity)) w6.

(** The rows of [student_progress] of one activity of one student. *)
Definition recorded (studentId moduleId activityId : string) (d : DB) : list ProgressRow.t :=
  List.filter
    (fun x => String.eqb (ProgressRow.student_id x) studentId
              && String.eqb (ProgressRow.module_type x) moduleId
              && String.eqb (ProgressRow.activity_id x) activityId)
    (student_progress d).

(** At most one row of [user_achievements] for a user and an achievement
    id. *)
Definition awarded_once (d : DB) : Prop :=
  forall userId achievementId, (length (earned userId achievementId d) <= 1)%nat.

(** The tracker has no user and the session provider resolves none. *)
Definition guest (w : World) : Prop :=
  tracker_user w = None /\ exists wg, getCurrentUser w = Returned None wg.

(** *** Reading the progress back *)

(** What [getModuleProgress] resolves to. *)
Record ModuleProgress : Type := {
  totalActivities : nat;
  completedActivities : nat;
  completionPercentage : Num.t;
  averageScore : Num.t;
  activities : list ProgressRow.t
}.

(** The rows of a student in a module: [.eq('student_id', ...)
    .eq('module_type', ...)]. *)
Definition progressOf (studentId moduleId : string) (d : DB) : list ProgressRow.t :=
  List.filter
    (fun p => String.eqb (ProgressRow.student_id p) studentId
              && String.eqb (ProgressRow.module_type p) moduleId)
    (student_progress d).

(** The term of a row in the average: [(p.score / p.max_score) * 100 || 0]. *)
Definition scoreTerm (p : ProgressRow.t) : Num.t :=
  Num.or0 (Num.mul (Num.div (Num.Fin (ProgressRow.score p))
                             (Num.Fin (ProgressRow.max_score p)))
                   (Num.Fin 100)).

(** The object [getModuleProgress] builds from the answer of its query. *)
Definition summary (moduleId : string) (data : option (list ProgressRow.t))
  : ModuleProgress :=
  let activities :=
    match moduleInfo_of moduleId with
    | Some m => module_activities m
    | None => []
    end in
  let totalActivities := length (Object_keys activities) in
  let completedActivities :=
    match data with
    | Some rows => length (List.filter ProgressRow.completed rows)
    | None => 0%nat
    end in
  let avgScore :=
    match data with
    | Some rows =>
        if (0 <? length rows)%nat
        then Num.round
               (Num.div (fold_left (fun sum p => Num.add sum (scoreTerm p)) rows (Num.Fin 0))
                        (Num.of_nat (length rows)))
        else Num.Fin 0
    | None => Num.Fin 0
    end in
  {| totalActivities := totalActivities;
     completedActivities := completedActivities;
     completionPercentage :=
       Num.round (Num.mul (Num.div (Num.of_nat completedActivities)
                                   (Num.of_nat totalActivities))
                          (Num.Fin 100));
     averageScore := avgScore;
     activities := match data with Some rows => rows | None => [] end |}.

(** [getModuleProgress(moduleId)]; [None] is [null]. *)
Definition getModuleProgress (moduleId : string) : M World (option ModuleProgress) :=
  try_catch
    (u <- gets tracker_user ;;
     match u with
     | None => ret None
     | Some usr =>
         r <- select "student_progress"
                (fun d => answered (progressOf (User.id usr) moduleId d)) ;;
         match error r with
         | Some e => throw e
         | None => ret (Some (summary moduleId (data r)))
         end
     end)
    (fun _ => ret None).

(** The certificate of [generateCertificate]. *)
Record Certificate : Type := {
  studentName : string;
  moduleName : string;
  cert_completionPercentage : Num.t;
  cert_averageScore : Num.t;
  cert_completedActivities : nat;
  cert_totalActivities : nat;
  earnedAt : nat;
  certificateId : string
}.

(** What [generateCertificate] resolves to: [null], [{ error }] or
    [{ success: true, certificate }]. *)
Inductive CertificateResult : Type :=
| NoCertificate
| Refused (error : string)
| Issued (certificate : Certificate).

Definition tooEarly : string :=
  "Complete at least 70% of the module to earn a certificate".

(** The certificate of a user for a summary. *)
Definition certificateOf (usr : User.t) (moduleId : string) (p : ModuleProgress)
    (now : nat) : Certificate :=
  let moduleInfo := moduleInfo_of moduleId in
  {| studentName := User.name usr;
     moduleName := JS.str_or (option_map module_name moduleInfo) moduleId;
     cert_completionPercentage := completionPercentage p;
     cert_averageScore := averageScore p;
     cert_completedActivities := completedActivities p;
     cert_totalActivities := totalActivities p;
     earnedAt := now;
     certificateId :=
       "COGNO-" ++ JS.toUpperCase moduleId ++ "-"
         ++ String.substring 0 8 (User.id usr) ++ "-" ++ pretty now |}.

(** [generateCertificate(moduleId)] *)
Definition generateCertificate (moduleId : string) : M World CertificateResult :=
  try_catch
    (u <- gets tracker_user ;;
     match u with
     | None => ret NoCertificate
     | Some usr =>
         progress <- getModuleProgress moduleId ;;
         match progress with
         | None => ret (Refused tooEarly)
         | Some p =>
             if Num.lt (completionPercentage p) (Num.Fin 70) then ret (Refused tooEarly)
             else
               now <- gets clock ;;
               ret (Issued (certificateOf usr moduleId p now))
         end
     end)
    (fun e => ret (Refused e)).

(** The row the evaluator inserts for an achievement. *)
Definition unlocked (usr : User.t) (percentage : Z) (now : nat)
    (achievement : Achievement.t) : AchievementRow.t :=
  AchievementRow.mk
    (User.id usr)
    (Achievement.type achievement)
    (Achievement.id achievement)
    (Achievement.title achievement)
    (Achievement.description achievement)
    (Achievement.icon achievement)
    (if (90 <=? percentage)%Z then 50 else 25)
    now.

(** The entry of the history for an attempt. *)
Definition historyEntry (userId : string) (activity : Activity.t) : LogRow.t :=
  LogRow.mk userId "activity_completed"
    (LogMeta.mk
       (Activity.moduleId activity)
       (option_map module_name (moduleInfo_of (Activity.moduleId activity)))
       (Activity.activityId activity)
       (JS.str_or (option_map activity_name
                     (activityInfo_of (Activity.moduleId activity)
                                      (Activity.activityId activity)))
                  (Activity.activityId activity))
       (Activity.score activity)
       (percentage_of activity)
       (Activity.duration activity)).

End CognoTracker.

(** ** Sample states and attempts *)

Module Sample.
Import Store.

Definition kid : User.t := User.mk "u1" "kid@example.org" "kid" "student" None.

Definition empty_db : DB :=
  {| profiles := []; student_progress := []; activity_logs := [];
     user_achievements := []; doctor_patients := []; notifications := [] |}.

(** A student with one doctor. *)
Definition one_doctor : DB :=
  {| profiles := []; student_progress := []; activity_logs := [];
     user_achievements := [];
     doctor_patients := [LinkRow.mk "doc1" "u1" "active"];
     notifications := [] |}.

(** A student two doctors have added as their patient. *)
Definition two_doctors : DB :=
  {| profiles := []; student_progress := []; activity_logs := [];
     user_achievements := [];
     doctor_patients := [LinkRow.mk "doc1" "u1" "active"; LinkRow.mk "doc2" "u1" "active"];
     notifications := [] |}.

(** A page whose tracker knows the student [usr], over the store [d], with a
    healthy gateway. *)
Definition page (usr : option User.t) (d : DB) : World :=
  {| tracker_user := usr; supabase_loaded := true; notifications_loaded := false;
     api_loaded := false;
     auth_user := option_map (fun u => AuthUser.mk (User.id u) (User.email u)) usr;
     db := d; faults := []; requests := []; toasts := []; emails := []; clock := 1000 |}.

(** An attempt at [letter-match] with a given score out of 100, in 90
    seconds. *)
Definition attempt (score : Q) : Activity.t :=
  Activity.mk "dyslexia" "letter-match" score (Some 100%Q) 90 None None.

(** The store after the first, perfect attempt of the student, with the
    milestone of the first activity recorded. *)
Definition first_steps : AchievementRow.t :=
  AchievementRow.mk "u1" "milestone" "first_activity" "First Steps"
    "Complete your first activity" "🌟" 50 1000.

Definition played : DB :=
  {| profiles := [];
     student_progress := [CognoTracker.progressRecord kid (attempt 100) 1000];
     activity_logs := [];
     user_achievements := [first_steps];
     doctor_patients := [];
     notifications := [] |}.

(** The same page when the gateway misbehaves as the script [fs] says. *)
Definition failing (fs : list Fault) (w : World) : World :=
  {| tracker_user := tracker_user w; supabase_loaded := supabase_loaded w;
     notifications_loaded := notifications_loaded w; api_loaded := api_loaded w;
     auth_user := auth_user w; db := db w; faults := fs; requests := requests w;
     toasts := toasts w; emails := emails w; clock := clock w |}.

End Sample.

(** ** The modules handler ([CognoModules])

    The handler calls the client of the sources, [window.CognoSupabase]:
    [logActivity(activityType, metadata = {})] and [insert(table, data)]
    are there and catch what the provider throws; [upsert] is not among
    its functions. *)

(** [activity_progress]; the key of the upsert is
    [user_id, module_type, activity_id]. *)
Module ActivityProgressRow.
Record t : Type := mk {
  user_id : string;
  module_type : string;
  activity_id : string;
  completion_percentage : Q;
  best_score : Q;
  attempts : Z;
  total_time_spent : Q;
  last_played : nat
}.
End ActivityProgressRow.

(** The object the handler passes to [logActivity] when an activity
    starts. *)
Module StartLog.
Record t : Type := mk {
  user_id : string;
  activity_type : string;
  module_type : string;
  activity_id : string;
  timestamp : nat
}.
End StartLog.

(** The object the handler passes to [logActivity] when an activity is
    completed. *)
Module CompletionLog.
Record t : Type := mk {
  user_id : string;
  activity_type : string;
  module_type : string;
  activity_id : string;
  points_earned : Z;
  score : Q;
  maxScore : Q;
  percentage : Z;
  duration : Q;
  timestamp : nat
}.
End CompletionLog.

(** The handler calls [logActivity] with one object. *)
Inductive LogObject : Type :=
| Started (entry : StartLog.t)
| Completed (entry : CompletionLog.t).

(** A row of [activity_logs] as the client writes it for the handler:
    [user_id] is the user of the session, [activity_type] is the first
    argument, here the whole object, and [metadata] is the default [{}].
    The columns [ip_address] and [user_agent] are left out. *)
Module HandlerLog.
Record t : Type := mk {
  user_id : string;
  activity_type : LogObject
}.
End HandlerLog.

(** A row of [user_achievements], as the handler inserts it. *)
Module UnlockRow.
Record t : Type := mk {
  user_id : string;
  achievement_type : string;
  module_type : string;
  activity_id : string;
  earned_at : nat
}.
End UnlockRow.

Module CognoModules.

(** The item [cogno-activity-session] of [sessionStorage]. *)
Record Session : Type := {
  session_activityId : string;
  session_module : string;
  session_startTime : nat
}.

Record World : Type := {
  user : option AuthUser.t;                                     (* [this.user] *)
  currentModule : string;                                       (* [this.currentModule] *)
  activityProgress : option (gmap string ActivityProgressRow.t); (* [this.activityProgress] *)
  supabase_loaded : bool;                                       (* the name [CognoSupabase] is bound *)
  notifications_loaded : bool;                                  (* the name [CognoNotifications] is bound *)
  auth_user : option AuthUser.t;                                (* the user of the session *)
  activity_progress : list ActivityProgressRow.t;
  activity_logs : list HandlerLog.t;
  user_achievements : list UnlockRow.t;
  session : option Session;                                     (* [sessionStorage] *)
  faults : list Fault;
  requests : list Request;
  toasts : list (string * string);                              (* message and kind *)
  clock : nat
}.

(** The state after a call to the provider that left the tables as
    given. *)
Definition after_call (rq : Request) (logs : list HandlerLog.t) (ua : list UnlockRow.t)
    (w : World) : World :=
  {| user := user w; currentModule := currentModule w;
     activityProgress := activityProgress w;
     supabase_loaded := supabase_loaded w;
     notifications_loaded := notifications_loaded w;
     auth_user := auth_user w;
     activity_progress := activity_progress w; activity_logs := logs;
     user_achievements := ua; session := session w;
     faults := tail (faults w); requests := requests w ++ [rq];
     toasts := toasts w; clock := clock w |}.

Definition add_toast (message kind : string) (w : World) : World :=
  {| user := user w; currentModule := currentModule w;
     activityProgress := activityProgress w;
     supabase_loaded := supabase_loaded w;
     notifications_loaded := notifications_loaded w;
     auth_user := auth_user w;
     activity_progress := activity_progress w; activity_logs := activity_logs w;
     user_achievements := user_achievements w; session := session w;
     faults := faults w; requests := requests w;
     toasts := toasts w ++ [(message, kind)]; clock := clock w |}.

Definition set_session (item : Session) (w : World) : World :=
  {| user := user w; currentModule := currentModule w;
     activityProgress := activityProgress w;
     supabase_loaded := supabase_loaded w;
     notifications_loaded := notifications_loaded w;
     auth_user := auth_user w;
     activity_progress := activity_progress w; activity_logs := activity_logs w;
     user_achievements := user_achievements w; session := Some item;
     faults := faults w; requests := requests w;
     toasts := toasts w; clock := clock w |}.

(** [CognoNotifications?.toast?.success(message)] and [...error(message)]:
    [?.] guards a value that is [undefined], not a name that is unbound.
    Where [utils.js], which binds [window.CognoNotifications] with its
    [toast], has not run, reading the name throws a ReferenceError. *)
Definition toast (message kind : string) : M World unit :=
  loaded <- gets notifications_loaded ;;
  if loaded then modify (add_toast message kind)
  else throw "CognoNotifications is not defined".

(** One call of the client to the provider: the fault script decides
    what the provider does. *)
Definition call {R} (table : string) (op : Op)
    (answer : World -> Reply R * list HandlerLog.t * list UnlockRow.t)
  : M World (Reply R) :=
  fun w =>
    let rq := {| req_table := table; req_op := op |} in
    match head (faults w) with
    | None | Some NoFault =>
        let '(r, logs, ua) := answer w in Returned r (after_call rq logs ua w)
    | Some (ErrorResult msg) =>
        Returned (failed msg) (after_call rq (activity_logs w) (user_achievements w) w)
    | Some (NetworkThrow msg) =>
        Threw msg (after_call rq (activity_logs w) (user_achievements w) w)
    end.

(** Reading a function of [CognoSupabase] in the handler: a
    ReferenceError where the client script has not run. *)
Definition client : M World unit :=
  loaded <- gets supabase_loaded ;;
  if loaded then ret tt else throw "CognoSupabase is not defined".

(** [CognoSupabase.upsert('activity_progress', row, { onConflict })]: the
    object [window.CognoSupabase] has no [upsert], so the call throws a
    TypeError and nothing is asked of the provider. *)
Definition upsert (r : ActivityProgressRow.t) : M World (Reply unit) :=
  client ;;;
  throw "CognoSupabase.upsert is not a function".

(** [CognoSupabase.logActivity(object)]: the client's
    [logActivity(activityType, metadata = {})] asks the provider for the
    user of the session and inserts a row for that user, with the object
    as [activity_type]; it catches what is thrown.  The result is
    [success]. *)
Definition logActivity (entry : LogObject) : M World bool :=
  client ;;;
  try_catch
    (r <- call "auth" OpAuth
            (fun w => (answered (auth_user w), activity_logs w, user_achievements w)) ;;
     match data r with
     | Some (Some u) =>
         ins <- call "activity_logs" OpInsert
                  (fun w => (answered tt,
                             activity_logs w ++ [HandlerLog.mk (AuthUser.id u) entry],
                             user_achievements w)) ;;
         match error ins with
         | Some e => throw e
         | None => ret true
         end
     | _ => ret false
     end)
    (fun _ => ret false).

(** [CognoSupabase.insert('user_achievements', row)]: the client's
    [insert(table, data)] catches what is thrown; a failure is an [error]
    in its result. *)
Definition insert (row : UnlockRow.t) : M World (Reply unit) :=
  client ;;;
  try_catch
    (r <- call "user_achievements" OpInsert
            (fun w => (answered tt, activity_logs w, user_achievements w ++ [row])) ;;
     match error r with
     | Some e => throw e
     | None => ret (answered tt)
     end)
    (fun e => ret (failed e)).

(** [calculatePoints(percentage, duration)] *)
Definition calculatePoints (percentage duration : Q) : Z :=
  let basePoints := JS.Math_round (percentage / 10)%Q * 10 in
  let basePoints := if JS.lt duration 120 then basePoints + 10 else basePoints in
  let basePoints := if JS.eq percentage 100 then basePoints + 25 else basePoints in
  basePoints.

(** [this.activityProgress?.[activityId]] *)
Definition cached (activityId : string) (w : World) : option ActivityProgressRow.t :=
  match activityProgress w with
  | Some cache => cache !! activityId
  | None => None
  end.

(** [type.replace(/_/g, ' ')] *)
Fixpoint spaced (s : string) : string :=
  match s with
  | EmptyString => EmptyString
  | String c rest => String (if Ascii.eqb c "_"%char then " "%char else c) (spaced rest)
  end.

(** [checkAchievements(activityId, percentage, points)] *)
Definition checkAchievements (activityId : string) (percentage points : Z) : M World unit :=
  u <- gets user ;;
  match u with
  | None => ret tt
  | Some usr =>
      prior <- gets (cached activityId) ;;
      let achievements : list string :=
        ((match prior with None => ["first_completion"] | Some _ => [] end)
         ++ (if (percentage =? 100)%Z then ["perfect_score"] else []))%list in
      for_of achievements
        (fun type =>
           try_catch
             (moduleType <- gets currentModule ;;
              now <- gets clock ;;
              insert (UnlockRow.mk (AuthUser.id usr) type moduleType activityId now) ;;;
              toast ("Achievement Unlocked: " ++ spaced type) "success")
             (fun _ => ret tt))
  end.

(** What [completeActivity] returns when it has saved: [{ points, percentage }]. *)
Record Completion : Type := { points : Z; percentage : Z }.

(** The percentage of [completeActivity]: no clamp. *)
Definition percentage_of (score maxScore : Q) : Z :=
  JS.Math_round (Double.mul (Double.div score maxScore) 100).

(** The row [completeActivity] builds for the upsert. *)
Definition completionRow (usr : AuthUser.t) (moduleType activityId : string)
    (score maxScore duration : Q) (prior : option ActivityProgressRow.t) (now : nat)
  : ActivityProgressRow.t :=
  let percentage := percentage_of score maxScore in
  ActivityProgressRow.mk
    (AuthUser.id usr)
    moduleType
    activityId
    (JS.Math_max (inject_Z percentage)
                 (JS.num_or (option_map ActivityProgressRow.completion_percentage prior) 0))
    (JS.Math_max score (JS.num_or (option_map ActivityProgressRow.best_score prior) 0))
    (match prior with Some p => ActivityProgressRow.attempts p | None => 0 end + 1)
    (JS.num_or (option_map ActivityProgressRow.total_time_spent prior) 0 + duration)%Q
    now.

(** [completeActivity(activityId, score, maxScore, duration)]; [None] is
    the [undefined] of the paths that return nothing.  [maxScore] is not
    zero. *)
Definition completeActivity (activityId : string) (score maxScore duration : Q)
  : M World (option Completion) :=
  u <- gets user ;;
  match u with
  | None => ret None
  | Some usr =>
      try_catch
        (let percentage := percentage_of score maxScore in
         let points := calculatePoints (inject_Z percentage) duration in
         prior <- gets (cached activityId) ;;
         moduleType <- gets currentModule ;;
         now <- gets clock ;;
         r <- upsert (completionRow usr moduleType activityId score maxScore duration prior now) ;;
         match error r with
         | Some e => throw e
         | None =>
             logActivity (Completed (CompletionLog.mk (AuthUser.id usr) "activity_complete"
                                       moduleType activityId points score maxScore percentage
                                       duration now)) ;;;
             toast ("Activity complete! +" ++ JS.show_int points ++ " points") "success" ;;;
             checkAchievements activityId percentage points ;;;
             ret (Some {| points := points; percentage := percentage |})
         end)
        (fun _ => toast "Failed to save progress" "error" ;;; ret None)
  end.

(** [startActivity(activityId)] *)
Definition startActivity (activityId : string) : M World unit :=
  u <- gets user ;;
  match u with
  | None => ret tt
  | Some usr =>
      try_catch
        (moduleType <- gets currentModule ;;
         now <- gets clock ;;
         logActivity (Started (StartLog.mk (AuthUser.id usr) "activity_start" moduleType
                                 activityId now)) ;;;
         modify (set_session {| session_activityId := activityId;
                                session_module := moduleType;
                                session_startTime := now |}))
        (fun _ => ret tt)
  end.

(** The tables of the store. *)
Definition tables (w : World)
  : list ActivityProgressRow.t * list HandlerLog.t * list UnlockRow.t :=
  (activity_progress w, activity_logs w, user_achievements w).

(** The page of the module [dyslexia] of a student, loaded before any
    attempt: the cache of the page is there and empty. *)
Definition fresh_page : World :=
  {| user := Some (AuthUser.mk "u1" "kid@example.org");
     currentModule := "dyslexia";
     activityProgress := Some ∅;
     supabase_loaded := true;
     notifications_loaded := true;
     auth_user := Some (AuthUser.mk "u1" "kid@example.org");
     activity_progress := [];
     activity_logs := [];
     user_achievements := [];
     session := None;
     faults := [];
     requests := [];
     toasts := [];
     clock := 1000 |}.

End CognoModules.

(** ** The base class of the activity pages ([CognoActivity])

    The instance is part of the state of the page: what a method has
    assigned to [this] stays assigned when the method throws.  The display
    of the score is not modelled; of the results modal, what it shows
    is. *)

Module CognoActivity.
Import CognoModules.

Record t : Type := mk {
  activityId : string;
  moduleName : string;
  startTime : option nat;
  score : Q;
  maxScore : Q;
  isComplete : bool
}.

(** [new CognoActivity(activityId, moduleName)] *)
Definition new (activityId moduleName : string) : t :=
  mk activityId moduleName None 0 100 false.

(** [addScore(points)]: [Math.min(this.score + points, this.maxScore)]. *)
Definition addScore (points : Q) (a : t) : t :=
  mk (activityId a) (moduleName a) (startTime a)
     (Qmin (score a + points) (maxScore a)) (maxScore a) (isComplete a).

(** [Math.round((Date.now() - this.startTime) / 1000)]; a [startTime] that
    is [null] counts as zero. *)
Definition seconds_since (start : option nat) (now : nat) : Z :=
  JS.Math_round
    ((inject_Z (Z.of_nat now) - inject_Z (Z.of_nat (JS.nullish start 0%nat))) / 1000)%Q.

(** [getElapsedTime()] at the time [now]. *)
Definition getElapsedTime (a : t) (now : nat) : Z :=
  match startTime a with
  | None => 0
  | Some start => if (start =? 0)%nat then 0 else seconds_since (Some start) now
  end.

(** [formatTime(seconds)], for a whole number of seconds. *)
Definition formatTime (seconds : Z) : string :=
  let mins := seconds / 60 in
  let secs := Z.rem seconds 60 in
  pretty mins ++ ":" ++ JS.padStart 2 "0"%char (pretty secs).

(** The face of the results modal. *)
Inductive Face : Type := Party | ThumbsUp | Muscle.

(** What the results modal shows: the face, the percentage and the
    points. *)
Record Modal : Type := {
  face : Face;
  shown_percentage : Z;
  shown_points : Z
}.

(** The page of an activity: the state of the modules handler, the
    instance of the activity and the modals shown. *)
Record Screen : Type := {
  page : World;
  activity : t;
  modals : list Modal
}.

(** A call of the modules handler on the page. *)
Definition lift {A} (m : M World A) : M Screen A :=
  fun s =>
    match m (page s) with
    | Returned a w =>
        Returned a {| page := w; activity := activity s; modals := modals s |}
    | Threw e w =>
        Threw e {| page := w; activity := activity s; modals := modals s |}
    end.

(** An assignment to [this]. *)
Definition assign (f : t -> t) : M Screen unit :=
  modify (fun s => {| page := page s; activity := f (activity s); modals := modals s |}).

(** [start()] *)
Definition start : M Screen unit :=
  now <- lift (gets clock) ;;
  assign (fun a => mk (activityId a) (moduleName a) (Some now) 0 (maxScore a) false) ;;;
  a <- gets activity ;;
  lift (startActivity (activityId a)).

(** [showResultsModal(result)] *)
Definition showResultsModal (result : option Completion) : M Screen unit :=
  let shown :=
    match result with
    | Some r =>
        {| face := if (80 <=? percentage r)%Z then Party
                   else if (50 <=? percentage r)%Z then ThumbsUp
                   else Muscle;
           shown_percentage := percentage r;
           shown_points := points r |}
    | None => {| face := Muscle; shown_percentage := 0; shown_points := 0 |}
    end in
  modify (fun s => {| page := page s; activity := activity s;
                      modals := modals s ++ [shown] |}).

(** [complete()]; [None] is [undefined]. *)
Definition complete : M Screen (option Completion) :=
  a <- gets activity ;;
  if isComplete a then ret None
  else
    assign (fun a => mk (activityId a) (moduleName a) (startTime a) (score a) (maxScore a)
                        true) ;;;
    now <- lift (gets clock) ;;
    let duration := seconds_since (startTime a) now in
    result <- lift (completeActivity (activityId a) (score a) (maxScore a)
                                     (inject_Z duration)) ;;
    showResultsModal result ;;;
    ret result.

(** The page of an activity of the module, before anything is shown. *)
Definition fresh_screen (a : t) : Screen :=
  {| page := fresh_page; activity := a; modals := [] |}.

End CognoActivity.

(** ** The path helper of the client ([CognoPaths])

    [window.location.pathname] is the argument. *)

Module CognoPaths.

(** [path.split('/').filter(p => p)] *)
Definition parts (pathname : string) : list string :=
  List.filter JS.truthy (JS.split "/"%char pathname).

(** ['../'.repeat(Math.max(0, depth)) || './'] *)
Definition up (depth : Z) : string :=
  JS.str_or (Some (JS.times "../" (Z.to_nat (Z.max 0 depth)))) "./".

(** [getBasePath()] *)
Definition getBasePath (pathname : string) : string :=
  let parts := parts pathname in
  match JS.indexOf "frontend" parts with
  | None => up (Z.of_nat (length parts) - 1)
  | Some frontendIndex => up (Z.of_nat (length parts) - Z.of_nat frontendIndex - 2)
  end.

End CognoPaths.

(** ** Realtime wiring ([js/realtime.js]) *)

Module Realtime.

(** What a channel listens to ([.on('postgres_changes', { ... }, handler)]);
    the handler itself is not modelled. *)
Record Binding : Type := {
  event : string;
  schema : string;
  table : string;
  filter : option string
}.

(** A channel object of the provider.  The provider is a collaborator:
    [client.channel(name)] makes a new object, [.on] adds a binding,
    [.subscribe()] joins and [.unsubscribe()] leaves. *)
Record Channel : Type := {
  topic : string;
  bindings : list Binding;
  joined : bool
}.

Record World : Type := {
  client : bool;                 (* [window.CognoSupabase?.client] *)
  manager_client : bool;         (* [realtimeManager.client], read when the manager is made *)
  objects : list Channel;        (* the channel objects made so far; a reference is an index *)
  channels : gmap string nat;    (* [realtimeManager.channels], the registry of open channels *)
  now : nat                      (* [Date.now()] *)
}.

Definition set_objects (cs : list Channel) (w : World) : World :=
  {| client := client w; manager_client := manager_client w; objects := cs;
     channels := channels w; now := now w |}.

Definition set_channels (m : gmap string nat) (w : World) : World :=
  {| client := client w; manager_client := manager_client w; objects := objects w;
     channels := m; now := now w |}.

(** [client.channel(name)]: the reference of the new object. *)
Definition channel (name : string) (w : World) : nat * World :=
  (length (objects w),
   set_objects (objects w ++ [{| topic := name; bindings := []; joined := false |}]) w).

(** [channel.on('postgres_changes', binding, handler)] *)
Definition on (ref : nat) (b : Binding) (w : World) : World :=
  set_objects
    (alter (fun c => {| topic := topic c; bindings := bindings c ++ [b]; joined := joined c |})
           ref (objects w))
    w.

(** [channel.subscribe()] *)
Definition channel_subscribe (ref : nat) (w : World) : World :=
  set_objects
    (alter (fun c => {| topic := topic c; bindings := bindings c; joined := true |})
           ref (objects w))
    w.

(** [channel.unsubscribe()] *)
Definition channel_unsubscribe (ref : nat) (w : World) : World :=
  set_objects
    (alter (fun c => {| topic := topic c; bindings := bindings c; joined := false |})
           ref (objects w))
    w.

(** *** [RealtimeManager] *)

(** [subscribe(channelName, config)]: the channel of the registry under
    that name, or a new one that is put there; [None] is [null]. *)
Definition subscribe (channelName : string) (w : World) : option nat * World :=
  if negb (manager_client w) then (None, w)
  else
    match channels w !! channelName with
    | Some ref => (Some ref, w)
    | None =>
        let '(ref, w1) := channel channelName w in
        (Some ref, set_channels (<[channelName := ref]> (channels w1)) w1)
    end.

(** [unsubscribe(channelName)] *)
Definition unsubscribe (channelName : string) (w : World) : World :=
  match channels w !! channelName with
  | Some ref =>
      let w1 := channel_unsubscribe ref w in
      set_channels (delete channelName (channels w1)) w1
  | None => w
  end.

(** [unsubscribeAll()] *)
Definition unsubscribeAll (w : World) : World :=
  set_channels ∅
    (fold_right (fun entry acc => channel_unsubscribe (snd entry) acc) w
                (map_to_list (channels w))).

(** [getChannel(channelName)] *)
Definition getChannel (channelName : string) (w : World) : option nat :=
  channels w !! channelName.

(** *** [TableSubscriptions] *)

(** The [options] of a table subscription. *)
Record Options : Type := { opt_event : option string; opt_filter : option string }.

(** The function [subscribe] returns: [() => { }] or
    [() => subscription.unsubscribe()]. *)
Inductive Unsubscribe : Type :=
| Inert
| Leave (subscription : nat).

(** Calling the returned function. *)
Definition invoke (u : Unsubscribe) (w : World) : World :=
  match u with
  | Inert => w
  | Leave ref => channel_unsubscribe ref w
  end.

(** The name of the channel of a table subscription. *)
Definition channelName_of (tbl : string) (w : World) : string :=
  "table:" ++ tbl ++ ":" ++ pretty (now w).

(** [TableSubscriptions.subscribe(table, callback, options)] *)
Definition table_subscribe (tbl : string) (options : Options) (w : World)
  : Unsubscribe * World :=
  if negb (client w) then (Inert, w)
  else
    let channelName := channelName_of tbl w in
    let '(ref, w1) := channel channelName w in
    let w2 := on ref {| event := JS.str_or (opt_event options) "*";
                        schema := "public";
                        table := tbl;
                        filter := opt_filter options |} w1 in
    let w3 := channel_subscribe ref w2 in
    (Leave ref, w3).

(** A page with the client loaded, no channel and an empty registry. *)
Definition fresh : World :=
  {| client := true; manager_client := true; objects := []; channels := ∅; now := 1000 |}.

(** Whether the channel object [ref] is joined. *)
Definition is_joined (ref : nat) (w : World) : option bool :=
  joined <$> objects w !! ref.

(** The open channels of the provider that the registry does not know. *)
Definition unregistered (w : World) : list string :=
  map topic
      (List.filter
         (fun c => joined c && negb (bool_decide (is_Some (channels w !! topic c))))
         (objects w)).

(** Every channel of the registry is a channel object of the provider. *)
Definition registered (w : World) : Prop :=
  forall name ref, channels w !! name = Some ref -> (ref < length (objects w))%nat.

(** *** [ActivityFeed]

    The callback [onNewActivity] is not modelled.  [Date.now()] is read
    from the state and does not advance inside one call. *)
Module ActivityFeed.

Record t : Type := mk {
  userId : string;
  role : string;
  subscriptions : list Unsubscribe
}.

(** [new ActivityFeed(userId, role)] *)
Definition new (userId role : string) : t := mk userId role [].

(** [this.subscriptions.push(sub)] *)
Definition push (sub : Unsubscribe) (feed : t) : t :=
  mk (userId feed) (role feed) (subscriptions feed ++ [sub]).

(** The body of the loop of [start] for one user: game sessions,
    achievements and exercise attempts. *)
Definition watch (st : t * World) (user : string) : t * World :=
  let '(feed, w) := st in
  let options := {| opt_event := Some "INSERT";
                    opt_filter := Some ("user_id=eq." ++ user)%string |} in
  let '(gameSub, w) := table_subscribe "game_sessions" options w in
  let feed := push gameSub feed in
  let '(achievementSub, w) := table_subscribe "user_achievements" options w in
  let feed := push achievementSub feed in
  let '(exerciseSub, w) := table_subscribe "exercise_attempts" options w in
  let feed := push exerciseSub feed in
  (feed, w).

(** [start(targetUserIds)] *)
Definition start (targetUserIds : list string) (feed : t) (w : World) : t * World :=
  let userIds :=
    if (0 <? length targetUserIds)%nat then targetUserIds else [userId feed] in
  fold_left watch userIds (feed, w).

(** [stop()] *)
Definition stop (feed : t) (w : World) : t * World :=
  (mk (userId feed) (role feed) [],
   fold_left (fun w unsub => invoke unsub w) (subscriptions feed) w).

End ActivityFeed.

(** *** [NotificationListener]

    The callback [onNotification] and the toast it shows are not
    modelled. *)
Module NotificationListener.

Record t : Type := mk {
  userId : string;
  unsubscribe : option Unsubscribe
}.

(** [new NotificationListener(userId)] *)
Definition new (userId : string) : t := mk userId None.

(** [start()] *)
Definition start (listener : t) (w : World) : t * World :=
  let '(unsub, w1) :=
    table_subscribe "notifications"
      {| opt_event := Some "INSERT";
         opt_filter := Some ("user_id=eq." ++ userId listener)%string |} w in
  (mk (userId listener) (Some unsub), w1).

(** [stop()] *)
Definition stop (listener : t) (w : World) : t * World :=
  match unsubscribe listener with
  | Some unsub => (mk (userId listener) None, invoke unsub w)
  | None => (listener, w)
  end.

End NotificationListener.

End Realtime.

(** * Properties *)

(** ** Rounding *)

Section Rounding.
Import JS.

Lemma lt_iff (x y : Q) : lt x y = true <-> (x < y)%Q.
Proof.
  unfold lt. rewrite negb_true_iff. split.
  - intros H. apply Qnot_le_lt. intros Hle. apply Qle_bool_iff in Hle. congruence.
  - intros H. destruct (Qle_bool y x) eqn:E; [| reflexivity].
    apply Qle_bool_iff in E. exfalso. exact (Qlt_not_le _ _ H E).
Qed.

Lemma eq_iff (x y : Q) : eq x y = true <-> (x == y)%Q.
Proof. unfold eq. apply Qeq_bool_iff. Qed.

Lemma Math_round_mono (x y : Q) : (x <= y)%Q -> Math_round x <= Math_round y.
Proof. intros H. apply Qfloor_resp_le. lra. Qed.

Lemma Math_round_int (z : Z) : Math_round (inject_Z z) = z.
Proof.
  unfold Math_round.
  assert (H1 : (inject_Z z <= inject_Z z + (1 # 2))%Q) by lra.
  assert (H2 : (inject_Z z + (1 # 2) < inject_Z (z + 1))%Q).
  { rewrite inject_Z_plus. change (inject_Z 1) with 1%Q. lra. }
  apply Qfloor_resp_le in H1. rewrite Qfloor_Z in H1.
  pose proof (Qfloor_le (inject_Z z + (1 # 2))) as H3.
  assert (H4 : (inject_Z (Qfloor (inject_Z z + (1 # 2))) < inject_Z (z + 1))%Q) by lra.
  rewrite <- Zlt_Qlt in H4. lia.
Qed.

Lemma Math_round_eq (x y : Q) : (x == y)%Q -> Math_round x = Math_round y.
Proof. intros H. unfold Math_round. apply Qfloor_comp. rewrite H. reflexivity. Qed.

(** [Math.round(x) >= z] exactly when [x >= z - 1/2]. *)
Lemma Math_round_ge (x : Q) (z : Z) : z <= Math_round x <-> (inject_Z z - (1 # 2) <= x)%Q.
Proof.
  unfold Math_round. split.
  - intros H.
    pose proof (Qfloor_le (x + (1 # 2))) as H1.
    rewrite Zle_Qle in H. lra.
  - intros H. rewrite <- (Qfloor_Z z). apply Qfloor_resp_le. lra.
Qed.

(** [Math.round(x) <= z] exactly when [x < z + 1/2]. *)
Lemma Math_round_le (x : Q) (z : Z) : Math_round x <= z <-> (x < inject_Z z + (1 # 2))%Q.
Proof.
  split.
  - intros H. apply Qnot_le_lt. intros Hle.
    assert (z + 1 <= Math_round x); [| lia].
    apply Math_round_ge. rewrite inject_Z_plus. change (inject_Z 1) with 1%Q. lra.
  - intros H. apply Z.nlt_ge. intros Hlt.
    assert (Hz : z + 1 <= Math_round x) by lia.
    apply Math_round_ge in Hz. rewrite inject_Z_plus in Hz.
    change (inject_Z 1) with 1%Q in Hz. lra.
Qed.


Lemma num_or_zero (q : Q) : (num_or (Some q) 0 == q)%Q.
Proof.
  unfold num_or. destruct (Qeq_bool q 0) eqn:E; [| reflexivity].
  apply Qeq_bool_iff in E. symmetry. exact E.
Qed.

End Rounding.

(** ** Rounding to a double *)

Section DoubleFacts.
Import Double.

Lemma pow2_pos e : (0 < pow2 e)%Q.
Proof. apply Qpower_0_lt. reflexivity. Qed.

Lemma pow2_plus a b : (pow2 (a + b) == pow2 a * pow2 b)%Q.
Proof. apply Qpower_plus. discriminate. Qed.

Lemma pow2_succ a : (pow2 (a + 1) == 2 * pow2 a)%Q.
Proof. rewrite pow2_plus. change (pow2 1) with 2%Q. ring. Qed.

Lemma pow2_le a b : a <= b -> (pow2 a <= pow2 b)%Q.
Proof. intros H. apply Qpower_le_compat_l; [exact H | discriminate]. Qed.

Lemma pow2_lt_inv a b : (pow2 a < pow2 b)%Q -> a < b.
Proof. intros H. apply (Qpower_lt_compat_l_inv 2); [exact H | reflexivity]. Qed.

Lemma pow2_inject (a : Z) : 0 <= a -> (inject_Z (2 ^ a) == pow2 a)%Q.
Proof. intros H. apply Zpower_Qpower. exact H. Qed.

(** The binade of a positive number. *)
Lemma ilog2_spec (x : Q) :
  (0 < x)%Q -> (pow2 (ilog2 x) <= x)%Q /\ (x < pow2 (ilog2 x + 1))%Q.
Proof.
  intros Hx. destruct x as [n d]. unfold ilog2. cbn [Qnum Qden].
  assert (Hn : 0 < n) by (unfold Qlt in Hx; simpl in Hx; lia).
  set (a := Z.log2 n). set (b := Z.log2 (Z.pos d)).
  assert (Ha : 0 <= a) by apply Z.log2_nonneg.
  assert (Hb : 0 <= b) by apply Z.log2_nonneg.
  destruct (Z.log2_spec n Hn) as [Ha1 Ha2]. fold a in Ha1, Ha2.
  destruct (Z.log2_spec (Z.pos d) eq_refl) as [Hb1 Hb2]. fold b in Hb1, Hb2.
  assert (HA1 : (pow2 a <= inject_Z n)%Q)
    by (rewrite <- (pow2_inject a Ha), <- Zle_Qle; exact Ha1).
  assert (HA2 : (inject_Z n < pow2 (a + 1))%Q).
  { rewrite <- (pow2_inject (a + 1)) by lia. rewrite <- Zlt_Qlt.
    replace (a + 1) with (Z.succ a) by lia. exact Ha2. }
  assert (HB1 : (pow2 b <= inject_Z (Z.pos d))%Q)
    by (rewrite <- (pow2_inject b Hb), <- Zle_Qle; exact Hb1).
  assert (HB2 : (inject_Z (Z.pos d) < pow2 (b + 1))%Q).
  { rewrite <- (pow2_inject (b + 1)) by lia. rewrite <- Zlt_Qlt.
    replace (b + 1) with (Z.succ b) by lia. exact Hb2. }
  rewrite pow2_succ in HA2, HB2.
  assert (Hx' : (n # d == inject_Z n / inject_Z (Z.pos d))%Q) by apply Qmake_Qdiv.
  assert (Hd : (0 < inject_Z (Z.pos d))%Q) by (change 0%Q with (inject_Z 0); rewrite <- Zlt_Qlt; lia).
  pose proof (pow2_pos a) as Pa. pose proof (pow2_pos b) as Pb.
  assert (He : (pow2 (a - b) * pow2 b == pow2 a)%Q).
  { rewrite <- pow2_plus. replace (a - b + b) with a by lia. reflexivity. }
  pose proof (pow2_pos (a - b)) as Pe.
  assert (Hup : (n # d < pow2 (a - b + 1))%Q).
  { rewrite Hx', pow2_succ. apply Qlt_shift_div_r; [exact Hd |].
    set (E := pow2 (a - b)) in *. set (A := pow2 a) in *. set (B := pow2 b) in *.
    set (N := inject_Z n) in *. set (D := inject_Z (Z.pos d)) in *. nra. }
  assert (Hlow : (pow2 (a - b - 1) <= n # d)%Q).
  { assert (He1 : (2 * pow2 (a - b - 1) == pow2 (a - b))%Q).
    { rewrite <- pow2_succ. replace (a - b - 1 + 1) with (a - b) by lia. reflexivity. }
    pose proof (pow2_pos (a - b - 1)) as Pe1.
    rewrite Hx'. apply Qle_shift_div_l; [exact Hd |].
    set (E := pow2 (a - b)) in *. set (E1 := pow2 (a - b - 1)) in *.
    set (A := pow2 a) in *. set (B := pow2 b) in *.
    set (N := inject_Z n) in *. set (D := inject_Z (Z.pos d)) in *. nra. }
  destruct (Qle_bool (pow2 (a - b)) (n # d)) eqn:E.
  - apply Qle_bool_iff in E. split; assumption.
  - split; [exact Hlow |].
    replace (a - b - 1 + 1) with (a - b) by lia.
    apply Qnot_le_lt. intros H. apply Qle_bool_iff in H. congruence.
Qed.

Lemma ilog2_unique (x : Q) (e : Z) :
  (0 < x)%Q -> (pow2 e <= x)%Q -> (x < pow2 (e + 1))%Q -> ilog2 x = e.
Proof.
  intros Hx H1 H2. destruct (ilog2_spec x Hx) as [K1 K2].
  assert (e < ilog2 x + 1) by (apply pow2_lt_inv; eapply Qle_lt_trans; eassumption).
  assert (ilog2 x < e + 1) by (apply pow2_lt_inv; eapply Qle_lt_trans; eassumption).
  lia.
Qed.

Lemma ilog2_mono (x y : Q) : (0 < x)%Q -> (x <= y)%Q -> ilog2 x <= ilog2 y.
Proof.
  intros Hx Hxy.
  assert (Hy : (0 < y)%Q) by (eapply Qlt_le_trans; eassumption).
  destruct (ilog2_spec x Hx) as [K1 _]. destruct (ilog2_spec y Hy) as [_ K2].
  assert (ilog2 x < ilog2 y + 1); [| lia].
  apply pow2_lt_inv. eapply Qle_lt_trans; [exact K1 |]. eapply Qle_lt_trans; eassumption.
Qed.

Lemma ilog2_abs (x : Q) : (0 < x)%Q -> ilog2 (Qabs x) = ilog2 x.
Proof.
  intros Hx. assert (E : (Qabs x == x)%Q) by (apply Qabs_pos; apply Qlt_le_weak; exact Hx).
  destruct (ilog2_spec x Hx) as [K1 K2].
  apply ilog2_unique; rewrite ?E; assumption.
Qed.

(** Rounding to the nearest integer. *)
Lemma nearest_even_cases (x : Q) :
  (nearest_even x = Qfloor x /\ (x - inject_Z (Qfloor x) <= 1 # 2)%Q)
  \/ (nearest_even x = Qfloor x + 1 /\ (1 # 2 <= x - inject_Z (Qfloor x))%Q).
Proof.
  unfold nearest_even.
  destruct (Qcompare_spec (x - inject_Z (Qfloor x)) (1 # 2)) as [E | E | E].
  - destruct (Z.even (Qfloor x)); [left | right]; split; try reflexivity; lra.
  - left. split; [reflexivity | lra].
  - right. split; [reflexivity | lra].
Qed.

Lemma nearest_even_mono (x y : Q) : (x <= y)%Q -> nearest_even x <= nearest_even y.
Proof.
  intros Hxy. pose proof (Qfloor_resp_le x y Hxy) as Hf.
  destruct (Z.eq_dec (Qfloor x) (Qfloor y)) as [Heq | Hne].
  - unfold nearest_even. rewrite <- Heq.
    destruct (Qcompare_spec (x - inject_Z (Qfloor x)) (1 # 2)) as [Ex | Ex | Ex];
      destruct (Qcompare_spec (y - inject_Z (Qfloor x)) (1 # 2)) as [Ey | Ey | Ey];
      try (destruct (Z.even (Qfloor x))); try lia; exfalso; lra.
  - destruct (nearest_even_cases x) as [[-> _] | [-> _]];
      destruct (nearest_even_cases y) as [[-> _] | [-> _]]; lia.
Qed.

Lemma nearest_even_int (x : Q) (k : Z) : (x == inject_Z k)%Q -> nearest_even x = k.
Proof.
  intros E. unfold nearest_even.
  assert (Hf : Qfloor x = k) by (rewrite (Qfloor_comp _ _ E); apply Qfloor_Z).
  rewrite Hf.
  destruct (Qcompare_spec (x - inject_Z k) (1 # 2)) as [Ex | Ex | Ex];
    try reflexivity; exfalso; lra.
Qed.

Lemma nearest_even_ge (x : Q) (k : Z) : (inject_Z k <= x)%Q -> k <= nearest_even x.
Proof.
  intros H. apply nearest_even_mono in H.
  rewrite (nearest_even_int (inject_Z k) k) in H by reflexivity. exact H.
Qed.

Lemma nearest_even_le (x : Q) (k : Z) : (x <= inject_Z k)%Q -> nearest_even x <= k.
Proof.
  intros H. apply nearest_even_mono in H.
  rewrite (nearest_even_int (inject_Z k) k) in H by reflexivity. exact H.
Qed.

(** The value of a positive number. *)
Lemma fl_pos (x : Q) :
  (0 < x)%Q ->
  fl x = (inject_Z (nearest_even (x / pow2 (exponent x))) * pow2 (exponent x))%Q.
Proof.
  intros Hx. unfold fl. destruct (Qeq_bool x 0) eqn:E; [| reflexivity].
  apply Qeq_bool_iff in E. exfalso. lra.
Qed.

Lemma fl_zero (x : Q) : (x == 0)%Q -> fl x = 0%Q.
Proof.
  intros E. unfold fl. destruct (Qeq_bool x 0) eqn:Eb; [reflexivity |].
  apply Qeq_bool_neq in Eb. contradiction.
Qed.

Lemma fl_nonneg (x : Q) : (0 <= x)%Q -> (0 <= fl x)%Q.
Proof.
  intros Hx. destruct (Qeq_dec x 0) as [E | E].
  - rewrite (fl_zero x E). lra.
  - assert (Hp : (0 < x)%Q) by (apply Qle_lteq in Hx; destruct Hx as [H | H]; [exact H | exfalso; apply E; symmetry; exact H]).
    rewrite (fl_pos x Hp).
    pose proof (pow2_pos (exponent x)) as Hu.
    assert (Hq : (inject_Z 0 <= x / pow2 (exponent x))%Q).
    { change (inject_Z 0) with 0%Q. apply Qle_shift_div_l; [exact Hu | lra]. }
    apply nearest_even_ge in Hq. rewrite Zle_Qle in Hq. change (inject_Z 0) with 0%Q in Hq.
    apply Qmult_le_0_compat; [exact Hq | lra].
Qed.

(** A positive number is rounded to a multiple of its last bit, at most
    half a bit away. *)
Lemma fl_error (x : Q) :
  (0 < x)%Q ->
  let u := pow2 (exponent x) in
  (x - u / 2 <= fl x)%Q /\ (fl x <= x + u / 2)%Q.
Proof.
  intros Hx u. rewrite (fl_pos x Hx). fold u.
  assert (Hu : (0 < u)%Q) by apply pow2_pos.
  assert (Hq : (x == x / u * u)%Q) by (field; lra).
  pose proof (Qfloor_le (x / u)) as Hlo. pose proof (Qlt_floor (x / u)) as Hhi.
  rewrite inject_Z_plus in Hhi. change (inject_Z 1) with 1%Q in Hhi.
  set (q := (x / u)%Q) in *.
  assert (Hmul : forall a b : Q, (a <= b)%Q -> (a * u <= b * u)%Q).
  { intros a b Hab. apply Qmult_le_compat_r; [exact Hab | lra]. }
  destruct (nearest_even_cases q) as [[-> H] | [-> H]].
  - set (f := inject_Z (Qfloor q)) in *. clearbody u q f.
    assert (H0 : (q - (1 # 2) <= f)%Q) by lra.
    pose proof (Hmul _ _ H0) as H1. pose proof (Hmul _ _ Hlo) as H2.
    assert (E1 : ((q - (1 # 2)) * u == q * u - u / 2)%Q) by field.
    set (qu := (q * u)%Q) in *. set (fu := (f * u)%Q) in *.
    rewrite E1 in H1. clearbody qu fu. split; lra.
  - rewrite inject_Z_plus. change (inject_Z 1) with 1%Q.
    set (f := inject_Z (Qfloor q)) in *. clearbody u q f.
    assert (H0 : (f + 1 <= q + (1 # 2))%Q) by lra.
    assert (H0' : (q <= f + 1)%Q) by lra.
    pose proof (Hmul _ _ H0) as H1. pose proof (Hmul _ _ H0') as H2.
    assert (E1 : ((q + (1 # 2)) * u == q * u + u / 2)%Q) by field.
    set (qu := (q * u)%Q) in *. set (fu := ((f + 1) * u)%Q) in *.
    rewrite E1 in H1. clearbody qu fu. split; lra.
Qed.

Lemma exponent_pos (x : Q) : (0 < x)%Q -> exponent x = Z.max (ilog2 x - 52) (-1074).
Proof. intros Hx. unfold exponent. rewrite (ilog2_abs x Hx). reflexivity. Qed.

(** Rounding to a double keeps the order of the positive numbers. *)
Lemma fl_mono_pos (x y : Q) : (0 < x)%Q -> (x <= y)%Q -> (fl x <= fl y)%Q.
Proof.
  intros Hx Hxy.
  assert (Hy : (0 < y)%Q) by (eapply Qlt_le_trans; eassumption).
  rewrite (fl_pos x Hx), (fl_pos y Hy).
  pose proof (ilog2_mono x y Hx Hxy) as Hlog.
  pose proof (exponent_pos x Hx) as Ex. pose proof (exponent_pos y Hy) as Ey.
  set (ex := exponent x) in *. set (ey := exponent y) in *.
  pose proof (pow2_pos ex) as Ux. pose proof (pow2_pos ey) as Uy.
  destruct (Z.eq_dec ex ey) as [Heq | Hne].
  - rewrite <- Heq.
    assert (Hq : (x / pow2 ex <= y / pow2 ex)%Q).
    { apply Qle_shift_div_l; [exact Ux |].
      assert (Hc : (x / pow2 ex * pow2 ex == x)%Q) by (field; lra).
      rewrite Hc. exact Hxy. }
    apply nearest_even_mono in Hq. rewrite Zle_Qle in Hq.
    apply Qmult_le_compat_r; [exact Hq | lra].
  - assert (Hlt : ex + 1 <= ey) by lia.
    assert (Hey : ey = ilog2 y - 52) by lia.
    destruct (ilog2_spec x Hx) as [_ Kx]. destruct (ilog2_spec y Hy) as [Ky _].
    (* fl x <= 2^(ex + 53) *)
    assert (Hx53 : (x <= pow2 53 * pow2 ex)%Q).
    { rewrite <- pow2_plus. apply Qlt_le_weak. eapply Qlt_le_trans; [exact Kx |].
      apply pow2_le. lia. }
    assert (Hqx : (x / pow2 ex <= inject_Z (2 ^ 53))%Q).
    { rewrite (pow2_inject 53) by lia. apply Qle_shift_div_r; [exact Ux | exact Hx53]. }
    apply nearest_even_le in Hqx. rewrite Zle_Qle in Hqx.
    rewrite (pow2_inject 53) in Hqx by lia.
    (* 2^(ey + 52) <= fl y *)
    assert (Hy52 : (pow2 52 * pow2 ey <= y)%Q).
    { rewrite <- pow2_plus. replace (52 + ey) with (ilog2 y) by lia. exact Ky. }
    assert (Hqy : (inject_Z (2 ^ 52) <= y / pow2 ey)%Q).
    { rewrite (pow2_inject 52) by lia. apply Qle_shift_div_l; [exact Uy | exact Hy52]. }
    apply nearest_even_ge in Hqy. rewrite Zle_Qle in Hqy.
    rewrite (pow2_inject 52) in Hqy by lia.
    assert (Hmid : (pow2 53 * pow2 ex <= pow2 52 * pow2 ey)%Q).
    { rewrite <- !pow2_plus. apply pow2_le. lia. }
    apply Qle_trans with (pow2 53 * pow2 ex)%Q;
      [apply Qmult_le_compat_r; [exact Hqx | lra] |].
    apply Qle_trans with (pow2 52 * pow2 ey)%Q; [exact Hmid |].
    apply Qmult_le_compat_r; [exact Hqy | lra].
Qed.

Lemma fl_mono (x y : Q) : (0 <= x)%Q -> (x <= y)%Q -> (fl x <= fl y)%Q.
Proof.
  intros Hx Hxy. destruct (Qeq_dec x 0) as [E | E].
  - rewrite (fl_zero x E). apply fl_nonneg. lra.
  - apply fl_mono_pos; [| exact Hxy].
    apply Qle_lteq in Hx. destruct Hx as [H | H]; [exact H | exfalso; apply E; symmetry; exact H].
Qed.

Lemma fl_eq (x y : Q) : (0 <= x)%Q -> (x == y)%Q -> (fl x == fl y)%Q.
Proof.
  intros Hx E. apply Qle_antisym; apply fl_mono; lra.
Qed.

End DoubleFacts.

(** ** The percentage and the points *)

Section Scores.
Import JS.


(** The divisor of [saveActivity] is never zero. *)
Lemma maxScore_of_nonzero (activity : Activity.t) :
  ~ (CognoTracker.maxScore_of activity == 0)%Q.
Proof.
  unfold CognoTracker.maxScore_of, num_or.
  repeat match goal with
         | |- context [match ?x with Some _ => _ | None => _ end] => destruct x
         | |- context [Qeq_bool ?q 0] =>
             let E := fresh "E" in destruct (Qeq_bool q 0) eqn:E;
             [| apply Qeq_bool_neq in E]
         end; try assumption; discriminate.
Qed.

(** The doubles 0, 1 and 100 are exact. *)
Lemma fl_1 : (Double.fl 1 == 1)%Q.
Proof. vm_compute. reflexivity. Qed.

Lemma fl_100 : (Double.fl 100 == 100)%Q.
Proof. vm_compute. reflexivity. Qed.

(** The quotient of a score by a maximum, as a percentage, on doubles. *)
Lemma ratio_nonneg (score maxScore : Q) :
  (0 < maxScore)%Q -> (0 <= score)%Q ->
  (0 <= Double.div score maxScore)%Q
  /\ (0 <= Double.mul (Double.div score maxScore) 100)%Q.
Proof.
  intros Hm Hs.
  assert (Hq : (0 <= Double.div score maxScore)%Q).
  { apply fl_nonneg. apply Qle_shift_div_l; lra. }
  split; [exact Hq |]. apply fl_nonneg.
  set (q := Double.div score maxScore) in *. lra.
Qed.

Lemma ratio_le_100 (score maxScore : Q) :
  (0 < maxScore)%Q -> (0 <= score)%Q -> (score <= maxScore)%Q ->
  (Double.mul (Double.div score maxScore) 100 <= 100)%Q.
Proof.
  intros Hm Hs Hle.
  destruct (ratio_nonneg score maxScore Hm Hs) as [Hq _].
  assert (H1 : (Double.div score maxScore <= 1)%Q).
  { rewrite <- fl_1. apply fl_mono.
    - apply Qle_shift_div_l; lra.
    - apply Qle_shift_div_r; lra. }
  rewrite <- fl_100 at 2. apply fl_mono.
  - set (q := Double.div score maxScore) in *. lra.
  - set (q := Double.div score maxScore) in *. lra.
Qed.

Lemma ratio_ge_100 (score maxScore : Q) :
  (0 < maxScore)%Q -> (maxScore <= score)%Q ->
  (100 <= Double.mul (Double.div score maxScore) 100)%Q.
Proof.
  intros Hm Hle.
  assert (H1 : (1 <= Double.div score maxScore)%Q).
  { rewrite <- fl_1 at 1. apply fl_mono; [lra |]. apply Qle_shift_div_l; lra. }
  rewrite <- fl_100 at 1. apply fl_mono; [lra |].
  set (q := Double.div score maxScore) in *. lra.
Qed.

Lemma ratio_eq (s s' maxScore : Q) :
  (0 < maxScore)%Q -> (0 <= s)%Q -> (s == s')%Q ->
  (Double.mul (Double.div s maxScore) 100 == Double.mul (Double.div s' maxScore) 100)%Q.
Proof.
  intros Hm Hs E.
  assert (Hq : (Double.div s maxScore == Double.div s' maxScore)%Q).
  { apply fl_eq; [apply Qle_shift_div_l; lra |]. rewrite E. reflexivity. }
  destruct (ratio_nonneg s maxScore Hm Hs) as [H0 _].
  apply fl_eq.
  - set (q := Double.div s maxScore) in *. lra.
  - rewrite Hq. reflexivity.
Qed.

(** The percentage of the recorder, for a score that is not negative and
    a maximum above zero. *)
Lemma percentage_of_formula (activity : Activity.t) (maxScore : Q) :
  CognoTracker.maxScore_of activity = maxScore ->
  (0 < maxScore)%Q ->
  (0 <= Activity.score activity)%Q ->
  let score := Activity.score activity in
  CognoTracker.percentage_of activity
    = Z.min 100 (Math_round (Double.mul (Double.div score maxScore) 100))
  /\ CognoTracker.percentage_of activity
     = Math_round (Double.mul (Double.div (Qmin score maxScore) maxScore) 100)
  /\ 0 <= CognoTracker.percentage_of activity <= 100.
Proof.
  intros Hm Hpos Hscore score. fold score in Hscore.
  assert (Hdef : CognoTracker.percentage_of activity
                 = Z.min 100 (Math_round (Double.mul (Double.div score maxScore) 100))).
  { unfold CognoTracker.percentage_of, Math_min. rewrite Hm. reflexivity. }
  destruct (ratio_nonneg score maxScore Hpos Hscore) as [_ H0].
  split; [exact Hdef |]. split.
  - rewrite Hdef. destruct (Q.min_spec score maxScore) as [[Hlt E] | [Hle E]].
    + assert (Hmin : (0 <= Qmin score maxScore)%Q).
      { apply Q.min_glb; lra. }
      rewrite (Math_round_eq _ _ (ratio_eq _ _ maxScore Hpos Hmin E)).
      apply Z.min_r. apply Math_round_le.
      pose proof (ratio_le_100 score maxScore Hpos Hscore ltac:(lra)) as H100.
      change (inject_Z 100) with 100%Q. lra.
    + assert (Hmm : (Double.mul (Double.div maxScore maxScore) 100 == 100)%Q).
      { apply Qle_antisym; [apply ratio_le_100 | apply ratio_ge_100]; lra. }
      assert (Hmin : (0 <= Qmin score maxScore)%Q).
      { apply Q.min_glb; lra. }
      rewrite (Math_round_eq _ _ (ratio_eq _ _ maxScore Hpos Hmin E)).
      rewrite (Math_round_eq _ _ Hmm). change 100%Q with (inject_Z 100).
      rewrite Math_round_int.
      apply Z.min_l. apply Math_round_ge.
      pose proof (ratio_ge_100 score maxScore Hpos Hle) as H100.
      change (inject_Z 100) with 100%Q. lra.
  - rewrite Hdef. split; [| lia].
    apply Z.min_glb; [lia |]. apply Math_round_ge.
    change (inject_Z 0) with 0%Q. lra.
Qed.

(** C2. The points are [round(percentage / 10) * 10], plus 10 when the
    duration is under 120 seconds, plus 25 when the percentage is 100. *)
Theorem calculatePoints_formula :
  (forall percentage duration : Q,
      CognoModules.calculatePoints percentage duration
      = Math_round (percentage / 10)%Q * 10
        + (if lt duration 120 then 10 else 0)
        + (if eq percentage 100 then 25 else 0))
  /\ (forall duration : Q, lt duration 120 = true <-> (duration < 120)%Q)
  /\ (forall percentage : Q, eq percentage 100 = true <-> (percentage == 100)%Q)
  /\ CognoModules.calculatePoints 100 60 = 135
  /\ CognoModules.calculatePoints 100 150 = 125
  /\ CognoModules.calculatePoints 50 300 = 50
  /\ CognoModules.calculatePoints 0 10 = 10.
Proof.
  split.
  { intros percentage duration. unfold CognoModules.calculatePoints.
    destruct (lt duration 120), (eq percentage 100); lia. }
  split; [intros; apply lt_iff |].
  split; [intros; apply eq_iff |].
  repeat split; reflexivity.
Qed.

End Scores.

(** ** Rules of the monad *)

Section MonadRules.
Context {W : Type}.
Implicit Types w : W.

Lemma total_ret {A} (a : A) : total (W := W) (ret a).
Proof. intros w. exists a, w. reflexivity. Qed.

Lemma total_gets {A} (f : W -> A) : total (gets f).
Proof. intros w. exists (f w), w. reflexivity. Qed.

Lemma total_modify (f : W -> W) : total (modify f).
Proof. intros w. exists tt, (f w). reflexivity. Qed.

Lemma total_bind {A B} (m : M W A) (f : A -> M W B) :
  total m -> (forall a, total (f a)) -> total (bind m f).
Proof.
  intros Hm Hf w. destruct (Hm w) as (a & w1 & E). unfold bind. rewrite E. apply Hf.
Qed.

(** A [try] whose handler never throws never throws. *)
Lemma total_try_catch {A} (body : M W A) (handler : string -> M W A) :
  (forall e, total (handler e)) -> total (try_catch body handler).
Proof.
  intros Hh w. unfold try_catch. destruct (body w) as [a w1 | e w1].
  - exists a, w1. reflexivity.
  - apply Hh.
Qed.

Lemma total_for_of {A} (xs : list A) (body : A -> M W unit) :
  (forall x, total (body x)) -> total (for_of xs body).
Proof.
  intros Hb. induction xs as [| x xs IH]; simpl.
  - apply total_ret.
  - apply total_bind; [apply Hb | intros _; exact IH].
Qed.

(** The value of a computation that returns. *)
Lemma bind_returned {A B} (m : M W A) (f : A -> M W B) w (b : B) w' :
  bind m f w = Returned b w' ->
  exists a w1, m w = Returned a w1 /\ f a w1 = Returned b w'.
Proof.
  unfold bind. destruct (m w) as [a w1 | e w1]; [| discriminate].
  intros H. exists a, w1. split; [reflexivity | exact H].
Qed.

Section Keeps.
Context (R : W -> W -> Prop) `{!Reflexive R, !Transitive R}.

Lemma keeps_ret {A} (a : A) : keeps R (ret a).
Proof. intros w. simpl. reflexivity. Qed.

Lemma keeps_throw {A} e : keeps R (throw (A := A) e).
Proof. intros w. simpl. reflexivity. Qed.

Lemma keeps_gets {A} (f : W -> A) : keeps R (gets f).
Proof. intros w. simpl. reflexivity. Qed.

Lemma keeps_modify (f : W -> W) : (forall w, R w (f w)) -> keeps R (modify f).
Proof. intros Hf w. apply Hf. Qed.

Lemma keeps_bind {A B} (m : M W A) (f : A -> M W B) :
  keeps R m -> (forall a, keeps R (f a)) -> keeps R (bind m f).
Proof.
  intros Hm Hf w. specialize (Hm w). unfold bind.
  destruct (m w) as [a w1 | e w1]; simpl in *.
  - etransitivity; [exact Hm | apply Hf].
  - exact Hm.
Qed.

Lemma keeps_try_catch {A} (body : M W A) (handler : string -> M W A) :
  keeps R body -> (forall e, keeps R (handler e)) -> keeps R (try_catch body handler).
Proof.
  intros Hb Hh w. specialize (Hb w). unfold try_catch.
  destruct (body w) as [a w1 | e w1]; simpl in *.
  - exact Hb.
  - etransitivity; [exact Hb | apply Hh].
Qed.

Lemma keeps_for_of {A} (xs : list A) (body : A -> M W unit) :
  (forall x, keeps R (body x)) -> keeps R (for_of xs body).
Proof.
  intros Hb. induction xs as [| x xs IH]; simpl.
  - apply keeps_ret.
  - apply keeps_bind; [apply Hb | intros _; exact IH].
Qed.

End Keeps.

Lemma returned_final {A} (o : Outcome W A) (a : A) :
  value o = Some a -> o = Returned a (final o).
Proof. destruct o as [a' w | e w]; simpl; [intros [= ->]; reflexivity | discriminate]. Qed.

Lemma bind_gets {A B} (g : W -> A) (f : A -> M W B) w : bind (gets g) f w = f (g w) w.
Proof. reflexivity. Qed.

Lemma bind_step {A B} (m : M W A) (f : A -> M W B) w (a : A) w1 :
  m w = Returned a w1 -> bind m f w = f a w1.
Proof. intros E. unfold bind. rewrite E. reflexivity. Qed.

Lemma bind_threw {A B} (m : M W A) (f : A -> M W B) w e w1 :
  m w = Threw e w1 -> bind m f w = Threw e w1.
Proof. intros E. unfold bind. rewrite E. reflexivity. Qed.

Lemma try_returned {A} (body : M W A) (handler : string -> M W A) w (a : A) w1 :
  body w = Returned a w1 -> try_catch body handler w = Returned a w1.
Proof. intros E. unfold try_catch. rewrite E. reflexivity. Qed.

Lemma try_threw {A} (body : M W A) (handler : string -> M W A) w e w1 :
  body w = Threw e w1 -> try_catch body handler w = handler e w1.
Proof. intros E. unfold try_catch. rewrite E. reflexivity. Qed.

End MonadRules.

(** ** Effects of the tracker on the page and the store *)

Section Effects.
Import Store.
Implicit Types (w : World) (P : Request -> Prop).

Lemma same_page_refl w : same_page w w.
Proof. repeat split. Qed.

Lemma same_page_trans w1 w2 w3 : same_page w1 w2 -> same_page w2 w3 -> same_page w1 w3.
Proof.
  unfold same_page. intros (A1 & A2 & A3 & A4 & A5) (B1 & B2 & B3 & B4 & B5).
  repeat split; congruence.
Qed.

Lemma untouched_app l1 l2 table :
  untouched (l1 ++ l2) table <-> untouched l1 table /\ untouched l2 table.
Proof. unfold untouched. apply Forall_app. Qed.

Lemma db_frame_nil d : db_frame [] d d.
Proof. repeat split. Qed.

Lemma db_frame_app l1 l2 d1 d2 d3 :
  db_frame l1 d1 d2 -> db_frame l2 d2 d3 -> db_frame (l1 ++ l2) d1 d3.
Proof.
  unfold db_frame. intros (A1 & A2 & A3 & A4 & A5 & A6) (B1 & B2 & B3 & B4 & B5 & B6).
  repeat split; intros [H1 H2]%untouched_app.
  - rewrite (B1 H2). exact (A1 H1).
  - rewrite (B2 H2). exact (A2 H1).
  - rewrite (B3 H2). exact (A3 H1).
  - rewrite (B4 H2). exact (A4 H1).
  - rewrite (B5 H2). exact (A5 H1).
  - rewrite (B6 H2). exact (A6 H1).
Qed.

Lemma trans_refl P w : trans P w w.
Proof.
  split; [apply same_page_refl |]. split; [reflexivity |].
  exists []. rewrite app_nil_r. repeat split; auto.
Qed.

Lemma trans_trans P w1 w2 w3 : trans P w1 w2 -> trans P w2 w3 -> trans P w1 w3.
Proof.
  intros (S1 & U1 & l1 & R1 & F1 & P1 & D1) (S2 & U2 & l2 & R2 & F2 & P2 & D2).
  split; [eapply same_page_trans; eassumption |].
  split; [congruence |].
  exists (l1 ++ l2). split; [rewrite R2, R1, app_assoc; reflexivity |].
  split; [rewrite F2, F1, drop_drop, length_app; reflexivity |].
  split; [apply Forall_app; split; assumption |].
  eapply db_frame_app; eassumption.
Qed.

Lemma trans_mono P P' w w' :
  (forall rq, P rq -> P' rq) -> trans P w w' -> trans P' w w'.
Proof.
  intros HP (S1 & U1 & l1 & R1 & F1 & P1 & D1).
  split; [exact S1 |]. split; [exact U1 |].
  exists l1. split; [exact R1 |]. split; [exact F1 |]. split; [| exact D1].
  eapply Forall_impl; [exact P1 | exact HP].
Qed.

Global Instance trans_reflexive P : Reflexive (trans P).
Proof. intros w. apply trans_refl. Qed.

Global Instance trans_transitive P : Transitive (trans P).
Proof. intros w1 w2 w3. apply trans_trans. Qed.

Global Instance quiet_reflexive : Reflexive quiet.
Proof. intros w. split; reflexivity. Qed.

Global Instance quiet_transitive : Transitive quiet.
Proof. intros w1 w2 w3 [A1 A2] [B1 B2]. split; congruence. Qed.

Lemma within_mono {A} P P' (m : M World A) :
  (forall rq, P rq -> P' rq) -> within P m -> within P' m.
Proof. intros HP Hm w. eapply trans_mono; [exact HP | apply Hm]. Qed.

Lemma within_ret {A} P (a : A) : within P (ret a).
Proof. apply keeps_ret; apply _. Qed.

Lemma within_throw {A} P e : within P (throw (A := A) e).
Proof. apply keeps_throw; apply _. Qed.

Lemma within_gets {A} P (f : World -> A) : within P (gets f).
Proof. apply keeps_gets; apply _. Qed.

Lemma within_bind {A B} P (m : M World A) (f : A -> M World B) :
  within P m -> (forall a, within P (f a)) -> within P (bind m f).
Proof. apply keeps_bind; apply _. Qed.

Lemma within_try_catch {A} P (body : M World A) (handler : string -> M World A) :
  within P body -> (forall e, within P (handler e)) -> within P (try_catch body handler).
Proof. apply keeps_try_catch; apply _. Qed.

Lemma within_for_of {A} P (xs : list A) (body : A -> M World unit) :
  (forall x, within P (body x)) -> within P (for_of xs body).
Proof. apply keeps_for_of; apply _. Qed.

Lemma within_set_toasts P (f : World -> list Toast) :
  within P (modify (fun w => set_toasts (f w) w)).
Proof.
  intros w. simpl. split; [repeat split |]. split; [reflexivity |].
  exists []. simpl. rewrite app_nil_r. repeat split; auto.
Qed.

Lemma within_set_emails P (f : World -> list Email) :
  within P (modify (fun w => set_emails (f w) w)).
Proof.
  intros w. simpl. split; [repeat split |]. split; [reflexivity |].
  exists []. simpl. rewrite app_nil_r. repeat split; auto.
Qed.

(** One call: the request is in [P] and the store changes as the frame of
    the request allows. *)
Lemma within_call {R} P table op (answer : World -> Reply R * DB) :
  P {| req_table := table; req_op := op |} ->
  (forall w, db_frame [{| req_table := table; req_op := op |}] (db w) (snd (answer w))) ->
  within P (call table op answer).
Proof.
  intros HP Hd w. unfold call.
  set (rq := {| req_table := table; req_op := op |}) in *.
  assert (Hstep : forall d, db_frame [rq] (db w) d -> trans P w (after_call rq d w)).
  { intros d Hframe. split; [repeat split |]. split; [reflexivity |].
    exists [rq]. simpl. split; [reflexivity |].
    split; [destruct (faults w); reflexivity |].
    split; [constructor; [exact HP | constructor] | exact Hframe]. }
  assert (Hsame : db_frame [rq] (db w) (db w)) by (repeat split).
  destruct (supabase_loaded w); [| apply trans_refl].
  specialize (Hd w).
  destruct (head (faults w)) as [[| msg | msg] |]; simpl;
    try (destruct (answer w) as [r d]; simpl in *); auto.
Qed.

Lemma within_select {R} P table (query : DB -> Reply R) :
  P {| req_table := table; req_op := OpSelect |} -> within P (select table query).
Proof. intros HP. apply within_call; [exact HP |]. intros w. repeat split. Qed.

Lemma within_auth_getUser P :
  P {| req_table := "auth"; req_op := OpAuth |} -> within P auth_getUser.
Proof. intros HP. apply within_call; [exact HP |]. intros w. repeat split. Qed.

(** A call shows no toast and sends no mail. *)
Lemma quiet_call {R} table op (answer : World -> Reply R * DB) :
  keeps quiet (call table op answer).
Proof.
  intros w. unfold call, quiet.
  destruct (supabase_loaded w); [| split; reflexivity].
  destruct (head (faults w)) as [[| msg | msg] |]; simpl;
    try (destruct (answer w) as [r d]; simpl); split; reflexivity.
Qed.

End Effects.

Section Footprints.
Import Store.
Implicit Types (w : World) (P : Request -> Prop).

Lemma within_insert P table (write : DB -> DB) :
  P (rq table OpInsert) ->
  (forall d, db_frame [rq table OpInsert] d (write d)) ->
  within P (insert table write).
Proof. intros HP Hw. apply within_call; [exact HP |]. intros w. apply Hw. Qed.

(** A write to one table leaves the others alone. *)
Ltac frame_db :=
  intros; repeat split; intros Hu; try reflexivity;
  inversion Hu; subst; discriminate.

Ltac among := unfold among, rq; simpl; auto 10.

Ltac within_step :=
  first
    [ apply within_ret
    | apply within_gets
    | apply within_throw
    | apply within_set_toasts
    | apply within_set_emails
    | apply within_select; among
    | apply within_auth_getUser; among
    | apply within_insert; [among | frame_db]
    | apply within_bind; [| intros ?]
    | apply within_try_catch; [| intros ?]
    | apply within_for_of; intros ?
    | match goal with
      | |- within _ (match ?x with _ => _ end) => destruct x
      end ].

Ltac within_auto := repeat within_step.

Lemma within_client_getCurrentUser :
  within (among rq_identity) CognoSupabase.getCurrentUser.
Proof. unfold CognoSupabase.getCurrentUser. within_auto. Qed.

Lemma within_getCurrentUser : within (among rq_identity) CognoTracker.getCurrentUser.
Proof.
  unfold CognoTracker.getCurrentUser.
  apply within_try_catch; [| intros e; apply within_ret].
  apply within_bind; [apply within_gets | intros loaded].
  destruct loaded; simpl; [| apply within_ret].
  apply within_bind; [apply within_client_getCurrentUser | intros r].
  destruct (CognoSupabase.user r) as [[u p] |]; apply within_ret.
Qed.

Lemma within_logActivity activityType metadata :
  within (among rq_history) (CognoSupabase.logActivity activityType metadata).
Proof. unfold CognoSupabase.logActivity. within_auto. Qed.

Lemma within_showToast P message type : within P (CognoTracker.showToast message type).
Proof. unfold CognoTracker.showToast. within_auto. Qed.

Lemma within_toast P message type : within P (CognoTracker.toast message type).
Proof. unfold CognoTracker.toast. within_auto. Qed.

Lemma within_showLocalFeedback P activity :
  within P (CognoTracker.showLocalFeedback activity).
Proof. apply within_showToast. Qed.

Lemma within_showSuccessFeedback P activity percentage :
  within P (CognoTracker.showSuccessFeedback activity percentage).
Proof.
  unfold CognoTracker.showSuccessFeedback.
  repeat match goal with |- context [if ?b then _ else _] => destruct b end;
    apply within_toast.
Qed.

Lemma within_logActivityHistory activity percentage :
  within (among rq_history) (CognoTracker.logActivityHistory activity percentage).
Proof.
  unfold CognoTracker.logActivityHistory.
  apply within_try_catch; [| intros e; apply within_ret].
  apply within_bind; [apply within_logActivity | intros ok; apply within_ret].
Qed.

Lemma within_award usr percentage achievement :
  within (among rq_achievements) (CognoTracker.award usr percentage achievement).
Proof.
  unfold CognoTracker.award, CognoTracker.showAchievementUnlocked.
  within_auto.
Qed.

Lemma within_checkAchievements moduleId percentage :
  within (among rq_achievements) (CognoTracker.checkAchievements moduleId percentage).
Proof.
  unfold CognoTracker.checkAchievements.
  apply within_try_catch; [| intros e; apply within_ret].
  apply within_bind; [apply within_gets | intros [usr |]]; [| apply within_ret].
  apply within_bind; [apply within_select; among | intros allProgress].
  apply within_bind; [apply within_select; among | intros moduleProgress].
  apply within_for_of. intros achievement. apply within_award.
Qed.

Lemma within_notifyDoctor activity percentage :
  within (among rq_notify) (CognoTracker.notifyDoctor activity percentage).
Proof. unfold CognoTracker.notifyDoctor. within_auto. Qed.

Lemma within_upsert r :
  within (among [rq "student_progress" OpUpsert]) (CognoTracker.upsert r).
Proof.
  unfold CognoTracker.upsert. apply within_call; [among |]. frame_db.
Qed.

(** *** What never throws *)

Lemma total_showToast message type : total (CognoTracker.showToast message type).
Proof. apply total_modify. Qed.

Lemma total_toast message type : total (CognoTracker.toast message type).
Proof.
  unfold CognoTracker.toast. apply total_bind; [apply total_gets |].
  intros [|]; [apply total_modify | apply total_showToast].
Qed.

Lemma total_showSuccessFeedback activity percentage :
  total (CognoTracker.showSuccessFeedback activity percentage).
Proof.
  unfold CognoTracker.showSuccessFeedback.
  repeat match goal with |- context [if ?b then _ else _] => destruct b end;
    apply total_toast.
Qed.

Lemma total_getCurrentUser : total CognoTracker.getCurrentUser.
Proof. apply total_try_catch. intros e. apply total_ret. Qed.

Lemma total_logActivityHistory activity percentage :
  total (CognoTracker.logActivityHistory activity percentage).
Proof. apply total_try_catch. intros e. apply total_ret. Qed.

Lemma total_checkAchievements moduleId percentage :
  total (CognoTracker.checkAchievements moduleId percentage).
Proof. apply total_try_catch. intros e. apply total_ret. Qed.

Lemma total_notifyDoctor activity percentage :
  total (CognoTracker.notifyDoctor activity percentage).
Proof. apply total_try_catch. intros e. apply total_ret. Qed.

Lemma total_saveActivity activity : total (CognoTracker.saveActivity activity).
Proof. apply total_try_catch. intros e. apply total_ret. Qed.

End Footprints.

(** ** The runs of [saveActivity] *)

Section Runs.
Import Store CognoTracker.
Implicit Types (w : World) (activity : Activity.t).

Lemma valid_false activity :
  negb (JS.truthy (Activity.moduleId activity))
  || negb (JS.truthy (Activity.activityId activity)) = negb (valid activity).
Proof. unfold valid. rewrite negb_andb. reflexivity. Qed.

(** "Refresh user if needed" returns, in a refreshed state. *)
Lemma refresh_returns w :
  exists w1,
    refreshed w w1
    /\ (match tracker_user w with
        | Some _ => ret tt
        | None => u <- getCurrentUser ;; modify (set_tracker_user u)
        end) w = Returned tt w1.
Proof.
  unfold refreshed, bind. destruct (tracker_user w) as [usr |].
  - exists w. split; reflexivity.
  - destruct (total_getCurrentUser w) as (u & wg & E). rewrite E.
    exists (set_tracker_user u wg). split; [| reflexivity].
    exists u, wg. split; reflexivity.
Qed.

(** Every call of [saveActivity] returns, in one of the five ways. *)
Lemma saveActivity_run activity w :
  exists r w', saveActivity activity w = Returned r w' /\ SaveRun activity w r w'.
Proof.
  unfold saveActivity. rewrite valid_false.
  destruct (valid activity) eqn:Hvalid; simpl negb; cbv iota.
  2: { eexists _, _. split; [reflexivity |]. apply RunMissing. exact Hvalid. }
  destruct (refresh_returns w) as (w1 & Hw1 & Erefresh).
  destruct (tracker_user w1) as [usr |] eqn:Husr.
  2: { eexists _, _. split; [| eapply RunGuest; eassumption].
       apply try_returned.
       rewrite bind_gets; cbv beta.
       rewrite (bind_step _ _ _ _ _ Erefresh); cbv beta.
       rewrite bind_gets; cbv beta.
       rewrite Husr. reflexivity. }
  assert (Ebody : forall (B : Type) (k : option User.t -> M World B),
    (u0 <- gets tracker_user ;;
     (match u0 with
      | Some _ => ret tt
      | None => u <- getCurrentUser ;; modify (set_tracker_user u)
      end) ;;;
     u1 <- gets tracker_user ;; k u1) w = k (Some usr) w1).
  { intros B k.
    rewrite bind_gets; cbv beta.
    rewrite (bind_step _ _ _ _ _ Erefresh); cbv beta.
    rewrite bind_gets; cbv beta.
    rewrite Husr. reflexivity. }
  set (pct := percentage_of activity).
  destruct (upsert (progressRecord usr activity (clock w1)) w1) as [r w2 | e w2] eqn:Eup.
  2: { eexists _, _. split; [| eapply RunThrown; eassumption].
       erewrite try_threw; [reflexivity |]. rewrite Ebody.
       rewrite bind_gets; cbv beta.
       apply bind_threw. exact Eup. }
  destruct (error r) as [e |] eqn:Eerr.
  { eexists _, _. split; [| eapply RunRejected; eassumption].
    apply try_returned. rewrite Ebody.
    rewrite bind_gets; cbv beta.
    rewrite (bind_step _ _ _ _ _ Eup); cbv beta. rewrite Eerr. reflexivity. }
  destruct (total_logActivityHistory activity pct w2) as ([] & w3 & E3).
  destruct (total_checkAchievements (Activity.moduleId activity) pct w3) as ([] & w4 & E4).
  assert (E5 : exists w5,
    (if (notifyDoctorThreshold <=? pct)%Z then notifyDoctor activity pct else ret tt) w4
    = Returned tt w5).
  { destruct (notifyDoctorThreshold <=? pct)%Z.
    - destruct (total_notifyDoctor activity pct w4) as ([] & w5 & E5). eauto.
    - exists w4. reflexivity. }
  destruct E5 as (w5 & E5).
  destruct (total_showSuccessFeedback activity pct w5) as ([] & w6 & E6).
  eexists _, _. split; [| eapply RunSaved; eassumption].
  apply try_returned. rewrite Ebody.
  rewrite bind_gets; cbv beta.
  rewrite (bind_step _ _ _ _ _ Eup); cbv beta. rewrite Eerr.
  rewrite (bind_step _ _ _ _ _ E3); cbv beta.
  rewrite (bind_step _ _ _ _ _ E4); cbv beta.
  rewrite (bind_step _ _ _ _ _ E5); cbv beta.
  rewrite (bind_step _ _ _ _ _ E6); cbv beta.
  reflexivity.
Qed.

End Runs.

Section Recording.
Import Store CognoTracker.
Implicit Types (w : World) (activity : Activity.t) (P : Request -> Prop).

Lemma saveActivity_inv activity w r w' :
  saveActivity activity w = Returned r w' -> SaveRun activity w r w'.
Proof.
  intros E. destruct (saveActivity_run activity w) as (r0 & w0 & E0 & H).
  rewrite E in E0. injection E0 as <- <-. exact H.
Qed.

Lemma within_returned {A} P (m : M World A) w (a : A) w' :
  within P m -> m w = Returned a w' -> trans P w w'.
Proof. intros Hm E. specialize (Hm w). rewrite E in Hm. exact Hm. Qed.

Lemma within_threw {A} P (m : M World A) w e w' :
  within P m -> m w = Threw e w' -> trans P w w'.
Proof. intros Hm E. specialize (Hm w). rewrite E in Hm. exact Hm. Qed.

Lemma new_requests_app w w' l : requests w' = requests w ++ l -> new_requests w w' = l.
Proof. intros E. unfold new_requests. rewrite E. apply drop_app_length. Qed.

(** *** The upsert *)

Lemma same_key_refl (r : ProgressRow.t) : same_key r r = true.
Proof. unfold same_key. rewrite !String.eqb_refl. reflexivity. Qed.

(** After the upsert the rows with the key of [r] are [r] alone. *)
Lemma upsert_row_stored (r : ProgressRow.t) rows :
  List.filter (same_key r) (upsert_row r rows) <> []
  /\ Forall (fun x => x = r) (List.filter (same_key r) (upsert_row r rows)).
Proof.
  unfold upsert_row. destruct (existsb (same_key r) rows) eqn:Hex.
  - split.
    + apply existsb_exists in Hex as (x & Hin & Hx).
      intros Hnil.
      assert (Hr : In r (List.filter (same_key r)
                           (map (fun y => if same_key r y then r else y) rows))).
      { apply filter_In. split; [| apply same_key_refl].
        apply in_map_iff. exists x. rewrite Hx. auto. }
      rewrite Hnil in Hr. destruct Hr.
    + apply Forall_forall. intros x Hx%list_elem_of_In.
      apply filter_In in Hx as [Hin Hkey].
      apply in_map_iff in Hin as (y & Hy & _).
      destruct (same_key r y) eqn:Ey; [congruence |]. subst y. congruence.
  - rewrite List.filter_app. simpl. rewrite same_key_refl.
    assert (Hnone : List.filter (same_key r) rows = []).
    { induction rows as [| x rows IH]; [reflexivity |].
      simpl in *. apply orb_false_iff in Hex as [Hx Hrest].
      rewrite Hx. apply IH. exact Hrest. }
    rewrite Hnone. simpl. split; [discriminate |].
    constructor; [reflexivity | constructor].
Qed.

(** An upsert that the gateway accepts. *)
Lemma upsert_accepted (r : ProgressRow.t) w reply w' :
  upsert r w = Returned reply w' ->
  error reply = None ->
  supabase_loaded w = true
  /\ student_progress (db w') = upsert_row r (student_progress (db w))
  /\ data reply = Some (List.filter (same_key r) (upsert_row r (student_progress (db w)))).
Proof.
  unfold upsert, call. destruct (supabase_loaded w); [| discriminate].
  destruct (head (faults w)) as [[| msg | msg] |]; simpl;
    intros E; try discriminate; injection E as <- <-; simpl;
    intros Herr; try discriminate; repeat split.
Qed.

(** *** C3 *)





(** *** C4 *)

Lemma among_untouched (rqs l : list Request) table :
  (forall r, In r rqs -> writes_to table r = false) ->
  Forall (among rqs) l -> untouched l table.
Proof. intros H Hl. eapply Forall_impl; [exact Hl | exact H]. Qed.

Lemma trans_student_progress P w w' :
  trans P w w' ->
  (forall r, P r -> writes_to "student_progress" r = false) ->
  student_progress (db w') = student_progress (db w).
Proof.
  intros (_ & _ & l & _ & _ & Hl & Hd) HP. destruct Hd as (_ & H & _). apply H.
  eapply Forall_impl; [exact Hl | exact HP].
Qed.

Lemma trans_notifications P w w' :
  trans P w w' ->
  (forall r, P r -> writes_to "notifications" r = false) ->
  notifications (db w') = notifications (db w).
Proof.
  intros (_ & _ & l & _ & _ & Hl & Hd) HP. destruct Hd as (_ & _ & _ & _ & _ & H).
  apply H. eapply Forall_impl; [exact Hl | exact HP].
Qed.

Lemma trans_tracker_user P w w' : trans P w w' -> tracker_user w' = tracker_user w.
Proof. intros (_ & H & _). exact H. Qed.

Lemma trans_supabase_loaded P w w' : trans P w w' -> supabase_loaded w' = supabase_loaded w.
Proof. intros (Hs & _). destruct Hs as (H & _). exact H. Qed.

(** What follows a successful upsert stays within the history log, the
    evaluator and the fan-out. *)
Lemma after_upsert_trans activity w2 w3 w4 w5 w6 :
  logActivityHistory activity (percentage_of activity) w2 = Returned tt w3 ->
  checkAchievements (Activity.moduleId activity) (percentage_of activity) w3
    = Returned tt w4 ->
  (if (notifyDoctorThreshold <=? percentage_of activity)%Z
   then notifyDoctor activity (percentage_of activity)
   else ret tt) w4 = Returned tt w5 ->
  showSuccessFeedback activity (percentage_of activity) w5 = Returned tt w6 ->
  trans (among (rq_history ++ rq_achievements)) w2 w4
  /\ trans (among rq_notify) w4 w5
  /\ trans (among []) w5 w6.
Proof.
  intros E3 E4 E5 E6. split; [| split].
  - eapply trans_trans.
    + eapply trans_mono; [| exact (within_returned _ _ _ _ _ (within_logActivityHistory _ _) E3)].
      intros r Hr. apply in_or_app. left. exact Hr.
    + eapply trans_mono; [| exact (within_returned _ _ _ _ _ (within_checkAchievements _ _) E4)].
      intros r Hr. apply in_or_app. right. exact Hr.
  - destruct (notifyDoctorThreshold <=? percentage_of activity)%Z.
    + exact (within_returned _ _ _ _ _ (within_notifyDoctor _ _) E5).
    + injection E5 as <-. apply trans_refl.
  - exact (within_returned _ _ _ _ _ (within_showSuccessFeedback _ _ _) E6).
Qed.

Ltac no_write :=
  let r := fresh "r" in
  let H := fresh "H" in
  intros r H; unfold among, rq_history, rq_achievements, rq_notify in H; simpl in H;
  repeat (destruct H as [<- | H]; [reflexivity |]); destruct H.

(** After a successful recording the store holds, for the activity of the
    student, the record of this attempt and no other. *)
Lemma saveActivity_stored activity w r w' :
  saveActivity activity w = Returned r w' ->
  r !! "success" = Some (VBool true) ->
  r !! "guest" = None ->
  exists usr now,
    tracker_user w' = Some usr
    /\ recorded (User.id usr) (Activity.moduleId activity)
                (Activity.activityId activity) (db w') <> []
    /\ Forall (fun row => row = progressRecord usr activity now)
              (recorded (User.id usr) (Activity.moduleId activity)
                        (Activity.activityId activity) (db w')).
Proof.
  intros E Hs Hg. apply saveActivity_inv in E.
  destruct E as [| | | | usr w1 reply w2 w3 w4 w5 w6 Hvalid Hw1 Husr Eup Herr E3 E4 E5 E6];
    try discriminate.
  destruct (upsert_accepted _ _ _ _ Eup Herr) as (_ & Hsp & _).
  destruct (after_upsert_trans _ _ _ _ _ _ E3 E4 E5 E6) as (T24 & T45 & T56).
  pose proof (within_returned _ _ _ _ _ (within_upsert _) Eup) as T12.
  exists usr, (clock w1). split.
  { rewrite (trans_tracker_user _ _ _ T56), (trans_tracker_user _ _ _ T45),
      (trans_tracker_user _ _ _ T24), (trans_tracker_user _ _ _ T12). exact Husr. }
  assert (Hrows : student_progress (db w6)
                  = upsert_row (progressRecord usr activity (clock w1))
                               (student_progress (db w1))).
  { rewrite (trans_student_progress _ _ _ T56) by no_write.
    rewrite (trans_student_progress _ _ _ T45) by no_write.
    rewrite (trans_student_progress _ _ _ T24) by no_write.
    exact Hsp. }
  unfold recorded. rewrite Hrows.
  apply (upsert_row_stored (progressRecord usr activity (clock w1))
                           (student_progress (db w1))).
Qed.

(** C4. The [completed] flag of the record the tracker stores is true
    exactly when the computed percentage is at least 50: for the record it
    hands to the store, and for the rows the store holds for the activity
    once the recording has succeeded.  At 49 the flag is false, at 50 it
    is true. *)
Theorem completed_iff :
  (forall usr activity now,
      ProgressRow.completed (progressRecord usr activity now) = true
      <-> 50 <= percentage_of activity)
  /\ (forall activity w r w',
        saveActivity activity w = Returned r w' ->
        r !! "success" = Some (VBool true) ->
        r !! "guest" = None ->
        exists usr,
          tracker_user w' = Some usr
          /\ recorded (User.id usr) (Activity.moduleId activity)
                      (Activity.activityId activity) (db w') <> []
          /\ Forall (fun row => ProgressRow.completed row = true
                                <-> 50 <= percentage_of activity)
                    (recorded (User.id usr) (Activity.moduleId activity)
                              (Activity.activityId activity) (db w')))
  /\ (percentage_of (Sample.attempt 49) = 49
      /\ ProgressRow.completed (progressRecord Sample.kid (Sample.attempt 49) 0) = false)
  /\ (percentage_of (Sample.attempt 50) = 50
      /\ ProgressRow.completed (progressRecord Sample.kid (Sample.attempt 50) 0) = true).
Proof.
  assert (Hrec : forall usr activity now,
             ProgressRow.completed (progressRecord usr activity now) = true
             <-> 50 <= percentage_of activity).
  { intros usr activity now. simpl. apply Z.leb_le. }
  split; [exact Hrec |]. split; [| split; split; reflexivity].
  intros activity w r w' E Hs Hg.
  destruct (saveActivity_stored _ _ _ _ E Hs Hg) as (usr & now & Hu & Hne & Hall).
  exists usr. split; [exact Hu |]. split; [exact Hne |].
  eapply Forall_impl; [exact Hall |].
  intros row ->. apply Hrec.
Qed.

Lemma completed_iff_witness :
  let w := Sample.page (Some Sample.kid) Sample.empty_db in
  exists usr,
    tracker_user (final (saveActivity (Sample.attempt 50) w)) = Some usr
    /\ Forall (fun row => ProgressRow.completed row = true
                          <-> 50 <= percentage_of (Sample.attempt 50))
              (recorded (User.id usr) "dyslexia" "letter-match"
                        (db (final (saveActivity (Sample.attempt 50) w)))).
Proof.
  intros w.
  destruct completed_iff as (_ & H & _).
  assert (E : saveActivity (Sample.attempt 50) w
              = Returned (saved (answered [progressRecord Sample.kid (Sample.attempt 50) 1000]) 50)
                         (final (saveActivity (Sample.attempt 50) w))).
  { apply returned_final. vm_compute. reflexivity. }
  destruct (H _ _ _ _ E) as (usr & Hu & _ & Hall); [reflexivity | reflexivity |].
  exists usr. split; [exact Hu | exact Hall].
Defined.

(** *** C1 *)

(** C1. For a score [>= 0] and a maximum [> 0] (the one the caller gives,
    else the one of the catalog, else 100), a recording that succeeds for
    a user returns the percentage
    [min(100, round(score / maxScore * 100))], the quotient and the
    product being those of doubles, and stores it in the record of the
    activity; that value is also
    [round(min(score, maxScore) / maxScore * 100)], and it lies in
    [0, 100]. *)
Theorem saveActivity_percentage activity (maxScore : Q) w r w' :
  maxScore_of activity = maxScore ->
  (0 < maxScore)%Q ->
  (0 <= Activity.score activity)%Q ->
  saveActivity activity w = Returned r w' ->
  r !! "success" = Some (VBool true) ->
  r !! "guest" = None ->
  let score := Activity.score activity in
  let percentage :=
    Z.min 100 (JS.Math_round (Double.mul (Double.div score maxScore) 100)) in
  r !! "percentage" = Some (VNum (inject_Z percentage))
  /\ (exists usr,
        tracker_user w' = Some usr
        /\ recorded (User.id usr) (Activity.moduleId activity)
                    (Activity.activityId activity) (db w') <> []
        /\ Forall (fun row =>
                     ProgressRow.accuracy row
                     = JS.nullish (Activity.accuracy activity) (inject_Z percentage)
                     /\ (JS.nullish (Activity.metadata activity) ∅
                           !! "completion_percentage" = None ->
                         ProgressRow.data row !! "completion_percentage"
                         = Some (SNum (inject_Z percentage))))
                  (recorded (User.id usr) (Activity.moduleId activity)
                            (Activity.activityId activity) (db w')))
  /\ percentage
     = JS.Math_round (Double.mul (Double.div (Qmin score maxScore) maxScore) 100)
  /\ 0 <= percentage <= 100.
Proof.
  intros Hm Hpos Hscore E Hs Hg score percentage.
  destruct (percentage_of_formula activity maxScore Hm Hpos Hscore) as (Hdef & Hmin & Hrange).
  fold score in Hdef, Hmin. fold percentage in Hdef.
  rewrite Hdef in Hmin, Hrange.
  split; [| split; [| split; [exact Hmin | exact Hrange]]].
  - apply saveActivity_inv in E. destruct E; try discriminate.
    rewrite Hdef. reflexivity.
  - destruct (saveActivity_stored _ _ _ _ E Hs Hg) as (usr & now & Hu & Hne & Hall).
    exists usr. split; [exact Hu |]. split; [exact Hne |].
    eapply Forall_impl; [exact Hall |].
    intros row ->. cbn [progressRecord ProgressRow.accuracy ProgressRow.data].
    rewrite Hdef. split; [reflexivity |].
    intros Hnone. rewrite lookup_union_r by exact Hnone.
    apply lookup_singleton_eq.
Qed.

(** 29 of 200: the exact quotient gives 14.5 percent, the doubles of the
    code 14.499999999999998, and the recorder stores 14. *)
Lemma saveActivity_percentage_witness :
  let activity := Activity.mk "dyslexia" "letter-match" 29 (Some 200%Q) 95 None None in
  let w := Sample.page (Some Sample.kid) Sample.empty_db in
  (value (saveActivity activity w) ≫= lookup "percentage") = Some (VNum 14)
  /\ Z.min 100 (JS.Math_round (Double.mul (Double.div 29 200) 100))
     = JS.Math_round (Double.mul (Double.div (Qmin 29 200) 200) 100).
Proof.
  intros activity w.
  assert (E : saveActivity activity w
              = Returned (saved (answered [progressRecord Sample.kid activity 1000]) 14)
                         (final (saveActivity activity w))).
  { apply returned_final. vm_compute. reflexivity. }
  destruct (fun H1 H2 H3 => saveActivity_percentage activity 200 w _ _ H1 H2 H3 E)
    as (Hp & _ & Hmin & _);
    [reflexivity | reflexivity | discriminate | reflexivity | reflexivity |].
  rewrite E. cbn [value mbind option_bind]. rewrite Hp.
  split; [vm_compute; reflexivity | exact Hmin].
Defined.

End Recording.

(** ** Guest mode *)

Section Guest.
Import Store CognoTracker.
Implicit Types (w : World) (activity : Activity.t) (P : Request -> Prop).

Lemma quiet_client_getCurrentUser : keeps quiet CognoSupabase.getCurrentUser.
Proof.
  unfold CognoSupabase.getCurrentUser.
  apply keeps_try_catch; try apply _; [| intros e; apply keeps_ret; apply _].
  apply keeps_bind; try apply _; [apply quiet_call | intros r].
  destruct (error r); [apply keeps_throw; apply _ |].
  destruct (data r) as [[u |] |]; try (apply keeps_ret; apply _).
  apply keeps_bind; try apply _; [apply quiet_call | intros p].
  apply keeps_ret; apply _.
Qed.

Lemma quiet_getCurrentUser : keeps quiet getCurrentUser.
Proof.
  unfold getCurrentUser.
  apply keeps_try_catch; try apply _; [| intros e; apply keeps_ret; apply _].
  apply keeps_bind; try apply _; [apply keeps_gets; apply _ | intros loaded].
  destruct loaded; simpl; [| apply keeps_ret; apply _].
  apply keeps_bind; try apply _; [apply quiet_client_getCurrentUser | intros r].
  destruct (CognoSupabase.user r) as [[u p] |]; apply keeps_ret; apply _.
Qed.

(** Reads leave the store as it is. *)
Lemma db_frame_reads l (d d' : DB) :
  Forall (fun r => is_write (req_op r) = false) l -> db_frame l d d' -> d' = d.
Proof.
  intros Hl (H1 & H2 & H3 & H4 & H5 & H6).
  assert (Hu : forall table, untouched l table).
  { intros table. eapply Forall_impl; [exact Hl |].
    intros r Hr. unfold writes_to. rewrite Hr. apply andb_false_r. }
  destruct d, d'; simpl in *.
  rewrite (H1 (Hu _)), (H2 (Hu _)), (H3 (Hu _)), (H4 (Hu _)), (H5 (Hu _)), (H6 (Hu _)).
  reflexivity.
Qed.

Lemma rq_identity_reads r : among rq_identity r -> is_write (req_op r) = false.
Proof. intros [<- | [<- | []]]; reflexivity. Qed.

(** What "refresh user if needed" does: requests for the identity, no
    write, no feedback. *)
Lemma refreshed_effects w w1 :
  refreshed w w1 ->
  exists l,
    requests w1 = requests w ++ l
    /\ Forall (among rq_identity) l
    /\ db w1 = db w
    /\ quiet w w1
    /\ same_page w w1.
Proof.
  unfold refreshed. destruct (tracker_user w) as [usr |].
  - intros ->. exists []. rewrite app_nil_r.
    repeat split; auto.
  - intros (u & wg & E & ->).
    pose proof (within_returned _ _ _ _ _ within_getCurrentUser E)
      as (Hpage & _ & l & Hreq & _ & Hl & Hframe).
    pose proof (quiet_getCurrentUser w) as Hq. rewrite E in Hq. simpl in Hq.
    exists l. simpl. split; [exact Hreq |]. split; [exact Hl |].
    split; [| split; [exact Hq | exact Hpage]].
    eapply db_frame_reads; [| exact Hframe].
    eapply Forall_impl; [exact Hl | exact rq_identity_reads].
Qed.

(** Without a session the provider resolves no user, whatever the gateway
    does. *)
Lemma no_session_guest w : tracker_user w = None -> auth_user w = None -> guest w.
Proof.
  intros Hu Ha. split; [exact Hu |].
  destruct (supabase_loaded w) eqn:Hl;
    destruct (head (faults w)) as [[| msg | msg] |] eqn:Hf;
    cbv beta iota delta [getCurrentUser CognoSupabase.getCurrentUser auth_getUser call
                         try_catch bind gets ret throw negb];
    rewrite ?Hl, ?Hf, ?Ha; simpl; eexists; reflexivity.
Qed.

(** C6. An attempt with both required fields, recorded while the tracker
    has no user and none can be resolved: the result is
    [{ success: true, guest: true }], not an error; the store is as it was
    and no request wrote to it; the only feedback is the local toast. *)
Theorem guest_mode activity w :
  valid activity = true ->
  guest w ->
  exists w',
    saveActivity activity w = Returned guestResult w'
    /\ guestResult !! "success" = Some (VBool true)
    /\ guestResult !! "guest" = Some (VBool true)
    /\ guestResult !! "error" = None
    /\ db w' = db w
    /\ Forall (fun r => is_write (req_op r) = false) (new_requests w w')
    /\ toasts w' = toasts w ++ [localFeedback]
    /\ emails w' = emails w.
Proof.
  intros Hvalid [Hnone (wg & Eg)].
  destruct (saveActivity_run activity w) as (r & w' & E & Hrun).
  assert (Hguest : forall w1, refreshed w w1 -> tracker_user w1 = None).
  { intros w1. unfold refreshed. rewrite Hnone.
    intros (u & wg' & E' & ->). rewrite Eg in E'. injection E' as <- <-. reflexivity. }
  destruct Hrun as [Hinv | w1 _ Hw1 _ | usr w1 e w2 _ Hw1 Husr
                    | usr w1 reply e w2 _ Hw1 Husr | usr w1 reply w2 w3 w4 w5 w6 _ Hw1 Husr];
    try (rewrite (Hguest _ Hw1) in Husr; discriminate);
    [congruence |].
  exists (set_toasts (toasts w1 ++ [localFeedback]) w1).
  split; [exact E |]. do 3 (split; [reflexivity |]).
  destruct (refreshed_effects _ _ Hw1) as (l & Hreq & Hl & Hdb & [Ht He] & _).
  simpl. split; [exact Hdb |]. split; [| split; congruence].
  rewrite (new_requests_app w _ l) by exact Hreq.
  eapply Forall_impl; [exact Hl | exact rq_identity_reads].
Qed.

Lemma guest_mode_witness :
  let w := Sample.page None Sample.one_doctor in
  exists w',
    saveActivity (Sample.attempt 80) w = Returned guestResult w'
    /\ db w' = db w
    /\ toasts w' = [localFeedback].
Proof.
  intros w.
  destruct (guest_mode (Sample.attempt 80) w) as (w' & E & _ & _ & _ & Hdb & _ & Ht & _).
  - reflexivity.
  - apply no_session_guest; reflexivity.
  - exists w'. split; [exact E |]. split; [exact Hdb | exact Ht].
Defined.

End Guest.

(** ** The notification fan-out *)

Section FanOut.
Import Store CognoTracker.
Implicit Types (w : World) (activity : Activity.t) (P : Request -> Prop).

#[local] Arguments notification : simpl never.
#[local] Arguments activeLinks : simpl never.

Ltac run_notifyDoctor Hu Hl :=
  cbv beta iota delta [notifyDoctor try_catch bind gets select insert call ret];
  repeat first
    [ rewrite Hu
    | rewrite Hl
    | progress simpl
    | match goal with
      | |- context [head (faults ?w)] =>
          destruct (head (faults w)) as [[| ? | ?] |]
      | |- context [hd_error (faults ?w)] =>
          destruct (hd_error (faults w)) as [[| ? | ?] |]
      | |- context [head (tail (faults ?w))] =>
          destruct (head (tail (faults w))) as [[| ? | ?] |]
      | |- context [JS.truthy ?x] => destruct (JS.truthy x)
      end ].

(** With a user and the client loaded, the fan-out starts by asking for
    the active link. *)
Lemma notifyDoctor_asks activity p w usr :
  tracker_user w = Some usr ->
  supabase_loaded w = true ->
  exists l,
    requests (final (notifyDoctor activity p w))
    = requests w ++ rq "doctor_patients" OpSelect :: l.
Proof.
  intros Hu Hl.
  destruct (activeLinks (User.id usr) (db w)) as [| l1 [| l2 ls]] eqn:Hlinks;
    run_notifyDoctor Hu Hl; try rewrite Hlinks; run_notifyDoctor Hu Hl;
    rewrite <- ?app_assoc; eexists; reflexivity.
Qed.

(** Unless exactly one active link is found, nothing is sent. *)
Lemma notifyDoctor_without_link activity p w usr :
  tracker_user w = Some usr ->
  (forall l, activeLinks (User.id usr) (db w) <> [l]) ->
  notifications (db (final (notifyDoctor activity p w))) = notifications (db w)
  /\ ~ In (rq "notifications" OpInsert) (new_requests w (final (notifyDoctor activity p w))).
Proof.
  intros Hu Hnot.
  assert (H : db (final (notifyDoctor activity p w)) = db w
              /\ (requests (final (notifyDoctor activity p w)) = requests w ++ []
                  \/ requests (final (notifyDoctor activity p w))
                     = requests w ++ [rq "doctor_patients" OpSelect])).
  { destruct (supabase_loaded w) eqn:Hl;
      destruct (activeLinks (User.id usr) (db w)) as [| l1 [| l2 ls]] eqn:Hlinks;
      try (exfalso; exact (Hnot l1 eq_refl));
      run_notifyDoctor Hu Hl; try rewrite Hlinks; run_notifyDoctor Hu Hl;
      rewrite ?app_nil_r; auto. }
  destruct H as [Hdb Hreq]. rewrite Hdb. split; [reflexivity |].
  destruct Hreq as [Hreq | Hreq]; rewrite (new_requests_app _ _ _ Hreq);
    simpl; intuition discriminate.
Qed.

(** With exactly one active link that names a doctor, and a gateway that
    answers, one notification is added for that doctor. *)
Lemma notifyDoctor_with_link activity p w usr l :
  healthy w ->
  tracker_user w = Some usr ->
  activeLinks (User.id usr) (db w) = [l] ->
  JS.truthy (LinkRow.doctor_id l) = true ->
  exists w',
    notifyDoctor activity p w = Returned tt w'
    /\ notifications (db w')
       = notifications (db w)
           ++ [notification usr activity p (LinkRow.doctor_id l) (clock w)]
    /\ new_requests w w' = rq_notify.
Proof.
  intros [Hl Hf] Hu Hlinks Htruthy.
  cbv beta iota delta [notifyDoctor try_catch bind gets select insert call ret].
  rewrite Hu, Hl, Hf. simpl. rewrite Hlinks. simpl. rewrite Htruthy. simpl.
  rewrite Hl, Hf. simpl.
  eexists. split; [reflexivity |]. simpl. split; [reflexivity |].
  unfold new_requests. simpl. rewrite <- app_assoc. apply drop_app_length.
Qed.


Lemma trans_set_toasts P w ts : trans P w (set_toasts ts w).
Proof.
  split; [repeat split |]. split; [reflexivity |].
  exists []. simpl. rewrite app_nil_r. repeat split; auto.
Qed.

Lemma trans_requests P w w' :
  trans P w w' -> exists l, requests w' = requests w ++ l /\ Forall P l.
Proof. intros (_ & _ & l & Hreq & _ & Hl & _). exists l. split; assumption. Qed.

(** A refresh followed by steps that ask neither for a link nor write a
    notification. *)
Lemma refreshed_then w w1 w' :
  refreshed w w1 ->
  trans (among (rq "student_progress" OpUpsert :: rq_history ++ rq_achievements)) w1 w' ->
  exists l,
    requests w' = requests w ++ l
    /\ Forall (among (rq_identity
                        ++ rq "student_progress" OpUpsert :: rq_history ++ rq_achievements)) l
    /\ notifications (db w') = notifications (db w).
Proof.
  intros Hw1 T.
  destruct (refreshed_effects _ _ Hw1) as (l0 & Hreq0 & Hl0 & Hdb & _ & _).
  destruct (trans_requests _ _ _ T) as (l1 & Hreq1 & Hl1).
  exists (l0 ++ l1). split; [rewrite Hreq1, Hreq0, app_assoc; reflexivity |]. split.
  - apply Forall_app. split.
    + eapply Forall_impl; [exact Hl0 |]. intros r Hr. apply in_or_app. left. exact Hr.
    + eapply Forall_impl; [exact Hl1 |]. intros r Hr. apply in_or_app. right. exact Hr.
  - rewrite <- Hdb. apply (trans_notifications _ _ _ T).
    intros r Hr. unfold among, rq_history, rq_achievements in Hr. simpl in Hr.
    repeat (destruct Hr as [<- | Hr]; [reflexivity |]). destruct Hr.
Qed.

(** Below the threshold a recording never asks for the link of the
    student and leaves the notifications as they are. *)
Lemma run_below_threshold activity w r w' :
  SaveRun activity w r w' ->
  percentage_of activity < notifyDoctorThreshold ->
  exists l,
    requests w' = requests w ++ l
    /\ Forall (among (rq_identity
                        ++ rq "student_progress" OpUpsert :: rq_history ++ rq_achievements)) l
    /\ notifications (db w') = notifications (db w).
Proof.
  intros Hrun Hlt.
  assert (Hup : forall row w1 w2 (o : Outcome World (Reply (list ProgressRow.t))),
             upsert row w1 = o -> final o = w2 ->
             trans (among (rq "student_progress" OpUpsert :: rq_history ++ rq_achievements))
                   w1 w2).
  { intros row w1 w2 o Eo <-. rewrite <- Eo.
    eapply trans_mono; [| apply (within_upsert row w1)].
    intros r0 [<- | []]. left. reflexivity. }
  destruct Hrun as [Hinv | w1 _ Hw1 _ | usr w1 e w2 _ Hw1 Husr Eup
                    | usr w1 reply e w2 _ Hw1 Husr Eup _
                    | usr w1 reply w2 w3 w4 w5 w6 _ Hw1 Husr Eup Herr E3 E4 E5 E6].
  - exists []. rewrite app_nil_r. repeat split; auto.
  - apply (refreshed_then w w1); [exact Hw1 | apply trans_set_toasts].
  - apply (refreshed_then w w1); [exact Hw1 |]. eapply Hup; [exact Eup | reflexivity].
  - apply (refreshed_then w w1); [exact Hw1 |].
    eapply trans_trans; [eapply Hup; [exact Eup | reflexivity] | apply trans_set_toasts].
  - apply (refreshed_then w w1); [exact Hw1 |].
    destruct (after_upsert_trans _ _ _ _ _ _ E3 E4 E5 E6) as (T24 & _ & T56).
    assert (Hoff : (notifyDoctorThreshold <=? percentage_of activity)%Z = false)
      by (apply Z.leb_gt; exact Hlt).
    rewrite Hoff in E5. injection E5 as <-.
    eapply trans_trans; [eapply Hup; [exact Eup | reflexivity] |].
    eapply trans_trans.
    + eapply trans_mono; [| exact T24]. intros r0 Hr. right. exact Hr.
    + eapply trans_mono; [| exact T56]. intros r0 [].
Qed.

(** At or above the threshold a successful recording asks for the link. *)
Lemma run_at_threshold activity w r w' :
  SaveRun activity w r w' ->
  r !! "success" = Some (VBool true) ->
  r !! "guest" = None ->
  notifyDoctorThreshold <= percentage_of activity ->
  In (rq "doctor_patients" OpSelect) (new_requests w w').
Proof.
  intros Hrun Hs Hg Hge.
  destruct Hrun as [| | | | usr w1 reply w2 w3 w4 w5 w6 _ Hw1 Husr Eup Herr E3 E4 E5 E6];
    try discriminate.
  destruct (after_upsert_trans _ _ _ _ _ _ E3 E4 E5 E6) as (T24 & _ & T56).
  pose proof (within_returned _ _ _ _ _ (within_upsert _) Eup) as T12.
  destruct (upsert_accepted _ _ _ _ Eup Herr) as (Hloaded & _).
  assert (Hon : (notifyDoctorThreshold <=? percentage_of activity)%Z = true)
    by (apply Z.leb_le; exact Hge).
  rewrite Hon in E5.
  assert (Hu4 : tracker_user w4 = Some usr).
  { rewrite (trans_tracker_user _ _ _ T24), (trans_tracker_user _ _ _ T12). exact Husr. }
  assert (Hl4 : supabase_loaded w4 = true).
  { rewrite (trans_supabase_loaded _ _ _ T24), (trans_supabase_loaded _ _ _ T12).
    exact Hloaded. }
  destruct (notifyDoctor_asks activity (percentage_of activity) w4 usr Hu4 Hl4) as (l5 & H5).
  rewrite E5 in H5. simpl in H5.
  destruct (refreshed_effects _ _ Hw1) as (l0 & H0 & _).
  destruct (trans_requests _ _ _ T12) as (l2 & H2 & _).
  destruct (trans_requests _ _ _ T24) as (l4 & H4 & _).
  destruct (trans_requests _ _ _ T56) as (l6 & H6 & _).
  rewrite (new_requests_app w w6
             (l0 ++ l2 ++ l4 ++ (rq "doctor_patients" OpSelect :: l5) ++ l6)).
  - apply in_or_app. right. apply in_or_app. right. apply in_or_app. right.
    apply in_or_app. left. left. reflexivity.
  - rewrite H6, H5, H4, H2, H0. rewrite <- !app_assoc. reflexivity.
Qed.


(** C5. The fan-out misses the doctors of a student who has more than
    one: a student whom two doctors have added has two active links; a
    recording at 95 percent invokes the fan-out, which asks for the link,
    gets two rows where [.single()] wants one, and inserts no
    notification, where the claim has one row for the linked doctor. *)
Lemma notifyDoctor_two_doctors :
  let w := Sample.page (Some Sample.kid) Sample.two_doctors in
  length (activeLinks (User.id Sample.kid) (db w)) = 2%nat
  /\ percentage_of (Sample.attempt 95) = 95
  /\ notifications (db (final (notifyDoctor (Sample.attempt 95) 95 w))) = []
  /\ In (rq "doctor_patients" OpSelect) (requests (final (saveActivity (Sample.attempt 95) w)))
  /\ notifications (db (final (saveActivity (Sample.attempt 95) w))) = [].
Proof.
  intros w. split; [| split; [| split; [| split]]]; try (vm_compute; reflexivity).
  vm_compute. auto 10.
Qed.

(** X27. A recording invokes the fan-out exactly when the percentage is
    at least 80: below, no request asks for the link of the student and no
    notification is written; at or above, a successful recording asks for
    it.  The fan-out never throws.  Unless the query finds exactly one
    active link it inserts nothing; with exactly one, which names a
    doctor, and a gateway that answers, it inserts one notification for
    that doctor, of type "achievement" from 90 and "info" below. *)
Theorem fan_out :
  (forall activity w r w',
      saveActivity activity w = Returned r w' ->
      (percentage_of activity < 80 ->
       ~ In (rq "doctor_patients" OpSelect) (new_requests w w')
       /\ notifications (db w') = notifications (db w))
      /\ (r !! "success" = Some (VBool true) ->
          r !! "guest" = None ->
          80 <= percentage_of activity ->
          In (rq "doctor_patients" OpSelect) (new_requests w w')))
  /\ (forall activity p, total (notifyDoctor activity p))
  /\ (forall activity p w usr,
        tracker_user w = Some usr ->
        (forall l, activeLinks (User.id usr) (db w) <> [l]) ->
        notifications (db (final (notifyDoctor activity p w))) = notifications (db w)
        /\ ~ In (rq "notifications" OpInsert)
                (new_requests w (final (notifyDoctor activity p w))))
  /\ (forall activity p w usr l,
        healthy w ->
        tracker_user w = Some usr ->
        activeLinks (User.id usr) (db w) = [l] ->
        JS.truthy (LinkRow.doctor_id l) = true ->
        exists w' row,
          notifyDoctor activity p w = Returned tt w'
          /\ notifications (db w') = notifications (db w) ++ [row]
          /\ NotificationRow.user_id row = LinkRow.doctor_id l
          /\ NotificationRow.type row = (if (90 <=? p)%Z then "achievement" else "info")).
Proof.
  split; [| split; [| split]].
  - intros activity w r w' E. apply saveActivity_inv in E. split.
    + intros Hlt.
      destruct (run_below_threshold _ _ _ _ E Hlt) as (l & Hreq & Hl & Hn).
      split; [| exact Hn].
      rewrite (new_requests_app _ _ _ Hreq). intros Hin.
      rewrite Forall_forall in Hl. apply list_elem_of_In in Hin. apply Hl in Hin.
      unfold among, rq_identity, rq_history, rq_achievements in Hin. simpl in Hin.
      repeat (destruct Hin as [Hin | Hin]; [discriminate |]). destruct Hin.
    + intros Hs Hg Hge. eapply run_at_threshold; eassumption.
  - intros activity p. apply total_notifyDoctor.
  - intros activity p w usr Hu Hnot. apply notifyDoctor_without_link with usr; assumption.
  - intros activity p w usr l Hh Hu Hlinks Htruthy.
    destruct (notifyDoctor_with_link activity p w usr l Hh Hu Hlinks Htruthy)
      as (w' & E & Hn & _).
    exists w', (notification usr activity p (LinkRow.doctor_id l) (clock w)).
    split; [exact E |]. split; [exact Hn |]. split; reflexivity.
Qed.

Lemma fan_out_witness :
  let w := Sample.page (Some Sample.kid) Sample.one_doctor in
  (~ In (rq "doctor_patients" OpSelect)
       (new_requests w (final (saveActivity (Sample.attempt 79) w))))
  /\ In (rq "doctor_patients" OpSelect)
        (new_requests w (final (saveActivity (Sample.attempt 80) w)))
  /\ exists w' row,
       notifyDoctor (Sample.attempt 95) 95 w = Returned tt w'
       /\ notifications (db w') = [row]
       /\ NotificationRow.user_id row = "doc1"
       /\ NotificationRow.type row = "achievement".
Proof.
  intros w. destruct fan_out as (H1 & _ & _ & H4). split; [| split].
  - assert (E : saveActivity (Sample.attempt 79) w
                = Returned (saved (answered [progressRecord Sample.kid (Sample.attempt 79) 1000]) 79)
                           (final (saveActivity (Sample.attempt 79) w))).
    { apply returned_final. vm_compute. reflexivity. }
    destruct (H1 _ _ _ _ E) as [Hbelow _]. apply Hbelow. vm_compute. reflexivity.
  - assert (E : saveActivity (Sample.attempt 80) w
                = Returned (saved (answered [progressRecord Sample.kid (Sample.attempt 80) 1000]) 80)
                           (final (saveActivity (Sample.attempt 80) w))).
    { apply returned_final. vm_compute. reflexivity. }
    destruct (H1 _ _ _ _ E) as [_ Habove].
    apply Habove; [reflexivity | reflexivity | vm_compute; discriminate].
  - destruct (H4 (Sample.attempt 95) 95 w Sample.kid (LinkRow.mk "doc1" "u1" "active"))
      as (w' & row & E & Hn & Hdoc & Htype);
      [split; reflexivity | reflexivity | reflexivity | reflexivity |].
    exists w', row. split; [exact E |]. split; [exact Hn |]. split; [exact Hdoc | exact Htype].
Defined.

End FanOut.

(** ** The achievement evaluator *)

Section Evaluator.
Import Store CognoTracker.
Implicit Types (w : World) (d : DB) (usr : User.t) (achievement : Achievement.t).

Lemma healthy_after_call w r d : healthy w -> healthy (after_call r d w).
Proof. intros [Hl Hf]. split; simpl; [exact Hl | rewrite Hf; reflexivity]. Qed.

Lemma select_healthy {R} table (query : DB -> Reply R) w :
  healthy w ->
  select table query w = Returned (query (db w)) (after_call (rq table OpSelect) (db w) w).
Proof. intros [Hl Hf]. unfold select, call. rewrite Hl, Hf. reflexivity. Qed.

Lemma insert_healthy table (write : DB -> DB) w :
  healthy w ->
  insert table write w
  = Returned (answered tt) (after_call (rq table OpInsert) (write (db w)) w).
Proof. intros [Hl Hf]. unfold insert, call. rewrite Hl, Hf. reflexivity. Qed.

(** The rows of a user and an achievement after one more row. *)
Lemma earned_added userId achievementId (row : AchievementRow.t) d :
  earned userId achievementId (set_user_achievements (user_achievements d ++ [row]) d)
  = earned userId achievementId d
      ++ (if String.eqb (AchievementRow.user_id row) userId
             && String.eqb (AchievementRow.achievement_id row) achievementId
          then [row] else []).
Proof. unfold earned. simpl. rewrite List.filter_app. reflexivity. Qed.

(** What one turn of the loop does when the gateway answers: nothing when
    the achievement is there once, one insert when it is not there. *)
Lemma award_healthy usr percentage achievement w :
  healthy w ->
  awarded_once (db w) ->
  exists w',
    award usr percentage achievement w = Returned tt w'
    /\ healthy w'
    /\ tracker_user w' = tracker_user w
    /\ student_progress (db w') = student_progress (db w)
    /\ ((earned (User.id usr) (Achievement.id achievement) (db w) <> []
         /\ db w' = db w)
        \/ (earned (User.id usr) (Achievement.id achievement) (db w) = []
            /\ exists row,
                AchievementRow.user_id row = User.id usr
                /\ AchievementRow.achievement_id row = Achievement.id achievement
                /\ db w' = set_user_achievements (user_achievements (db w) ++ [row]) (db w))).
Proof.
  intros Hh Honce. unfold award.
  rewrite (bind_step _ _ _ _ _ (select_healthy _ _ _ Hh)). cbv beta.
  specialize (Honce (User.id usr) (Achievement.id achievement)).
  destruct (earned (User.id usr) (Achievement.id achievement) (db w))
    as [| r0 [| r1 rest]] eqn:He; simpl in Honce; [| | lia].
  - simpl. rewrite bind_gets. cbv beta.
    set (w1 := after_call (rq "user_achievements" OpSelect) (db w) w).
    assert (Hh1 : healthy w1) by (apply healthy_after_call; exact Hh).
    rewrite (bind_step _ _ _ _ _ (insert_healthy _ _ _ Hh1)). cbv beta.
    subst w1. destruct Hh as [Hl Hf].
    cbv beta iota delta [showAchievementUnlocked toast CognoTracker.showToast
                         bind gets modify ret error answered].
    simpl.
    destruct (notifications_loaded w) eqn:Hn, (api_loaded w) eqn:Ha; simpl;
      rewrite ?Ha; simpl;
      (eexists; split; [reflexivity |]; simpl;
       split; [split; simpl; [exact Hl | rewrite Hf; reflexivity] |];
       split; [reflexivity |]; split; [reflexivity |];
       right; split; [reflexivity |];
       eexists; split; [| split; [| reflexivity]]; reflexivity).
  - simpl. eexists. split; [reflexivity |].
    split; [apply healthy_after_call; exact Hh |].
    split; [reflexivity |]. split; [reflexivity |].
    left. split; [discriminate | reflexivity].
Qed.


(** One turn of the loop keeps the invariant, keeps every record that is
    there, and leaves the achievement recorded. *)
Lemma award_step usr percentage achievement w :
  healthy w ->
  awarded_once (db w) ->
  exists w',
    award usr percentage achievement w = Returned tt w'
    /\ healthy w'
    /\ tracker_user w' = tracker_user w
    /\ student_progress (db w') = student_progress (db w)
    /\ awarded_once (db w')
    /\ (forall userId achievementId,
           earned userId achievementId (db w) <> [] ->
           earned userId achievementId (db w') = earned userId achievementId (db w))
    /\ earned (User.id usr) (Achievement.id achievement) (db w') <> [].
Proof.
  intros Hh Honce.
  destruct (award_healthy usr percentage achievement w Hh Honce)
    as (w' & E & Hh' & Hu & Hsp & [[Hthere Hdb] | [Hnone (row & Hru & Hra & Hdb)]]).
  - exists w'. rewrite Hdb.
    split; [exact E |]. split; [exact Hh' |]. split; [exact Hu |].
    split; [reflexivity |]. split; [exact Honce |]. split; [reflexivity | exact Hthere].
  - exists w'. split; [exact E |]. split; [exact Hh' |]. split; [exact Hu |].
    split; [exact Hsp |]. rewrite Hdb.
    assert (Hmatch : forall userId achievementId,
               String.eqb (AchievementRow.user_id row) userId
               && String.eqb (AchievementRow.achievement_id row) achievementId = true ->
               earned userId achievementId (db w) = []).
    { intros u a [Hu1 Ha1]%andb_true_iff.
      apply String.eqb_eq in Hu1, Ha1. subst u a. rewrite Hru, Hra. exact Hnone. }
    split; [| split].
    + intros u a. rewrite earned_added.
      destruct (String.eqb (AchievementRow.user_id row) u
                && String.eqb (AchievementRow.achievement_id row) a) eqn:Em.
      * rewrite (Hmatch u a Em). simpl. lia.
      * rewrite app_nil_r. apply Honce.
    + intros u a Hthere. rewrite earned_added.
      destruct (String.eqb (AchievementRow.user_id row) u
                && String.eqb (AchievementRow.achievement_id row) a) eqn:Em.
      * rewrite (Hmatch u a Em) in Hthere. contradiction.
      * apply app_nil_r.
    + rewrite earned_added, Hru, Hra, !String.eqb_refl. simpl.
      intros Hnil. apply app_eq_nil in Hnil as [_ Hnil]. discriminate.
Qed.

(** The whole loop. *)
Lemma awards_healthy usr percentage (todo : list Achievement.t) w :
  healthy w ->
  awarded_once (db w) ->
  exists w',
    for_of todo (award usr percentage) w = Returned tt w'
    /\ healthy w'
    /\ tracker_user w' = tracker_user w
    /\ student_progress (db w') = student_progress (db w)
    /\ awarded_once (db w')
    /\ (forall userId achievementId,
           earned userId achievementId (db w) <> [] ->
           earned userId achievementId (db w') = earned userId achievementId (db w))
    /\ (forall achievement,
           In achievement todo ->
           earned (User.id usr) (Achievement.id achievement) (db w') <> []).
Proof.
  revert w. induction todo as [| a todo IH]; intros w Hh Honce; simpl.
  - exists w. split; [reflexivity |]. split; [exact Hh |].
    do 2 (split; [reflexivity |]). split; [exact Honce |].
    split; [reflexivity | intros achievement []].
  - destruct (award_step usr percentage a w Hh Honce)
      as (w1 & E1 & Hh1 & Hu1 & Hsp1 & Honce1 & Hkeep1 & Hthere1).
    destruct (IH w1 Hh1 Honce1) as (w' & E & Hh' & Hu & Hsp & Honce' & Hkeep & Hthere).
    exists w'. rewrite (bind_step _ _ _ _ _ E1). cbv beta.
    split; [exact E |]. split; [exact Hh' |]. split; [congruence |].
    split; [congruence |]. split; [exact Honce' |]. split.
    + intros u b Hb. rewrite <- (Hkeep1 u b Hb). apply Hkeep.
      rewrite (Hkeep1 u b Hb). exact Hb.
    + intros achievement [<- | Hin]; [| apply Hthere; exact Hin].
      rewrite (Hkeep _ _ Hthere1). exact Hthere1.
Qed.


(** The evaluator with a healthy gateway: two queries on
    [student_progress], then the loop. *)
Lemma checkAchievements_healthy moduleId percentage w usr :
  healthy w ->
  tracker_user w = Some usr ->
  exists w2 todo,
    healthy w2
    /\ db w2 = db w
    /\ tracker_user w2 = tracker_user w
    /\ todo = achievementsToCheck moduleId percentage
                (answered (List.filter
                             (fun r => String.eqb (ProgressRow.student_id r) (User.id usr))
                             (student_progress (db w))))
                (answered (List.filter
                             (fun r => String.eqb (ProgressRow.student_id r) (User.id usr)
                                       && String.eqb (ProgressRow.module_type r) moduleId
                                       && ProgressRow.completed r)
                             (student_progress (db w))))
    /\ forall w',
        for_of todo (award usr percentage) w2 = Returned tt w' ->
        checkAchievements moduleId percentage w = Returned tt w'.
Proof.
  intros Hh Hu.
  set (w1 := after_call (rq "student_progress" OpSelect) (db w) w).
  set (w2 := after_call (rq "student_progress" OpSelect) (db w1) w1).
  assert (Hh1 : healthy w1) by (apply healthy_after_call; exact Hh).
  exists w2. eexists. split; [apply healthy_after_call; exact Hh1 |].
  split; [reflexivity |]. split; [reflexivity |]. split; [reflexivity |].
  intros w' E. unfold checkAchievements. apply try_returned.
  rewrite bind_gets. cbv beta. rewrite Hu.
  rewrite (bind_step _ _ _ _ _ (select_healthy _ _ _ Hh)). cbv beta.
  rewrite (bind_step _ _ _ _ _ (select_healthy _ _ _ Hh1)). cbv beta.
  exact E.
Qed.


(** C7. The existence check of the evaluator drops the error of its
    query, so a check that fails counts as "not earned yet": a student who
    holds the achievement of the first activity is evaluated again, the
    gateway fails the check and answers the insert, and the store has two
    records of that achievement for the student, where the claim has at
    most one. *)
Lemma checkAchievements_failed_check :
  let w := Sample.failing [NoFault; NoFault; ErrorResult "fetch failed"]
             (Sample.page (Some Sample.kid) Sample.played) in
  earned "u1" "first_activity" (db w) = [Sample.first_steps]
  /\ checkAchievements "dyslexia" 100 w
     = Returned tt (final (checkAchievements "dyslexia" 100 w))
  /\ length (earned "u1" "first_activity"
               (db (final (checkAchievements "dyslexia" 100 w)))) = 2%nat.
Proof.
  intros w. split; [reflexivity |]. split; [| vm_compute; reflexivity].
  apply returned_final. vm_compute. reflexivity.
Qed.



End Evaluator.

(** ** The modules handler *)

Section Handler.
Import CognoModules.
Implicit Types (w : World) (usr : AuthUser.t).

(** The call of [upsert] throws and asks nothing. *)
Lemma upsert_throws (r : ActivityProgressRow.t) w :
  exists e, upsert r w = Threw e w.
Proof.
  unfold upsert, client, bind, gets, throw, ret.
  destruct (supabase_loaded w); eexists; reflexivity.
Qed.

(** The three ways [completeActivity] ends: without a user it returns at
    once; with one, the upsert throws and the handler shows the failure,
    or throws itself where [CognoNotifications] is not bound. *)
Lemma completeActivity_run activityId (score maxScore duration : Q) w :
  completeActivity activityId score maxScore duration w
  = match user w with
    | None => Returned None w
    | Some _ =>
        if notifications_loaded w
        then Returned None (add_toast "Failed to save progress" "error" w)
        else Threw "CognoNotifications is not defined" w
    end.
Proof.
  unfold completeActivity, bind, gets. destruct (user w) as [usr |]; [| reflexivity].
  unfold try_catch, bind, gets.
  destruct (upsert_throws
              (completionRow usr (currentModule w) activityId score maxScore duration
                             (cached activityId w) (clock w)) w) as (e & ->).
  unfold toast, bind, gets, modify, throw, ret.
  destruct (notifications_loaded w); reflexivity.
Qed.

(** C9. The modules path keeps no running maximum, because it stores
    nothing: [completeActivity] builds the row with the maxima and hands
    it to [CognoSupabase.upsert], which the client does not have.
    Whatever the score, the page and the gateway, it returns no result,
    asks nothing of the provider, and leaves the tables and the cache of
    the page as they were.  So after a completion at 90 and one at 40 on
    the page of a student the store has no row of the activity, where the
    claim has one with the maximum, and the student has been told twice
    that the progress could not be saved. *)
Theorem completeActivity_stores_nothing :
  (forall activityId (score maxScore duration : Q) w,
      let outcome := completeActivity activityId score maxScore duration w in
      (forall c, value outcome <> Some (Some c))
      /\ tables (final outcome) = tables w
      /\ requests (final outcome) = requests w
      /\ activityProgress (final outcome) = activityProgress w)
  /\ (let w1 := final (completeActivity "letter-match" 90 100 300 fresh_page) in
      let w2 := final (completeActivity "letter-match" 40 100 300 w1) in
      activity_progress w2 = []
      /\ requests w2 = []
      /\ toasts w2 = [("Failed to save progress", "error");
                      ("Failed to save progress", "error")]).
Proof.
  split.
  - intros activityId score maxScore duration w outcome. subst outcome.
    rewrite completeActivity_run.
    destruct (user w); [destruct (notifications_loaded w) |];
      (split; [intros c; discriminate | repeat split]).
  - rewrite !completeActivity_run. repeat split.
Qed.

End Handler.

(** ** Percentages above 100 *)

Section Policies.
Import CognoModules.
Implicit Types (w : World) (usr : AuthUser.t).








End Policies.


(** ** Realtime subscriptions and the registry of channels *)

Section Registry.
Import Realtime.
Implicit Types (w : World) (ref : nat).

Lemma channel_unsubscribe_channels ref w :
  channels (channel_unsubscribe ref w) = channels w.
Proof. reflexivity. Qed.

(** Leaving a channel twice is leaving it once. *)
Lemma channel_unsubscribe_twice ref w :
  channel_unsubscribe ref (channel_unsubscribe ref w) = channel_unsubscribe ref w.
Proof.
  unfold channel_unsubscribe, set_objects. simpl. f_equal.
  rewrite list_alter_alter_eq. apply list_alter_ext; [| reflexivity].
  intros c _. reflexivity.
Qed.

Lemma channel_unsubscribe_joined ref w c :
  objects w !! ref = Some c ->
  is_joined ref (channel_unsubscribe ref w) = Some false.
Proof.
  intros H. unfold is_joined, channel_unsubscribe. simpl.
  rewrite list_lookup_alter_eq, H. reflexivity.
Qed.

(** What a table subscription does with the client loaded. *)
Lemma table_subscribe_loaded tbl options w :
  client w = true ->
  exists w1,
    table_subscribe tbl options w = (Leave (length (objects w)), w1)
    /\ channels w1 = channels w
    /\ objects w1
       = objects w
           ++ [{| topic := channelName_of tbl w;
                  bindings := [{| event := JS.str_or (opt_event options) "*";
                                  schema := "public";
                                  table := tbl;
                                  filter := opt_filter options |}];
                  joined := true |}].
Proof.
  intros Hc. unfold table_subscribe. rewrite Hc. simpl.
  eexists. split; [reflexivity |]. split; [reflexivity |]. simpl.
  rewrite !alter_app_r_alt by (simpl; lia).
  rewrite !Nat.sub_diag. reflexivity.
Qed.

(** C8, as the claim has it, fails: the channel a table subscription opens
    is joined at the provider and is not in the registry of the manager, so
    that calling the returned function takes nothing out of the registry. *)
Lemma table_subscribe_unregistered :
  let options := {| opt_event := Some "INSERT"; opt_filter := Some "user_id=eq.u1" |} in
  let u := fst (table_subscribe "notifications" options fresh) in
  let w1 := snd (table_subscribe "notifications" options fresh) in
  u = Leave 0
  /\ map topic (objects w1) = ["table:notifications:1000"]
  /\ is_joined 0 w1 = Some true
  /\ channels w1 !! "table:notifications:1000" = None
  /\ unregistered w1 = ["table:notifications:1000"]
  /\ channels (invoke u w1) = channels w1.
Proof. repeat split; vm_compute; reflexivity. Qed.

(** C8, as the code has it. A table subscription never enters the
    registry of the manager: subscribing leaves the registry as it is, and
    so does the returned function, which leaves the channel of the
    subscription at the provider; calling it a second time changes
    nothing.  [RealtimeManager.unsubscribe], for a channel the manager
    registered, removes the name from the registry, and a second call
    changes nothing. *)
Theorem unsubscribe_registry :
  (forall tbl options w,
      let u := fst (table_subscribe tbl options w) in
      let w1 := snd (table_subscribe tbl options w) in
      channels w1 = channels w
      /\ channels (invoke u w1) = channels w1
      /\ invoke u (invoke u w1) = invoke u w1
      /\ (client w = true ->
          u = Leave (length (objects w))
          /\ is_joined (length (objects w)) w1 = Some true
          /\ is_joined (length (objects w)) (invoke u w1) = Some false)
      /\ (client w = false -> u = Inert /\ w1 = w))
  /\ (forall channelName w,
        channels (unsubscribe channelName w) = delete channelName (channels w)
        /\ channels (unsubscribe channelName w) !! channelName = None
        /\ unsubscribe channelName (unsubscribe channelName w) = unsubscribe channelName w).
Proof.
  split.
  - intros tbl options w u w1. subst u w1.
    destruct (client w) eqn:Hc.
    + destruct (table_subscribe_loaded tbl options w Hc) as (w1 & E & Hch & Hobj).
      rewrite E. simpl.
      split; [exact Hch |]. split; [reflexivity |].
      split; [apply channel_unsubscribe_twice |].
      split; [| discriminate]. intros _. split; [reflexivity |].
      assert (Hl : objects w1 !! length (objects w)
                   = Some {| topic := channelName_of tbl w;
                             bindings := [{| event := JS.str_or (opt_event options) "*";
                                             schema := "public";
                                             table := tbl;
                                             filter := opt_filter options |}];
                             joined := true |}).
      { rewrite Hobj. apply list_lookup_middle. reflexivity. }
      split.
      * unfold is_joined. rewrite Hl. reflexivity.
      * eapply channel_unsubscribe_joined. exact Hl.
    + unfold table_subscribe. rewrite Hc. simpl.
      split; [reflexivity |]. split; [reflexivity |]. split; [reflexivity |].
      split; [discriminate |]. intros _. split; reflexivity.
  - intros channelName w.
    assert (Hdel : channels (unsubscribe channelName w) = delete channelName (channels w)).
    { unfold unsubscribe. destruct (channels w !! channelName) as [ref |] eqn:E.
      - reflexivity.
      - symmetry. apply delete_id. exact E. }
    assert (Hnone : channels (unsubscribe channelName w) !! channelName = None).
    { rewrite Hdel. apply lookup_delete_eq. }
    split; [exact Hdel |]. split; [exact Hnone |].
    unfold unsubscribe at 1. rewrite Hnone. reflexivity.
Qed.

Lemma unsubscribe_registry_witness :
  let w := snd (subscribe "presence" fresh) in
  channels w !! "presence" = Some 0%nat
  /\ channels (unsubscribe "presence" w) !! "presence" = None
  /\ unsubscribe "presence" (unsubscribe "presence" w) = unsubscribe "presence" w
  /\ (client w = true
      -> fst (table_subscribe "progress" {| opt_event := None; opt_filter := None |} w)
         = Leave 1).
Proof.
  intros w. destruct unsubscribe_registry as [Htable Hmanager].
  destruct (Hmanager "presence" w) as (_ & Hnone & Htwice).
  split; [reflexivity |]. split; [exact Hnone |]. split; [exact Htwice |].
  intros Hc.
  destruct (Htable "progress" {| opt_event := None; opt_filter := None |} w)
    as (_ & _ & _ & Hloaded & _).
  destruct (Hloaded Hc) as (Hu & _). exact Hu.
Defined.

End Registry.

(** ** The scenario of the specification *)

(** A student with one doctor completes [letter-match] of [dyslexia] with the
    full score in 90 seconds: the record is at 100, completed; the first
    activity and the perfect score of the module are unlocked; the doctor
    receives one notification of type [achievement]; the modules handler
    counts 135 points for the same percentage. *)
Section Scenario.
Import Store CognoTracker.

Example scenario :
  let w := final (saveActivity (Sample.attempt 100)
                    (Sample.page (Some Sample.kid) Sample.one_doctor)) in
  CognoTracker.percentage_of (Sample.attempt 100) = 100
  /\ map ProgressRow.completed (student_progress (db w)) = [true]
  /\ map AchievementRow.achievement_id (user_achievements (db w))
     = ["first_activity"; "perfect_dyslexia"]
  /\ map (fun n => (NotificationRow.user_id n, NotificationRow.type n)) (notifications (db w))
     = [("doc1", "achievement")]
  /\ CognoModules.calculatePoints 100 90 = 135.
Proof.
  vm_compute. repeat split; reflexivity.
Qed.

End Scenario.

(** ** How a recording ends *)

Section Endings.
Import Store CognoTracker.
Implicit Types (w : World) (activity : Activity.t).

(** An upsert that does not answer leaves the store as it was. *)
Lemma upsert_unanswered (row : ProgressRow.t) w :
  match upsert row w with
  | Returned reply w' => error reply <> None -> db w' = db w /\ quiet w w'
  | Threw _ w' => db w' = db w /\ quiet w w'
  end.
Proof.
  unfold upsert, call, quiet. destruct (supabase_loaded w); [| repeat split].
  destruct (head (faults w)) as [[| msg | msg] |]; simpl;
    try (intros H; contradiction H; reflexivity); repeat split.
Qed.

(** An upsert on a gateway that answers. *)
Lemma upsert_answered (row : ProgressRow.t) w :
  supabase_loaded w = true ->
  head (faults w) = None \/ head (faults w) = Some NoFault ->
  upsert row w
  = Returned
      (answered (List.filter (same_key row) (upsert_row row (student_progress (db w)))))
      (after_call (rq "student_progress" OpUpsert)
                  (set_student_progress (upsert_row row (student_progress (db w))) (db w))
                  w).
Proof.
  intros Hl Hf. unfold upsert, call. rewrite Hl.
  destruct Hf as [-> | ->]; reflexivity.
Qed.

(** X1. [saveActivity] never rejects: whatever the attempt, the page and
    the gateway, it resolves to a result object whose [success] is a
    boolean, and a result that is not a success carries an error
    message. *)
Theorem saveActivity_settles activity w :
  exists r w',
    saveActivity activity w = Returned r w'
    /\ (exists b, r !! "success" = Some (VBool b))
    /\ (r !! "success" = Some (VBool false) -> exists e, r !! "error" = Some (VStr e)).
Proof.
  destruct (saveActivity_run activity w) as (r & w' & E & Hrun).
  exists r, w'. split; [exact E |].
  destruct Hrun.
  - split; [exists false; reflexivity |]. intros _. eexists. reflexivity.
  - split; [exists true; reflexivity |]. discriminate.
  - split; [exists false; reflexivity |]. intros _. eexists. reflexivity.
  - split; [exists false; reflexivity |]. intros _. eexists. reflexivity.
  - split; [exists true; reflexivity |]. discriminate.
Qed.

(** X2. A recording that fails changes nothing in the store and sends no
    mail; the only requests it has made are those that resolve the
    identity and, at most, the upsert that failed: no history entry, no
    achievement and no notification is attempted. *)
Theorem saveActivity_failure activity w r w' :
  saveActivity activity w = Returned r w' ->
  r !! "success" = Some (VBool false) ->
  db w' = db w
  /\ emails w' = emails w
  /\ Forall (among (rq_identity ++ [rq "student_progress" OpUpsert])) (new_requests w w').
Proof.
  intros E Hs. apply saveActivity_inv in E.
  assert (Hleft : forall l, Forall (among rq_identity) l ->
            Forall (among (rq_identity ++ [rq "student_progress" OpUpsert])) l).
  { intros l Hl. eapply Forall_impl; [exact Hl |].
    intros x Hx. apply in_or_app. left. exact Hx. }
  assert (Hup : forall w1 w2 l,
            requests w1 = requests w ++ l ->
            Forall (among rq_identity) l ->
            trans (among [rq "student_progress" OpUpsert]) w1 w2 ->
            Forall (among (rq_identity ++ [rq "student_progress" OpUpsert]))
                   (new_requests w w2)).
  { intros w1 w2 l Hreq Hl (_ & _ & l2 & Hreq2 & _ & Hl2 & _).
    rewrite (new_requests_app w w2 (l ++ l2)) by (rewrite Hreq2, Hreq, app_assoc; reflexivity).
    apply Forall_app. split; [apply Hleft; exact Hl |].
    eapply Forall_impl; [exact Hl2 |]. intros x Hx. apply in_or_app. right. exact Hx. }
  destruct E as [Hvalid | w1 Hvalid Hw1 Husr | usr w1 e w2 Hvalid Hw1 Husr Eup
                 | usr w1 reply e w2 Hvalid Hw1 Husr Eup Herr | ]; try discriminate.
  - split; [reflexivity |]. split; [reflexivity |].
    rewrite (new_requests_app w w []) by (rewrite app_nil_r; reflexivity). constructor.
  - destruct (refreshed_effects _ _ Hw1) as (l & Hreq & Hl & Hdb & [_ Hmail] & _).
    pose proof (upsert_unanswered (progressRecord usr activity (clock w1)) w1) as Hun.
    rewrite Eup in Hun. destruct Hun as [Hdb2 [_ Hmail2]].
    split; [congruence |]. split; [congruence |].
    pose proof (within_threw _ _ _ _ _ (within_upsert _) Eup) as T.
    exact (Hup _ _ _ Hreq Hl T).
  - destruct (refreshed_effects _ _ Hw1) as (l & Hreq & Hl & Hdb & [_ Hmail] & _).
    pose proof (upsert_unanswered (progressRecord usr activity (clock w1)) w1) as Hun.
    rewrite Eup in Hun. destruct Hun as [Hdb2 [_ Hmail2]]; [congruence |].
    simpl. split; [congruence |]. split; [congruence |].
    pose proof (within_returned _ _ _ _ _ (within_upsert _) Eup) as T.
    exact (Hup _ _ _ Hreq Hl T).
Qed.

Lemma saveActivity_failure_witness :
  let w := Sample.failing [ErrorResult "offline"] (Sample.page (Some Sample.kid) Sample.one_doctor) in
  saveActivity (Sample.attempt 80) w
  = Returned (failure "offline") (final (saveActivity (Sample.attempt 80) w))
  /\ db (final (saveActivity (Sample.attempt 80) w)) = db w.
Proof.
  intros w.
  assert (E : saveActivity (Sample.attempt 80) w
              = Returned (failure "offline") (final (saveActivity (Sample.attempt 80) w))).
  { apply returned_final. vm_compute. reflexivity. }
  split; [exact E |].
  exact (proj1 (saveActivity_failure _ _ _ _ E eq_refl)).
Defined.

End Endings.

(** ** What a saved recording leaves behind *)

Section Saved.
Import Store CognoTracker.
Implicit Types (w : World) (activity : Activity.t).

Ltac no_write :=
  let r := fresh "r" in
  let H := fresh "H" in
  intros r H; unfold among, rq_history, rq_achievements, rq_notify in H; simpl in H;
  repeat (destruct H as [<- | H]; [reflexivity |]); destruct H.

(** With a user on the page no identity is resolved. *)
Lemma refreshed_known w w1 usr : tracker_user w = Some usr -> refreshed w w1 -> w1 = w.
Proof. unfold refreshed. intros ->. auto. Qed.

(** The run of [saveActivity] when the tracker knows the user and the
    gateway answers the upsert. *)
Lemma saveActivity_saved activity w usr :
  valid activity = true ->
  tracker_user w = Some usr ->
  supabase_loaded w = true ->
  head (faults w) = None \/ head (faults w) = Some NoFault ->
  let record := progressRecord usr activity (clock w) in
  let rows := upsert_row record (student_progress (db w)) in
  let w2 := after_call (rq "student_progress" OpUpsert)
                       (set_student_progress rows (db w)) w in
  exists w3 w4 w5 w6,
    saveActivity activity w
    = Returned (saved (answered (List.filter (same_key record) rows))
                      (percentage_of activity)) w6
    /\ logActivityHistory activity (percentage_of activity) w2 = Returned tt w3
    /\ checkAchievements (Activity.moduleId activity) (percentage_of activity) w3
       = Returned tt w4
    /\ (if (notifyDoctorThreshold <=? percentage_of activity)%Z
        then notifyDoctor activity (percentage_of activity)
        else ret tt) w4 = Returned tt w5
    /\ showSuccessFeedback activity (percentage_of activity) w5 = Returned tt w6.
Proof.
  intros Hvalid Husr Hl Hf record rows w2.
  pose proof (upsert_answered record w Hl Hf) as Eup. fold rows in Eup. fold w2 in Eup.
  destruct (saveActivity_run activity w) as (r & w' & E & Hrun).
  destruct Hrun as [Hv | w1 _ Hw1 Hu1 | usr1 w1 e w2' _ Hw1 Hu1 Eup1
                    | usr1 w1 reply e w2' _ Hw1 Hu1 Eup1 Herr
                    | usr1 w1 reply w2' w3 w4 w5 w6 _ Hw1 Hu1 Eup1 Herr E3 E4 E5 E6].
  - congruence.
  - apply (refreshed_known _ _ _ Husr) in Hw1. subst w1. congruence.
  - apply (refreshed_known _ _ _ Husr) in Hw1. subst w1.
    assert (usr1 = usr) by congruence. subst usr1.
    unfold record in Eup. rewrite Eup in Eup1. discriminate.
  - apply (refreshed_known _ _ _ Husr) in Hw1. subst w1.
    assert (usr1 = usr) by congruence. subst usr1.
    unfold record in Eup. rewrite Eup in Eup1. injection Eup1 as <- <-. discriminate.
  - apply (refreshed_known _ _ _ Husr) in Hw1. subst w1.
    assert (usr1 = usr) by congruence. subst usr1.
    unfold record in Eup. rewrite Eup in Eup1. injection Eup1 as <- <-.
    exists w3, w4, w5, w6. repeat split; assumption.
Qed.

(** The record of a recording whose upsert is answered. *)
Lemma saveActivity_stores activity w usr :
  valid activity = true ->
  tracker_user w = Some usr ->
  supabase_loaded w = true ->
  head (faults w) = None \/ head (faults w) = Some NoFault ->
  let record := progressRecord usr activity (clock w) in
  exists w',
    saveActivity activity w
    = Returned (saved (answered (List.filter (same_key record)
                                   (upsert_row record (student_progress (db w)))))
                      (percentage_of activity)) w'
    /\ student_progress (db w') = upsert_row record (student_progress (db w))
    /\ In record (student_progress (db w')).
Proof.
  intros Hvalid Husr Hl Hf record.
  destruct (saveActivity_saved activity w usr Hvalid Husr Hl Hf)
    as (w3 & w4 & w5 & w6 & E & E3 & E4 & E5 & E6).
  destruct (after_upsert_trans _ _ _ _ _ _ E3 E4 E5 E6) as (T24 & T45 & T56).
  exists w6. split; [exact E |].
  assert (Hrows : student_progress (db w6)
                  = upsert_row record (student_progress (db w))).
  { rewrite (trans_student_progress _ _ _ T56) by no_write.
    rewrite (trans_student_progress _ _ _ T45) by no_write.
    rewrite (trans_student_progress _ _ _ T24) by no_write.
    reflexivity. }
  split; [exact Hrows |].
  rewrite Hrows.
  destruct (upsert_row_stored record (student_progress (db w))) as [Hne Hall].
  destruct (List.filter (same_key record) (upsert_row record (student_progress (db w))))
    as [| x xs] eqn:Ef; [contradiction Hne; reflexivity |].
  assert (Hin : In x (List.filter (same_key record)
                        (upsert_row record (student_progress (db w)))))
    by (rewrite Ef; left; reflexivity).
  apply filter_In in Hin. destruct Hin as [Hin _].
  inversion Hall; subst. exact Hin.
Qed.

(** X3. A recording succeeds whenever its upsert does: with a user on the
    page and a gateway that answers the first call, [saveActivity] returns
    the success result with the percentage and the stored rows, and the
    record is in the store, whatever the gateway does to the history
    entry, to the evaluator and to the notification that follow. *)
Theorem saveActivity_best_effort activity w usr :
  valid activity = true ->
  tracker_user w = Some usr ->
  supabase_loaded w = true ->
  head (faults w) = None \/ head (faults w) = Some NoFault ->
  let record := progressRecord usr activity (clock w) in
  exists w',
    saveActivity activity w
    = Returned (saved (answered (List.filter (same_key record)
                                   (upsert_row record (student_progress (db w)))))
                      (percentage_of activity)) w'
    /\ student_progress (db w') = upsert_row record (student_progress (db w))
    /\ In record (student_progress (db w')).
Proof. exact (saveActivity_stores activity w usr). Qed.

Lemma saveActivity_best_effort_witness :
  let w := Sample.failing [NoFault; NetworkThrow "offline"; ErrorResult "busy"]
             (Sample.page (Some Sample.kid) Sample.one_doctor) in
  exists w',
    saveActivity (Sample.attempt 95) w
    = Returned (saved (answered [progressRecord Sample.kid (Sample.attempt 95) 1000]) 95) w'
    /\ In (progressRecord Sample.kid (Sample.attempt 95) 1000) (student_progress (db w')).
Proof.
  intros w.
  destruct (saveActivity_best_effort (Sample.attempt 95) w Sample.kid)
    as (w' & E & _ & Hin);
    [reflexivity | reflexivity | reflexivity | right; reflexivity |].
  exists w'. split; [exact E | exact Hin].
Defined.

Lemma trans_activity_logs P w w' :
  trans P w w' ->
  (forall r, P r -> writes_to "activity_logs" r = false) ->
  activity_logs (db w') = activity_logs (db w).
Proof.
  intros (_ & _ & l & _ & _ & Hl & Hd) HP. destruct Hd as (_ & _ & H & _). apply H.
  eapply Forall_impl; [exact Hl | exact HP].
Qed.

Lemma trans_same_page P w w' : trans P w w' -> same_page w w'.
Proof. intros (H & _). exact H. Qed.

(** The history entry on a gateway that answers: one row for the identity
    of the session, none without a session. *)
Lemma logActivityHistory_healthy activity w :
  healthy w ->
  exists w',
    logActivityHistory activity (percentage_of activity) w = Returned tt w'
    /\ activity_logs (db w')
       = activity_logs (db w)
           ++ match auth_user w with
              | Some u => [historyEntry (AuthUser.id u) activity]
              | None => []
              end.
Proof.
  intros [Hl Hf].
  unfold logActivityHistory, CognoSupabase.logActivity, try_catch, bind, auth_getUser,
    insert, call, ret, throw.
  rewrite Hl, Hf. simpl. destruct (auth_user w) as [u |]; simpl.
  - rewrite Hl, Hf. simpl. eexists. split; [reflexivity |]. reflexivity.
  - eexists. split; [reflexivity |]. simpl. rewrite app_nil_r. reflexivity.
Qed.

(** X4. On a gateway that answers, a recording by the user of the page
    adds exactly one entry to the history, and the entry belongs to the
    identity of the session, not to the user the tracker holds; when the
    session is gone, the progress is stored and no entry is written. *)
Theorem saveActivity_history activity w usr :
  valid activity = true ->
  healthy w ->
  tracker_user w = Some usr ->
  exists r w',
    saveActivity activity w = Returned r w'
    /\ r !! "success" = Some (VBool true)
    /\ In (progressRecord usr activity (clock w)) (student_progress (db w'))
    /\ activity_logs (db w')
       = activity_logs (db w)
           ++ match auth_user w with
              | Some u => [historyEntry (AuthUser.id u) activity]
              | None => []
              end.
Proof.
  intros Hvalid Hw Husr.
  assert (Hl : supabase_loaded w = true) by apply Hw.
  assert (Hf : head (faults w) = None \/ head (faults w) = Some NoFault).
  { left. destruct Hw as [_ ->]. reflexivity. }
  destruct (saveActivity_stores activity w usr Hvalid Husr Hl Hf) as (w' & E & _ & Hin).
  destruct (saveActivity_saved activity w usr Hvalid Husr Hl Hf)
    as (w3 & w4 & w5 & w6 & E' & E3 & E4 & E5 & E6).
  rewrite E in E'. injection E' as ->.
  eexists _, w6. split; [exact E |]. split; [reflexivity |]. split; [exact Hin |].
  set (w2 := after_call (rq "student_progress" OpUpsert)
               (set_student_progress
                  (upsert_row (progressRecord usr activity (clock w))
                              (student_progress (db w))) (db w)) w) in *.
  destruct (logActivityHistory_healthy activity w2 (healthy_after_call _ _ _ Hw))
    as (w3' & E3' & Hlogs).
  rewrite E3 in E3'. injection E3' as <-.
  pose proof (within_returned _ _ _ _ _ (within_checkAchievements _ _) E4) as T34.
  destruct (after_upsert_trans _ _ _ _ _ _ E3 E4 E5 E6) as (_ & T45 & T56).
  rewrite (trans_activity_logs _ _ _ T56) by no_write.
  rewrite (trans_activity_logs _ _ _ T45) by no_write.
  rewrite (trans_activity_logs _ _ _ T34) by no_write.
  exact Hlogs.
Qed.

Lemma saveActivity_history_witness :
  let w := Sample.page (Some Sample.kid) Sample.one_doctor in
  exists r w',
    saveActivity (Sample.attempt 95) w = Returned r w'
    /\ activity_logs (db w') = [historyEntry "u1" (Sample.attempt 95)].
Proof.
  intros w.
  destruct (saveActivity_history (Sample.attempt 95) w Sample.kid)
    as (r & w' & E & _ & _ & Hlogs);
    [reflexivity | split; reflexivity | reflexivity |].
  exists r, w'. split; [exact E | exact Hlogs].
Defined.

(** The toast of [showSuccessFeedback]. *)
Lemma showSuccessFeedback_toast activity percentage w :
  exists message,
    showSuccessFeedback activity percentage w
    = Returned tt
        (set_toasts
           (toasts w
              ++ [{| toast_sink := if notifications_loaded w
                                   then ViaNotifications else ViaShowToast;
                     toast_message := message;
                     toast_type := if (50 <=? percentage)%Z then "success" else "info" |}])
           w).
Proof.
  unfold showSuccessFeedback, toast, showToast, bind, gets, modify.
  destruct (90 <=? percentage)%Z eqn:H90;
    [| destruct (70 <=? percentage)%Z eqn:H70;
       [| destruct (50 <=? percentage)%Z eqn:H50]];
    try (assert (H : (50 <=? percentage)%Z = true) by lia; rewrite H);
    destruct (notifications_loaded w); eexists; reflexivity.
Qed.

(** X5. The feedback of a saved recording agrees with what is stored: its
    last toast is of type [success] exactly when the record is stored as
    completed, of type [info] otherwise, and it goes through the
    notification library when the page has loaded it, through the toast of
    the tracker otherwise. *)
Theorem saveActivity_feedback activity w r w' :
  saveActivity activity w = Returned r w' ->
  r !! "success" = Some (VBool true) ->
  r !! "guest" = None ->
  exists shown message,
    toasts w'
    = shown
        ++ [{| toast_sink := if notifications_loaded w
                             then ViaNotifications else ViaShowToast;
               toast_message := message;
               toast_type := if (50 <=? percentage_of activity)%Z
                             then "success" else "info" |}]
    /\ forall usr now,
         ProgressRow.completed (progressRecord usr activity now)
         = (50 <=? percentage_of activity)%Z.
Proof.
  intros E Hs Hg. apply saveActivity_inv in E.
  destruct E as [| | | | usr w1 reply w2 w3 w4 w5 w6 Hvalid Hw1 Husr Eup Herr E3 E4 E5 E6];
    try discriminate.
  destruct (showSuccessFeedback_toast activity (percentage_of activity) w5)
    as (message & E6').
  rewrite E6 in E6'. injection E6' as ->.
  destruct (after_upsert_trans _ _ _ _ _ _ E3 E4 E5 E6) as (T24 & T45 & _).
  pose proof (within_returned _ _ _ _ _ (within_upsert _) Eup) as T12.
  destruct (refreshed_effects _ _ Hw1) as (_ & _ & _ & _ & _ & S01).
  assert (Hn : notifications_loaded w5 = notifications_loaded w).
  { destruct (trans_same_page _ _ _ T45) as (_ & -> & _).
    destruct (trans_same_page _ _ _ T24) as (_ & -> & _).
    destruct (trans_same_page _ _ _ T12) as (_ & -> & _).
    destruct S01 as (_ & -> & _). reflexivity. }
  exists (toasts w5), message. simpl. rewrite Hn. split; reflexivity.
Qed.

Lemma saveActivity_feedback_witness :
  let w := Sample.page (Some Sample.kid) Sample.empty_db in
  exists shown message,
    toasts (final (saveActivity (Sample.attempt 40) w))
    = shown ++ [{| toast_sink := ViaShowToast; toast_message := message;
                   toast_type := "info" |}].
Proof.
  intros w.
  assert (E : saveActivity (Sample.attempt 40) w
              = Returned (saved (answered [progressRecord Sample.kid (Sample.attempt 40) 1000]) 40)
                         (final (saveActivity (Sample.attempt 40) w))).
  { apply returned_final. vm_compute. reflexivity. }
  destruct (saveActivity_feedback _ _ _ _ E eq_refl eq_refl) as (shown & message & H & _).
  exists shown, message. exact H.
Defined.

End Saved.

(** ** The identity the tracker resolves *)

Section Identity.
Import Store CognoTracker.
Implicit Types (w : World).

(** X6. The tracker never reads the profile: the client hands the profile
    over inside [user], the tracker looks for it beside [user], so the
    user of the page is always named by the part of the mail address
    before the [@], has the role [student] and no avatar, whatever the
    row of [profiles] says.  Resolving the identity never throws and
    never changes the store; with a gateway that answers, the user of
    the session is resolved. *)
Theorem getCurrentUser_identity w :
  exists u w',
    getCurrentUser w = Returned u w'
    /\ db w' = db w
    /\ (forall usr,
          u = Some usr ->
          auth_user w = Some (AuthUser.mk (User.id usr) (User.email usr))
          /\ User.name usr = JS.before "@"%char (User.email usr)
          /\ User.role usr = "student"
          /\ User.avatarUrl usr = None)
    /\ (healthy w ->
        u = option_map
              (fun a => User.mk (AuthUser.id a) (AuthUser.email a)
                          (JS.before "@"%char (AuthUser.email a)) "student" None)
              (auth_user w)).
Proof.
  unfold getCurrentUser, CognoSupabase.getCurrentUser, try_catch, bind, gets, ret, throw,
    auth_getUser, select, call, healthy.
  destruct (supabase_loaded w) eqn:Hl; simpl.
  2: { eexists _, _. split; [reflexivity |]. split; [reflexivity |].
       split; [discriminate | intros [? _]; discriminate]. }
  destruct (faults w) as [| f rest] eqn:Hf; simpl.
  - destruct (auth_user w) as [[id email] |] eqn:Ha;
      repeat (progress (simpl; rewrite ?Hl, ?Hf));
      eexists _, _; (split; [reflexivity |]); (split; [reflexivity |]);
      (split; [| intros _; reflexivity]); try discriminate.
    intros usr [= <-]. simpl. repeat split.
  - destruct f as [| msg | msg]; repeat (progress (simpl; rewrite ?Hl, ?Hf));
      try (eexists _, _; split; [reflexivity |]; split; [reflexivity |];
           split; [discriminate | intros [_ ?]; discriminate]).
    destruct (auth_user w) as [[id email] |] eqn:Ha;
      repeat (progress (simpl; rewrite ?Hl, ?Hf)).
    + destruct rest as [| [| msg | msg] rest']; simpl;
        eexists _, _; (split; [reflexivity |]); (split; [reflexivity |]);
        (split; [| intros [_ ?]; discriminate]);
        try discriminate; intros usr [= <-]; simpl; repeat split.
    + eexists _, _. split; [reflexivity |]. split; [reflexivity |].
      split; [discriminate | intros [_ ?]; discriminate].
Qed.

Lemma getCurrentUser_identity_witness :
  let named := {| profiles := [ProfileRow.mk "u1" "Alice Kidd" "doctor" None];
                  student_progress := []; activity_logs := []; user_achievements := [];
                  doctor_patients := []; notifications := [] |} in
  let w := Sample.page (Some Sample.kid) named in
  exists w',
    getCurrentUser w = Returned (Some (User.mk "u1" "kid@example.org" "kid" "student" None)) w'.
Proof.
  intros named w.
  destruct (getCurrentUser_identity w) as (u & w' & E & _ & _ & Hu).
  rewrite (Hu (conj eq_refl eq_refl)) in E. exists w'. exact E.
Defined.

End Identity.

(** ** The rows the evaluator writes *)

Section Awards.
Import Store CognoTracker.
Implicit Types (w : World) (usr : User.t) (achievement : Achievement.t).

(** A query changes neither the store nor the clock, however it ends. *)
Lemma select_final {R} table (query : DB -> Reply R) w :
  db (final (select table query w)) = db w
  /\ clock (final (select table query w)) = clock w.
Proof.
  unfold select, call. destruct (supabase_loaded w); [| split; reflexivity].
  destruct (head (faults w)) as [[| msg | msg] |]; split; reflexivity.
Qed.

(** An insert writes when it is answered without an error, and only
    then. *)
Lemma insert_final table (write : DB -> DB) w :
  match insert table write w with
  | Returned r w' =>
      clock w' = clock w
      /\ ((error r = None /\ db w' = write (db w)) \/ (error r <> None /\ db w' = db w))
  | Threw _ w' => clock w' = clock w /\ db w' = db w
  end.
Proof.
  unfold insert, call. destruct (supabase_loaded w); [| split; reflexivity].
  destruct (head (faults w)) as [[| msg | msg] |]; simpl;
    try (split; [reflexivity |]); try reflexivity;
    try (left; split; reflexivity); right; split; [discriminate | reflexivity].
Qed.

(** Telling the user changes neither the store nor the clock. *)
Lemma told_final usr achievement w :
  let m := showAchievementUnlocked achievement ;;;
           api <- gets api_loaded ;;
           if api
           then modify (fun w => set_emails
                                   (emails w ++ [{| email_name := User.name usr;
                                                    email_address := User.email usr;
                                                    email_title := Achievement.title achievement;
                                                    email_description :=
                                                      Achievement.description achievement |}])
                                   w)
           else ret tt in
  db (final (m w)) = db w /\ clock (final (m w)) = clock w.
Proof.
  unfold showAchievementUnlocked, toast, showToast, bind, gets, modify, ret. simpl.
  destruct (notifications_loaded w); simpl; destruct (api_loaded w); simpl;
    split; reflexivity.
Qed.

(** One turn of the loop adds the row of the achievement or nothing. *)
Lemma award_rows usr percentage achievement w :
  exists l,
    (l = [] \/ l = [achievement])
    /\ user_achievements (db (final (award usr percentage achievement w)))
       = user_achievements (db w) ++ map (unlocked usr percentage (clock w)) l
    /\ clock (final (award usr percentage achievement w)) = clock w.
Proof.
  assert (Hnil : forall d d' : DB, d' = d ->
             user_achievements d'
             = user_achievements d ++ map (unlocked usr percentage (clock w)) []).
  { intros d d' ->. simpl. rewrite app_nil_r. reflexivity. }
  remember (award usr percentage achievement w) as o eqn:Ho.
  unfold award in Ho.
  set (query := fun d => single (earned (User.id usr) (Achievement.id achievement) d)) in Ho.
  pose proof (select_final "user_achievements" query w) as [Hd1 Hc1].
  destruct (select "user_achievements" query w) as [existing w1 | e w1] eqn:Esel;
    simpl in Hd1, Hc1.
  2: { rewrite (bind_threw _ _ _ _ _ Esel) in Ho. subst o.
       exists []. split; [left; reflexivity |]. simpl final.
       split; [apply Hnil; exact Hd1 | exact Hc1]. }
  rewrite (bind_step _ _ _ _ _ Esel) in Ho. cbv beta in Ho.
  destruct (data existing) as [row |].
  { subst o. exists []. split; [left; reflexivity |]. simpl final.
    split; [apply Hnil; exact Hd1 | exact Hc1]. }
  rewrite bind_gets in Ho. cbv beta in Ho.
  match type of Ho with
  | context [insert "user_achievements" ?f] => set (write := f) in Ho
  end.
  pose proof (insert_final "user_achievements" write w1) as Hins.
  destruct (insert "user_achievements" write w1) as [r w2 | e w2] eqn:Eins.
  2: { rewrite (bind_threw _ _ _ _ _ Eins) in Ho. subst o.
       destruct Hins as [Hc2 Hd2]. exists []. split; [left; reflexivity |]. simpl final.
       split; [apply Hnil; congruence | congruence]. }
  rewrite (bind_step _ _ _ _ _ Eins) in Ho. cbv beta in Ho.
  destruct Hins as [Hc2 [[Herr Hd2] | [Herr Hd2]]].
  - rewrite Herr in Ho.
    pose proof (told_final usr achievement w2) as [Hd3 Hc3]. cbv zeta in Hd3, Hc3.
    subst o.
    exists [achievement]. split; [right; reflexivity |].
    rewrite Hd3, Hc3, Hd2, Hc2. unfold write. simpl. rewrite Hd1, Hc1.
    split; reflexivity.
  - destruct (error r) as [e |]; [| contradiction Herr; reflexivity].
    subst o. exists []. split; [left; reflexivity |]. simpl final.
    split; [apply Hnil; congruence | congruence].
Qed.

(** The loop adds the rows of some of the achievements it is given, in
    their order. *)
Lemma awards_rows usr percentage (todo : list Achievement.t) :
  forall w,
  exists l,
    sublist l todo
    /\ user_achievements (db (final (for_of todo (award usr percentage) w)))
       = user_achievements (db w) ++ map (unlocked usr percentage (clock w)) l
    /\ clock (final (for_of todo (award usr percentage) w)) = clock w.
Proof.
  induction todo as [| achievement todo IH]; intros w.
  - exists []. simpl. rewrite app_nil_r. repeat split. constructor.
  - destruct (award_rows usr percentage achievement w) as (l1 & Hl1 & Hrows1 & Hclock1).
    simpl. unfold bind.
    destruct (award usr percentage achievement w) as [[] w1 | e w1]; simpl in *.
    + destruct (IH w1) as (l2 & Hl2 & Hrows2 & Hclock2).
      exists (l1 ++ l2). split.
      { destruct Hl1 as [-> | ->]; simpl; [apply sublist_cons | apply sublist_skip];
          exact Hl2. }
      split; [| congruence].
      rewrite Hrows2, Hrows1, Hclock1, map_app, app_assoc. reflexivity.
    + exists l1. split.
      { destruct Hl1 as [-> | ->]; [apply sublist_nil_l |].
        apply sublist_skip, sublist_nil_l. }
      split; assumption.
Qed.

Lemma achievementsToCheck_sublist moduleId percentage allProgress moduleProgress :
  sublist (achievementsToCheck moduleId percentage allProgress moduleProgress)
          [first_activity; perfect moduleId; mastery moduleId].
Proof.
  unfold achievementsToCheck.
  destruct (data allProgress) as [rows |]; [destruct (length rows =? 1)%nat |];
    destruct (percentage =? 100)%Z;
    match goal with |- context [if ?c then [mastery moduleId] else []] => destruct c end;
    simpl;
    repeat first [apply sublist_nil | apply sublist_skip | apply sublist_cons].
Qed.

Lemma achievementsToCheck_perfect moduleId percentage allProgress moduleProgress :
  In (perfect moduleId)
     (achievementsToCheck moduleId percentage allProgress moduleProgress) ->
  percentage = 100.
Proof.
  unfold achievementsToCheck. intros H.
  apply in_app_or in H. destruct H as [H | H].
  - destruct (data allProgress) as [rows |]; [destruct (length rows =? 1)%nat |];
      simpl in H; try contradiction.
    destruct H as [H | []]. discriminate.
  - apply in_app_or in H. destruct H as [H | H].
    + destruct (percentage =? 100)%Z eqn:E; [lia | contradiction].
    + match type of H with context [if ?c then _ else _] => destruct c end;
        simpl in H; try contradiction.
      destruct H as [H | []]. discriminate.
Qed.

(** X7. Whatever the gateway does, an evaluation only adds rows to
    [user_achievements], at most three: rows of the user of the page, for
    achievements among first activity, perfect score and mastery of the
    module, in this order, dated by the clock, worth 50 points when the
    percentage is at least 90 and 25 otherwise.  A perfect score is only
    written at 100 percent; without a user the evaluation does nothing
    at all. *)
Theorem checkAchievements_awards moduleId percentage w :
  exists w' awarded,
    checkAchievements moduleId percentage w = Returned tt w'
    /\ sublist awarded [first_activity; perfect moduleId; mastery moduleId]
    /\ (In (perfect moduleId) awarded -> percentage = 100)
    /\ (forall usr,
          tracker_user w = Some usr ->
          user_achievements (db w')
          = user_achievements (db w) ++ map (unlocked usr percentage (clock w)) awarded)
    /\ (tracker_user w = None -> w' = w).
Proof.
  destruct (total_checkAchievements moduleId percentage w) as ([] & w' & E).
  exists w'.
  assert (Hfinal : w' = final (checkAchievements moduleId percentage w))
    by (rewrite E; reflexivity).
  unfold checkAchievements, try_catch, bind, gets in Hfinal.
  destruct (tracker_user w) as [usr |] eqn:Hu.
  2: { exists []. split; [exact E |]. split; [apply sublist_nil_l |].
       split; [intros [] |]. split; [discriminate |]. intros _. exact Hfinal. }
  set (q1 := fun d => answered (List.filter
               (fun r => String.eqb (ProgressRow.student_id r) (User.id usr))
               (student_progress d))) in *.
  set (q2 := fun d => answered (List.filter
               (fun r => String.eqb (ProgressRow.student_id r) (User.id usr)
                         && String.eqb (ProgressRow.module_type r) moduleId
                         && ProgressRow.completed r)
               (student_progress d))) in *.
  pose proof (select_final "student_progress" q1 w) as [Hd1 Hc1].
  destruct (select "student_progress" q1 w) as [allProgress w1 | e w1]; simpl in *.
  2: { exists []. subst w'. simpl. split; [exact E |]. split; [apply sublist_nil_l |].
       split; [intros [] |]. split; [| discriminate].
       intros usr' _. rewrite Hd1, app_nil_r. reflexivity. }
  pose proof (select_final "student_progress" q2 w1) as [Hd2 Hc2].
  destruct (select "student_progress" q2 w1) as [moduleProgress w2 | e w2]; simpl in *.
  2: { exists []. subst w'. simpl. split; [exact E |]. split; [apply sublist_nil_l |].
       split; [intros [] |]. split; [| discriminate].
       intros usr' _. rewrite Hd2, Hd1, app_nil_r. reflexivity. }
  destruct (awards_rows usr percentage
              (achievementsToCheck moduleId percentage allProgress moduleProgress) w2)
    as (awarded & Hsub & Hrows & _).
  exists awarded. split; [exact E |].
  split; [etransitivity; [exact Hsub | apply achievementsToCheck_sublist] |].
  split.
  { intros Hin. eapply achievementsToCheck_perfect.
    apply list_elem_of_In. eapply elem_of_sublist; [| exact Hsub].
    apply list_elem_of_In. exact Hin. }
  split; [| discriminate].
  intros usr' [= <-].
  assert (Hw' : user_achievements (db w')
                = user_achievements
                    (db (final (for_of (achievementsToCheck moduleId percentage
                                          allProgress moduleProgress)
                                       (award usr percentage) w2)))).
  { subst w'.
    destruct (for_of (achievementsToCheck moduleId percentage allProgress moduleProgress)
                     (award usr percentage) w2) as [[] w3 | e w3]; reflexivity. }
  rewrite Hw', Hrows, Hd2, Hd1, Hc2, Hc1. reflexivity.
Qed.

Lemma checkAchievements_awards_witness :
  let w := Sample.page (Some Sample.kid) Sample.played in
  exists w' awarded,
    checkAchievements "dyslexia" 100 w = Returned tt w'
    /\ sublist awarded [first_activity; perfect "dyslexia"; mastery "dyslexia"]
    /\ user_achievements (db w')
       = [Sample.first_steps] ++ map (unlocked Sample.kid 100 1000) awarded.
Proof.
  intros w.
  destruct (checkAchievements_awards "dyslexia" 100 w)
    as (w' & awarded & E & Hsub & _ & H & _).
  exists w', awarded. split; [exact E |]. split; [exact Hsub |].
  exact (H Sample.kid eq_refl).
Defined.

End Awards.

(** ** Reading the progress back *)

Section Reports.
Import Store CognoTracker.
Implicit Types (w : World) (usr : User.t) (rows : list ProgressRow.t).

Lemma getModuleProgress_healthy moduleId w usr :
  healthy w ->
  tracker_user w = Some usr ->
  getModuleProgress moduleId w
  = Returned (Some (summary moduleId (Some (progressOf (User.id usr) moduleId (db w)))))
             (after_call (rq "student_progress" OpSelect) (db w) w).
Proof.
  intros [Hl Hf] Hu.
  unfold getModuleProgress, try_catch, bind, gets, select, call, ret.
  rewrite Hu, Hl, Hf. reflexivity.
Qed.







Lemma trans_healthy P w w' : trans P w w' -> healthy w -> healthy w'.
Proof.
  intros ((Hl & _) & _ & l & _ & Hf & _) [Hw1 Hw2]. split; [congruence |].
  rewrite Hf, Hw2. apply drop_nil.
Qed.

(** X10. What is recorded can be read back: on a gateway that answers,
    after [saveActivity] by the user of the page, [getModuleProgress] for
    the module of the attempt resolves to a summary whose activities
    contain the record of the attempt, and which counts at least one
    completed activity when the attempt reached 50 percent. *)
Theorem saveActivity_read_back activity w usr :
  valid activity = true ->
  healthy w ->
  tracker_user w = Some usr ->
  exists r w1 p w2,
    saveActivity activity w = Returned r w1
    /\ getModuleProgress (Activity.moduleId activity) w1 = Returned (Some p) w2
    /\ In (progressRecord usr activity (clock w)) (activities p)
    /\ (50 <= percentage_of activity -> (1 <= completedActivities p)%nat).
Proof.
  intros Hvalid Hw Husr.
  assert (Hl : supabase_loaded w = true) by apply Hw.
  assert (Hf : head (faults w) = None \/ head (faults w) = Some NoFault).
  { left. destruct Hw as [_ ->]. reflexivity. }
  destruct (saveActivity_stores activity w usr Hvalid Husr Hl Hf)
    as (w1 & E & _ & Hin).
  destruct (saveActivity_saved activity w usr Hvalid Husr Hl Hf)
    as (w3 & w4 & w5 & w6 & E' & E3 & E4 & E5 & E6).
  rewrite E in E'. injection E' as ->.
  destruct (after_upsert_trans _ _ _ _ _ _ E3 E4 E5 E6) as (T24 & T45 & T56).
  set (w2 := after_call (rq "student_progress" OpUpsert)
               (set_student_progress
                  (upsert_row (progressRecord usr activity (clock w))
                              (student_progress (db w))) (db w)) w) in *.
  assert (Hw6 : healthy w6).
  { apply (trans_healthy _ _ _ T56), (trans_healthy _ _ _ T45), (trans_healthy _ _ _ T24).
    apply healthy_after_call. exact Hw. }
  assert (Hu6 : tracker_user w6 = Some usr).
  { rewrite (trans_tracker_user _ _ _ T56), (trans_tracker_user _ _ _ T45),
      (trans_tracker_user _ _ _ T24). exact Husr. }
  eexists _, w6, _, _. split; [exact E |].
  split; [apply (getModuleProgress_healthy _ _ usr Hw6 Hu6) |].
  assert (Hmine : In (progressRecord usr activity (clock w))
                     (progressOf (User.id usr) (Activity.moduleId activity) (db w6))).
  { unfold progressOf. apply filter_In. split; [exact Hin |].
    simpl. rewrite !String.eqb_refl. reflexivity. }
  split; [exact Hmine |].
  intros H50. unfold summary. cbn [completedActivities].
  assert (Hc : In (progressRecord usr activity (clock w))
                  (List.filter ProgressRow.completed
                     (progressOf (User.id usr) (Activity.moduleId activity) (db w6)))).
  { apply filter_In. split; [exact Hmine |]. simpl. apply Z.leb_le. exact H50. }
  destruct (List.filter ProgressRow.completed
              (progressOf (User.id usr) (Activity.moduleId activity) (db w6)));
    [destruct Hc | simpl; lia].
Qed.

Lemma saveActivity_read_back_witness :
  let w := Sample.page (Some Sample.kid) Sample.one_doctor in
  exists r w1 p w2,
    saveActivity (Sample.attempt 95) w = Returned r w1
    /\ getModuleProgress "dyslexia" w1 = Returned (Some p) w2
    /\ In (progressRecord Sample.kid (Sample.attempt 95) 1000) (activities p)
    /\ (1 <= completedActivities p)%nat.
Proof.
  intros w.
  destruct (saveActivity_read_back (Sample.attempt 95) w Sample.kid)
    as (r & w1 & p & w2 & E1 & E2 & Hin & Hc);
    [reflexivity | split; reflexivity | reflexivity |].
  exists r, w1, p, w2. split; [exact E1 |]. split; [exact E2 |]. split; [exact Hin |].
  apply Hc. vm_compute. discriminate.
Defined.

(** *** Certificates *)

Lemma generateCertificate_healthy moduleId w usr :
  healthy w ->
  tracker_user w = Some usr ->
  let p := summary moduleId (Some (progressOf (User.id usr) moduleId (db w))) in
  generateCertificate moduleId w
  = Returned (if Num.lt (completionPercentage p) (Num.Fin 70)
              then Refused tooEarly
              else Issued (certificateOf usr moduleId p (clock w)))
             (after_call (rq "student_progress" OpSelect) (db w) w).
Proof.
  intros Hw Hu p.
  unfold generateCertificate. apply try_returned.
  rewrite bind_gets. cbv beta. rewrite Hu.
  rewrite (bind_step _ _ _ _ _ (getModuleProgress_healthy moduleId w usr Hw Hu)).
  cbv beta. fold p.
  destruct (Num.lt (completionPercentage p) (Num.Fin 70)); reflexivity.
Qed.

(** The percentage of completion when the catalog has activities for the
    module. *)
Lemma completionPercentage_catalog moduleId m data :
  moduleInfo_of moduleId = Some m ->
  module_activities m <> [] ->
  completionPercentage (summary moduleId data)
  = Num.Fin (inject_Z (JS.Math_round
                         (inject_Z (Z.of_nat (completedActivities (summary moduleId data)))
                          / inject_Z (Z.of_nat (length (module_activities m))) * 100)%Q)).
Proof.
  intros Hm Hne. unfold summary. cbn [completionPercentage completedActivities].
  rewrite Hm. unfold Object_keys. rewrite length_map.
  unfold Num.of_nat, Num.div, Num.is_zero.
  destruct (Qeq_bool (inject_Z (Z.of_nat (length (module_activities m)))) 0) eqn:Ez.
  - apply Qeq_bool_iff in Ez. change 0%Q with (inject_Z 0) in Ez.
    apply (proj1 (inject_Z_injective _ _)) in Ez.
    destruct (module_activities m); [contradiction Hne; reflexivity | discriminate].
  - reflexivity.
Qed.

(** X11. For a module of the catalog, on a gateway that answers, the user
    of the page is given a certificate exactly when the completed rows,
    as a rounded percentage of the activities of the catalog, reach 70;
    below, the answer is the refusal.  The certificate carries that
    percentage and the two counts. *)
Theorem generateCertificate_threshold moduleId w usr m :
  healthy w ->
  tracker_user w = Some usr ->
  moduleInfo_of moduleId = Some m ->
  module_activities m <> [] ->
  let done := length (List.filter ProgressRow.completed
                        (progressOf (User.id usr) moduleId (db w))) in
  let total := length (module_activities m) in
  let percent := JS.Math_round (inject_Z (Z.of_nat done) / inject_Z (Z.of_nat total) * 100)%Q in
  exists res w',
    generateCertificate moduleId w = Returned res w'
    /\ db w' = db w
    /\ (percent < 70 -> res = Refused tooEarly)
    /\ (70 <= percent ->
        exists c,
          res = Issued c
          /\ cert_completionPercentage c = Num.Fin (inject_Z percent)
          /\ cert_completedActivities c = done
          /\ cert_totalActivities c = total
          /\ studentName c = User.name usr).
Proof.
  intros Hw Hu Hm Hne done total percent.
  rewrite (generateCertificate_healthy moduleId w usr Hw Hu). cbv zeta.
  set (p := summary moduleId (Some (progressOf (User.id usr) moduleId (db w)))).
  assert (Hp : completionPercentage p = Num.Fin (inject_Z percent)).
  { unfold p. rewrite (completionPercentage_catalog moduleId m _ Hm Hne). reflexivity. }
  eexists _, _. split; [reflexivity |]. split; [reflexivity |].
  rewrite Hp. cbn [Num.lt].
  destruct (JS.lt (inject_Z percent) 70) eqn:Elt.
  - apply lt_iff in Elt. change 70%Q with (inject_Z 70) in Elt. rewrite <- Zlt_Qlt in Elt.
    split; [reflexivity | lia].
  - assert (Hge : 70 <= percent).
    { apply Z.nlt_ge. intros Hlt.
      assert (JS.lt (inject_Z percent) 70 = true); [| congruence].
      apply lt_iff. change 70%Q with (inject_Z 70). rewrite <- Zlt_Qlt. exact Hlt. }
    split; [lia |]. intros _. eexists. split; [reflexivity |].
    cbn [certificateOf cert_completionPercentage cert_completedActivities
         cert_totalActivities studentName].
    split; [exact Hp |]. split; [reflexivity |]. split; [| reflexivity].
    unfold p, summary. cbn [totalActivities]. rewrite Hm.
    unfold Object_keys. apply length_map.
Qed.

Lemma generateCertificate_threshold_witness :
  let w := Sample.page (Some Sample.kid) Sample.played in
  exists w', generateCertificate "dyslexia" w = Returned (Refused tooEarly) w'.
Proof.
  intros w.
  destruct (generateCertificate_threshold "dyslexia" w Sample.kid
              {| module_name := "Dyslexia"; module_icon := "fa-book-reader";
                 module_color := "#0066cc";
                 module_activities :=
                   [ ("text-reader", act "Text Reader" 100);
                     ("text-simplifier", act "Text Simplifier" 100);
                     ("letter-match", act "Letter Match" 130);
                     ("word-builder", act "Word Builder" 100);
                     ("sight-words", act "Sight Words" 100);
                     ("rhyme-time", act "Rhyme Time" 100);
                     ("spelling-bee", act "Spelling Bee" 100);
                     ("word-scramble", act "Word Scramble" 100) ] |})
    as (res & w' & E & _ & Hlow & _);
    [split; reflexivity | reflexivity | reflexivity | discriminate |].
  exists w'. rewrite <- Hlow; [exact E |]. vm_compute. reflexivity.
Defined.

(** X12. A module the catalog does not know has no activities to
    complete, the percentage of completion divides by zero, and a number
    that is not finite is not below 70: on a gateway that answers, the
    user of the page is given a certificate for any such module, with a
    total of zero and a percentage that is [NaN] without completed rows
    and infinite with some. *)
Theorem generateCertificate_unknown_module moduleId w usr :
  healthy w ->
  tracker_user w = Some usr ->
  moduleInfo_of moduleId = None ->
  exists c w',
    generateCertificate moduleId w = Returned (Issued c) w'
    /\ cert_totalActivities c = 0%nat
    /\ cert_completionPercentage c
       = (if (cert_completedActivities c =? 0)%nat then Num.NaN else Num.PInf).
Proof.
  intros Hw Hu Hm.
  rewrite (generateCertificate_healthy moduleId w usr Hw Hu). cbv zeta.
  set (p := summary moduleId (Some (progressOf (User.id usr) moduleId (db w)))).
  assert (Hp : completionPercentage p
               = if (completedActivities p =? 0)%nat then Num.NaN else Num.PInf).
  { unfold p, summary. cbn [completionPercentage completedActivities]. rewrite Hm.
    set (n := length (List.filter ProgressRow.completed
                        (progressOf (User.id usr) moduleId (db w)))).
    unfold Num.of_nat. simpl length. unfold Num.div.
    change (Num.is_zero (inject_Z (Z.of_nat 0))) with true. cbv iota.
    destruct n as [| k]; [reflexivity |].
    assert (Hz : Num.is_zero (inject_Z (Z.of_nat (S k))) = false).
    { unfold Num.is_zero. destruct (Qeq_bool _ 0) eqn:Ez; [| reflexivity].
      apply Qeq_bool_iff in Ez. change 0%Q with (inject_Z 0) in Ez.
      apply (proj1 (inject_Z_injective _ _)) in Ez. lia. }
    assert (Hpos : Num.is_pos (inject_Z (Z.of_nat (S k))) = true).
    { unfold Num.is_pos. apply negb_true_iff.
      destruct (Qle_bool _ 0) eqn:Ele; [| reflexivity].
      apply Qle_bool_iff in Ele. change 0%Q with (inject_Z 0) in Ele.
      rewrite <- Zle_Qle in Ele. lia. }
    rewrite Hz, Hpos. reflexivity. }
  exists (certificateOf usr moduleId p (clock w)). eexists.
  split.
  { rewrite Hp. destruct (completedActivities p =? 0)%nat; reflexivity. }
  cbn [certificateOf cert_totalActivities cert_completionPercentage
       cert_completedActivities].
  split; [unfold p, summary; cbn [totalActivities]; rewrite Hm; reflexivity |].
  exact Hp.
Qed.

Lemma generateCertificate_unknown_module_witness :
  let w := Sample.page (Some Sample.kid) Sample.empty_db in
  exists c w',
    generateCertificate "chess" w = Returned (Issued c) w'
    /\ cert_totalActivities c = 0%nat
    /\ cert_completionPercentage c
       = (if (cert_completedActivities c =? 0)%nat then Num.NaN else Num.PInf).
Proof.
  intros w.
  destruct (generateCertificate_unknown_module "chess" w Sample.kid)
    as (c & w' & E & Ht & Hp);
    [split; reflexivity | reflexivity | reflexivity |].
  exists c, w'. split; [exact E |]. split; [exact Ht | exact Hp].
Defined.

(** X13. [generateCertificate] never throws and never writes.  Without a
    user on the page it resolves to [null] and asks nothing; when the
    client is not loaded or the gateway fails the query, the user is told
    to complete at least 70 percent of the module, as when the progress
    is too low. *)
Theorem generateCertificate_settles moduleId w :
  exists res w',
    generateCertificate moduleId w = Returned res w'
    /\ db w' = db w
    /\ quiet w w'
    /\ (tracker_user w = None -> res = NoCertificate /\ w' = w)
    /\ (tracker_user w <> None ->
        (supabase_loaded w = false
         \/ exists e, head (faults w) = Some (ErrorResult e)
                      \/ head (faults w) = Some (NetworkThrow e)) ->
        res = Refused tooEarly).
Proof.
  unfold generateCertificate, getModuleProgress, try_catch, bind, gets, select, call,
    ret, throw, quiet.
  destruct (tracker_user w) as [usr |] eqn:Hu; simpl.
  2: { exists NoCertificate, w. repeat split; auto. intros H. contradiction H. reflexivity. }
  rewrite Hu.
  destruct (supabase_loaded w) eqn:Hl; simpl.
  2: { eexists _, _. split; [reflexivity |]. repeat split; auto; discriminate. }
  destruct (head (faults w)) as [[| msg | msg] |] eqn:Hf; simpl;
    try match goal with
        | |- context [if ?c then _ else _] => destruct c
        end;
    eexists _, _; (split; [reflexivity |]); simpl; repeat split; auto; try discriminate;
    intros _ [H | (e & [H | H])]; discriminate.
Qed.

End Reports.

(** ** The manager, the feed and the listener of [js/realtime.js] *)

Section Wiring.
Import Realtime.
Implicit Types (w : World) (ref : nat).

Lemma is_joined_unsubscribe_eq ref w :
  is_joined ref (channel_unsubscribe ref w) = (fun _ => false) <$> is_joined ref w.
Proof.
  unfold is_joined, channel_unsubscribe. simpl. rewrite list_lookup_alter_eq.
  destruct (objects w !! ref); reflexivity.
Qed.

Lemma is_joined_unsubscribe_ne r ref w :
  r <> ref -> is_joined r (channel_unsubscribe ref w) = is_joined r w.
Proof.
  intros H. unfold is_joined, channel_unsubscribe. simpl.
  rewrite list_lookup_alter_ne by congruence. reflexivity.
Qed.

Lemma length_unsubscribe ref w :
  length (objects (channel_unsubscribe ref w)) = length (objects w).
Proof. unfold channel_unsubscribe. simpl. apply length_alter. Qed.

(** Leaving the channels of a list of references. *)
Lemma leave_all (refs : list nat) :
  forall w,
    let w' := fold_right channel_unsubscribe w refs in
    channels w' = channels w
    /\ length (objects w') = length (objects w)
    /\ (forall r, In r refs -> is_joined r w' = (fun _ => false) <$> is_joined r w)
    /\ (forall r, ~ In r refs -> is_joined r w' = is_joined r w).
Proof.
  induction refs as [| ref refs IH]; intros w; cbn [fold_right].
  - repeat split; intros r [].
  - destruct (IH w) as (Hc & Hlen & Hin & Hout).
    split; [exact Hc |]. split; [rewrite length_unsubscribe; exact Hlen |]. split.
    + intros r Hr. destruct (Nat.eq_dec r ref) as [-> | Hne].
      * rewrite is_joined_unsubscribe_eq.
        destruct (in_dec Nat.eq_dec ref refs) as [Hi | Hi].
        -- rewrite (Hin _ Hi). destruct (is_joined ref w); reflexivity.
        -- rewrite (Hout _ Hi). reflexivity.
      * rewrite is_joined_unsubscribe_ne by exact Hne.
        destruct Hr as [-> | Hr]; [contradiction Hne; reflexivity |]. exact (Hin _ Hr).
    + intros r Hr. rewrite is_joined_unsubscribe_ne by (intros ->; apply Hr; left; reflexivity).
      apply Hout. intros Hi. apply Hr. right. exact Hi.
Qed.

(** X14. The registry of the manager is a map from names to channels:
    without a client [subscribe] gives [null] and does nothing; with one,
    it gives the channel of the name, [getChannel] finds it, asking again
    gives the same channel and changes nothing, and the other names are
    as before.  A channel it has just made is registered but not joined,
    and [unsubscribe] of that name restores the registry. *)
Theorem manager_subscribe channelName w :
  (manager_client w = false -> subscribe channelName w = (None, w))
  /\ (manager_client w = true ->
      exists ref w1,
        subscribe channelName w = (Some ref, w1)
        /\ getChannel channelName w1 = Some ref
        /\ subscribe channelName w1 = (Some ref, w1)
        /\ (forall other, other <> channelName ->
                          getChannel other w1 = getChannel other w)
        /\ (getChannel channelName w = None ->
            ref = length (objects w)
            /\ is_joined ref w1 = Some false
            /\ channels (unsubscribe channelName w1) = channels w)).
Proof.
  unfold subscribe, getChannel. split; intros Hm; rewrite Hm; simpl; [reflexivity |].
  destruct (channels w !! channelName) as [ref |] eqn:E.
  - exists ref, w. rewrite Hm, E. simpl.
    repeat split; auto; discriminate.
  - eexists _, _. split; [reflexivity |]. simpl. rewrite Hm, lookup_insert_eq. simpl.
    split; [reflexivity |]. split; [reflexivity |].
    split; [intros other Hne; apply lookup_insert_ne; congruence |].
    intros _. split; [reflexivity |]. split.
    + unfold is_joined. simpl. rewrite list_lookup_middle by reflexivity. reflexivity.
    + unfold unsubscribe. simpl. rewrite lookup_insert_eq. simpl.
      apply delete_insert_id. exact E.
Qed.

Lemma manager_subscribe_witness :
  exists ref w1,
    subscribe "presence" fresh = (Some ref, w1)
    /\ getChannel "presence" w1 = Some ref
    /\ is_joined ref w1 = Some false
    /\ channels (unsubscribe "presence" w1) = channels fresh.
Proof.
  destruct (manager_subscribe "presence" fresh) as [_ H].
  destruct (H eq_refl) as (ref & w1 & E & Hg & _ & _ & Hnew).
  destruct (Hnew eq_refl) as (_ & Hj & Hu).
  exists ref, w1. split; [exact E |]. split; [exact Hg |]. split; [exact Hj | exact Hu].
Defined.

(** X15. [unsubscribeAll], the cleanup of the page, empties the registry
    and leaves every channel of the registry; a channel the registry does
    not hold is as before.  So the channel of a table subscription, which
    is never registered, is still joined after the cleanup. *)
Theorem unsubscribeAll_spares tbl options w :
  client w = true ->
  registered w ->
  let w1 := snd (table_subscribe tbl options w) in
  channels (unsubscribeAll w1) = ∅
  /\ (forall name ref, channels w !! name = Some ref ->
                       is_joined ref (unsubscribeAll w1) = Some false)
  /\ (forall ref, (forall name, channels w !! name <> Some ref) ->
                  is_joined ref (unsubscribeAll w1) = is_joined ref w1)
  /\ is_joined (length (objects w)) (unsubscribeAll w1) = Some true.
Proof.
  intros Hc Hreg w1.
  destruct (table_subscribe_loaded tbl options w Hc) as (w1' & E & Hch & Hobj).
  subst w1. rewrite E. simpl.
  unfold unsubscribeAll.
  assert (Hfold : fold_right (fun entry acc => channel_unsubscribe entry.2 acc) w1'
                    (map_to_list (channels w1'))
                  = fold_right channel_unsubscribe w1' (map snd (map_to_list (channels w1')))).
  { induction (map_to_list (channels w1')) as [| e es IH]; simpl; [reflexivity |].
    rewrite IH. reflexivity. }
  rewrite Hfold.
  destruct (leave_all (map snd (map_to_list (channels w1'))) w1')
    as (_ & _ & Hin & Hout).
  set (W := fold_right channel_unsubscribe w1' (map snd (map_to_list (channels w1')))) in *.
  assert (Hj : forall r, is_joined r (set_channels ∅ W) = is_joined r W) by reflexivity.
  assert (Hmem : forall ref, In ref (map snd (map_to_list (channels w1')))
                             <-> exists name, channels w !! name = Some ref).
  { intros ref. rewrite Hch. rewrite in_map_iff. split.
    - intros ([name r] & <- & Hi). exists name.
      apply list_elem_of_In, elem_of_map_to_list in Hi. exact Hi.
    - intros (name & Hl). exists (name, ref). split; [reflexivity |].
      apply list_elem_of_In, elem_of_map_to_list. exact Hl. }
  split; [reflexivity |].
  assert (Hnew : is_joined (length (objects w)) w1' = Some true).
  { unfold is_joined. rewrite Hobj, list_lookup_middle by reflexivity. reflexivity. }
  split; [| split].
  - intros name ref Hl. rewrite Hj, Hin by (apply Hmem; exists name; exact Hl).
    assert (Hlt : (ref < length (objects w))%nat) by exact (Hreg _ _ Hl).
    unfold is_joined. rewrite Hobj, lookup_app_l by exact Hlt.
    destruct (lookup_lt_is_Some_2 _ _ Hlt) as [c ->]. reflexivity.
  - intros ref Hno. rewrite Hj. apply Hout. intros Hi. apply Hmem in Hi.
    destruct Hi as (name & Hl). exact (Hno _ Hl).
  - rewrite Hj, Hout; [exact Hnew |].
    intros Hi. apply Hmem in Hi. destruct Hi as (name & Hl).
    pose proof (Hreg _ _ Hl). lia.
Qed.

Lemma unsubscribeAll_spares_witness :
  let w := snd (subscribe "presence" fresh) in
  let w1 := snd (table_subscribe "notifications"
                   {| opt_event := Some "INSERT"; opt_filter := None |} w) in
  channels (unsubscribeAll w1) = ∅
  /\ is_joined 0 (unsubscribeAll w1) = Some false
  /\ is_joined 1 (unsubscribeAll w1) = Some true.
Proof.
  intros w w1.
  destruct (unsubscribeAll_spares "notifications"
              {| opt_event := Some "INSERT"; opt_filter := None |} w)
    as (H1 & H2 & _ & H4).
  - reflexivity.
  - intros name ref H.
    change (channels w) with (<["presence" := 0%nat]> (∅ : gmap string nat)) in H.
    change (length (objects w)) with 1%nat.
    apply lookup_insert_Some in H. destruct H as [[_ <-] | [_ H]]; [lia |].
    rewrite lookup_empty in H. discriminate.
  - split; [exact H1 |]. split; [| exact H4].
    apply (H2 "presence"). reflexivity.
Defined.

(** A table subscription with the client loaded: one more channel object,
    joined, and the function that leaves it. *)
Lemma table_subscribe_opens tbl options w :
  client w = true ->
  exists c w1,
    table_subscribe tbl options w = (Leave (length (objects w)), w1)
    /\ client w1 = true
    /\ channels w1 = channels w
    /\ objects w1 = objects w ++ [c]
    /\ joined c = true.
Proof.
  intros Hc. destruct (table_subscribe_loaded tbl options w Hc) as (w1 & E & Hch & Hobj).
  eexists _, w1. split; [exact E |]. split; [| split; [exact Hch |]].
  - unfold table_subscribe in E. rewrite Hc in E. simpl in E.
    injection E as <-. exact Hc.
  - split; [exact Hobj | reflexivity].
Qed.

(** Calling the functions of a list of subscriptions. *)
Lemma invoke_all (subs : list Unsubscribe) :
  forall w,
    let w' := fold_left (fun w unsub => invoke unsub w) subs w in
    channels w' = channels w
    /\ length (objects w') = length (objects w)
    /\ (forall r, In (Leave r) subs -> is_joined r w' = (fun _ => false) <$> is_joined r w)
    /\ (forall r, ~ In (Leave r) subs -> is_joined r w' = is_joined r w).
Proof.
  induction subs as [| sub subs IH]; intros w; cbn [fold_left].
  - repeat split; intros r [].
  - destruct (IH (invoke sub w)) as (Hc & Hlen & Hin & Hout).
    destruct sub as [| ref]; cbn [invoke] in *.
    + split; [exact Hc |]. split; [exact Hlen |]. split.
      * intros r [Hr | Hr]; [discriminate | exact (Hin _ Hr)].
      * intros r Hr. apply Hout. intros Hi. apply Hr. right. exact Hi.
    + split; [exact Hc |]. split; [rewrite Hlen; apply length_unsubscribe |]. split.
      * intros r Hr. destruct (Nat.eq_dec r ref) as [-> | Hne].
        -- destruct (in_dec (fun x y : Unsubscribe =>
                               ltac:(decide equality; apply Nat.eq_dec))
                            (Leave ref) subs) as [Hi | Hi].
           ++ rewrite (Hin _ Hi), is_joined_unsubscribe_eq.
              destruct (is_joined ref w); reflexivity.
           ++ rewrite (Hout _ Hi). apply is_joined_unsubscribe_eq.
        -- destruct Hr as [[= ->] | Hr]; [contradiction Hne; reflexivity |].
           rewrite (Hin _ Hr), is_joined_unsubscribe_ne by exact Hne. reflexivity.
      * intros r Hr.
        rewrite Hout by (intros Hi; apply Hr; right; exact Hi).
        apply is_joined_unsubscribe_ne. intros ->. apply Hr. left. reflexivity.
Qed.

(** One turn of the loop of [start]: three more channels, all joined. *)
Lemma watch_opens feed w user :
  client w = true ->
  exists feed1 w1 new,
    ActivityFeed.watch (feed, w) user = (feed1, w1)
    /\ client w1 = true
    /\ channels w1 = channels w
    /\ objects w1 = objects w ++ new
    /\ length new = 3%nat
    /\ Forall (fun c => joined c = true) new
    /\ ActivityFeed.subscriptions feed1
       = ActivityFeed.subscriptions feed ++ map Leave (seq (length (objects w)) 3).
Proof.
  intros Hc. unfold ActivityFeed.watch.
  set (options := {| opt_event := Some "INSERT";
                     opt_filter := Some ("user_id=eq." ++ user)%string |}).
  destruct (table_subscribe_opens "game_sessions" options w Hc)
    as (c1 & w1 & -> & Hc1 & Hr1 & Ho1 & Hj1).
  destruct (table_subscribe_opens "user_achievements" options w1 Hc1)
    as (c2 & w2 & -> & Hc2 & Hr2 & Ho2 & Hj2).
  destruct (table_subscribe_opens "exercise_attempts" options w2 Hc2)
    as (c3 & w3 & -> & Hc3 & Hr3 & Ho3 & Hj3).
  eexists _, w3, [c1; c2; c3]. split; [reflexivity |].
  split; [exact Hc3 |]. split; [congruence |].
  split; [rewrite Ho3, Ho2, Ho1, <- !app_assoc; reflexivity |].
  split; [reflexivity |]. split; [repeat constructor; assumption |].
  unfold ActivityFeed.push. simpl. rewrite Ho2, Ho1, !length_app. simpl.
  rewrite <- !app_assoc. simpl.
  replace (length (objects w) + 1 + 1)%nat with (S (S (length (objects w)))) by lia.
  replace (length (objects w) + 1)%nat with (S (length (objects w))) by lia.
  reflexivity.
Qed.

Lemma watch_all (userIds : list string) :
  forall feed w,
    client w = true ->
    exists feed1 w1 new,
      fold_left ActivityFeed.watch userIds (feed, w) = (feed1, w1)
      /\ channels w1 = channels w
      /\ objects w1 = objects w ++ new
      /\ length new = (3 * length userIds)%nat
      /\ Forall (fun c => joined c = true) new
      /\ ActivityFeed.subscriptions feed1
         = ActivityFeed.subscriptions feed
             ++ map Leave (seq (length (objects w)) (3 * length userIds)).
Proof.
  induction userIds as [| user userIds IH]; intros feed w Hc.
  - exists feed, w, []. simpl. rewrite !app_nil_r. repeat split. constructor.
  - cbn [fold_left].
    destruct (watch_opens feed w user Hc) as (f1 & w1 & n1 & -> & Hc1 & Hr1 & Ho1 & Hl1 & Hj1 & Hs1).
    destruct (IH f1 w1 Hc1) as (f2 & w2 & n2 & -> & Hr2 & Ho2 & Hl2 & Hj2 & Hs2).
    exists f2, w2, (n1 ++ n2). split; [reflexivity |]. split; [congruence |].
    split; [rewrite Ho2, Ho1, <- app_assoc; reflexivity |].
    split; [rewrite length_app, Hl1, Hl2; simpl; lia |].
    split; [apply Forall_app; split; assumption |].
    rewrite Hs2, Hs1, Ho1, length_app, Hl1, <- app_assoc, <- map_app.
    replace (3 * length (user :: userIds))%nat with (3 + 3 * length userIds)%nat
      by (simpl; lia).
    rewrite seq_app. reflexivity.
Qed.

(** X16. An [ActivityFeed] that is started opens three table
    subscriptions for every user it watches (its own user when it is given
    none), all joined and none in the registry, and keeps the function of
    each; [stop] calls them all, so that every channel the feed has opened
    is left, and forgets them.  The registry of the manager is never
    touched. *)
Theorem feed_start_stop targetUserIds feed w :
  client w = true ->
  let userIds :=
    if (0 <? length targetUserIds)%nat then targetUserIds
    else [ActivityFeed.userId feed] in
  let n := (3 * length userIds)%nat in
  let started := ActivityFeed.start targetUserIds feed w in
  let stopped := ActivityFeed.stop (fst started) (snd started) in
  ActivityFeed.subscriptions (fst started)
  = ActivityFeed.subscriptions feed ++ map Leave (seq (length (objects w)) n)
  /\ length (objects (snd started)) = (length (objects w) + n)%nat
  /\ (forall ref,
        (length (objects w) <= ref < length (objects w) + n)%nat ->
        is_joined ref (snd started) = Some true
        /\ is_joined ref (snd stopped) = Some false)
  /\ ActivityFeed.subscriptions (fst stopped) = []
  /\ channels (snd started) = channels w
  /\ channels (snd stopped) = channels w.
Proof.
  intros Hc userIds n started stopped.
  destruct (watch_all userIds feed w Hc) as (f1 & w1 & new & E & Hr & Ho & Hl & Hj & Hs).
  assert (Estart : started = (f1, w1)) by exact E.
  subst stopped. rewrite Estart. cbn [fst snd].
  destruct (invoke_all (ActivityFeed.subscriptions f1) w1) as (Hc2 & Hlen2 & Hin2 & _).
  unfold ActivityFeed.stop. cbn [fst snd ActivityFeed.subscriptions].
  split; [exact Hs |]. split; [rewrite Ho, length_app, Hl; reflexivity |].
  split; [| split; [reflexivity | split; [exact Hr | rewrite Hc2; exact Hr]]].
  intros ref [Hlo Hhi].
  assert (Hj1 : is_joined ref w1 = Some true).
  { unfold is_joined. rewrite Ho, lookup_app_r by exact Hlo.
    destruct (lookup_lt_is_Some_2 new (ref - length (objects w))) as [c Hc'];
      [rewrite Hl; fold n; lia |].
    rewrite Hc'. simpl. f_equal.
    rewrite Forall_forall in Hj. apply Hj. eapply list_elem_of_lookup_2. exact Hc'. }
  split; [exact Hj1 |].
  rewrite Hin2, Hj1; [reflexivity |].
  rewrite Hs. apply in_or_app. right. apply in_map. apply in_seq. fold n. lia.
Qed.

Lemma feed_start_stop_witness :
  let feed := ActivityFeed.new "parent1" "parent" in
  let started := ActivityFeed.start ["kid1"; "kid2"] feed fresh in
  let stopped := ActivityFeed.stop (fst started) (snd started) in
  length (ActivityFeed.subscriptions (fst started)) = 6%nat
  /\ is_joined 5 (snd started) = Some true
  /\ is_joined 5 (snd stopped) = Some false
  /\ channels (snd stopped) = ∅.
Proof.
  intros feed started stopped.
  destruct (feed_start_stop ["kid1"; "kid2"] feed fresh eq_refl)
    as (Hs & _ & Hj & _ & _ & Hr).
  split; [unfold started; rewrite Hs; reflexivity |].
  destruct (Hj 5%nat) as [H1 H2]; [simpl; lia |].
  split; [exact H1 |]. split; [exact H2 | exact Hr].
Defined.

(** X17. A [NotificationListener] keeps one function only: [start] then
    [stop] leaves the channel it opened, and a second [stop] does
    nothing; but a listener started twice has lost the function of its
    first subscription, and after [stop] the first channel is still
    joined, with nothing left to call. *)
Theorem listener_restart listener w :
  client w = true ->
  let base := length (objects w) in
  let started := NotificationListener.start listener w in
  let stopped := NotificationListener.stop (fst started) (snd started) in
  let restarted := NotificationListener.start (fst started) (snd started) in
  let finished := NotificationListener.stop (fst restarted) (snd restarted) in
  is_joined base (snd started) = Some true
  /\ is_joined base (snd stopped) = Some false
  /\ NotificationListener.stop (fst stopped) (snd stopped) = stopped
  /\ is_joined base (snd finished) = Some true
  /\ is_joined (S base) (snd finished) = Some false
  /\ NotificationListener.unsubscribe (fst finished) = None
  /\ NotificationListener.stop (fst finished) (snd finished) = finished.
Proof.
  intros Hc base started stopped restarted finished.
  subst finished restarted stopped started base. unfold NotificationListener.start.
  pose (options := {| opt_event := Some "INSERT";
                      opt_filter := Some ("user_id=eq." ++ NotificationListener.userId listener)%string |}).
  destruct (table_subscribe_opens "notifications" options w Hc)
    as (c1 & w1 & E1 & Hc1 & Hr1 & Ho1 & Hj1).
  unfold options in E1. rewrite E1.
  cbn [fst snd NotificationListener.userId].
  destruct (table_subscribe_opens "notifications" options w1 Hc1)
    as (c2 & w2 & E2 & Hc2 & Hr2 & Ho2 & Hj2).
  unfold options in E2. rewrite E2.
  cbn [fst snd NotificationListener.stop NotificationListener.unsubscribe
       NotificationListener.userId invoke].
  assert (Hb1 : is_joined (length (objects w)) w1 = Some true).
  { unfold is_joined. rewrite Ho1, list_lookup_middle by reflexivity.
    simpl. rewrite Hj1. reflexivity. }
  assert (Hlen1 : length (objects w1) = S (length (objects w))).
  { rewrite Ho1, length_app. simpl. lia. }
  assert (Hb2 : is_joined (length (objects w)) w2 = Some true).
  { unfold is_joined. rewrite Ho2, lookup_app_l by lia. exact Hb1. }
  assert (Hs2 : is_joined (S (length (objects w))) w2 = Some true).
  { unfold is_joined. rewrite Ho2, list_lookup_middle by lia.
    simpl. rewrite Hj2. reflexivity. }
  rewrite Hlen1.
  split; [exact Hb1 |].
  split; [rewrite is_joined_unsubscribe_eq, Hb1; reflexivity |].
  split; [reflexivity |].
  split; [rewrite is_joined_unsubscribe_ne by lia; exact Hb2 |].
  split; [rewrite is_joined_unsubscribe_eq, Hs2; reflexivity |].
  split; reflexivity.
Qed.

Lemma listener_restart_witness :
  let listener := NotificationListener.new "u1" in
  let started := NotificationListener.start listener fresh in
  let restarted := NotificationListener.start (fst started) (snd started) in
  let finished := NotificationListener.stop (fst restarted) (snd restarted) in
  is_joined 0 (snd finished) = Some true
  /\ is_joined 1 (snd finished) = Some false
  /\ NotificationListener.unsubscribe (fst finished) = None.
Proof.
  intros listener started restarted finished.
  destruct (listener_restart listener fresh eq_refl) as (_ & _ & _ & H1 & H2 & H3 & _).
  split; [exact H1 |]. split; [exact H2 | exact H3].
Defined.

End Wiring.

(** ** Points, scores and the life of an activity page *)

Section Points.
Import CognoModules.

Lemma tenth_ge (p : Q) (z : Z) :
  z <= JS.Math_round (p / 10)%Q <-> (inject_Z z - (1 # 2) <= p * (1 # 10))%Q.
Proof. apply Math_round_ge. Qed.

Lemma tenth_le (p : Q) (z : Z) :
  JS.Math_round (p / 10)%Q <= z <-> (p * (1 # 10) < inject_Z z + (1 # 2))%Q.
Proof. apply Math_round_le. Qed.

Lemma tenth_mono (p p2 : Q) :
  (p <= p2)%Q -> JS.Math_round (p / 10)%Q <= JS.Math_round (p2 / 10)%Q.
Proof.
  intros H. apply tenth_ge. pose proof (proj1 (tenth_ge p _) (Z.le_refl _)). lra.
Qed.

(** X18. The points of [calculatePoints] are a multiple of five; they do
    not decrease when the percentage grows up to 100, and from 0 to 100
    percent they lie between 0 and 135.  Above 100 percent, which
    [completeActivity] does not exclude, the bonus of the perfect score
    is lost: from above 100 to below 125 percent the points are fewer
    than at 100. *)
Theorem calculatePoints_shape (percentage duration : Q) :
  (5 | calculatePoints percentage duration)
  /\ (forall p2 : Q,
        (percentage <= p2)%Q -> (p2 <= 100)%Q ->
        calculatePoints percentage duration <= calculatePoints p2 duration)
  /\ ((0 <= percentage)%Q -> (percentage <= 100)%Q ->
      0 <= calculatePoints percentage duration <= 135)
  /\ ((100 < percentage)%Q -> (percentage < 125)%Q ->
      calculatePoints percentage duration < calculatePoints 100 duration).
Proof.
  unfold calculatePoints.
  set (r := JS.Math_round (percentage / 10)%Q).
  split; [| split; [| split]].
  - destruct (JS.lt duration 120), (JS.eq percentage 100).
    + exists (2 * r + 7). lia.
    + exists (2 * r + 2). lia.
    + exists (2 * r + 5). lia.
    + exists (2 * r). lia.
  - intros p2 Hle H100.
    pose proof (tenth_mono _ _ Hle) as Hr. fold r in Hr.
    assert (Hbonus : JS.eq percentage 100 = true -> JS.eq p2 100 = true).
    { intros E1. apply eq_iff in E1. apply eq_iff. lra. }
    destruct (JS.eq percentage 100), (JS.eq p2 100);
      try (specialize (Hbonus eq_refl); discriminate);
      destruct (JS.lt duration 120); lia.
  - intros H0 H100.
    assert (Hlo : 0 <= r) by (apply tenth_ge; change (inject_Z 0) with 0%Q; lra).
    assert (Hhi : r <= 10) by (apply tenth_le; change (inject_Z 10) with 10%Q; lra).
    destruct (JS.lt duration 120), (JS.eq percentage 100); lia.
  - intros Hlo Hhi.
    assert (Hr : r <= 12) by (apply tenth_le; change (inject_Z 12) with 12%Q; lra).
    assert (E : JS.eq percentage 100 = false).
    { destruct (JS.eq percentage 100) eqn:E; [| reflexivity]. apply eq_iff in E. lra. }
    rewrite E.
    change (JS.Math_round (100 / 10)%Q) with 10.
    change (JS.eq 100 100) with true.
    destruct (JS.lt duration 120); lia.
Qed.

End Points.

Section Lifecycle.
Import CognoModules CognoActivity.
Implicit Types (a : t) (s : Screen).




(** [startActivity] catches whatever its body throws. *)
Lemma total_startActivity activityId : total (startActivity activityId).
Proof.
  intros w. unfold startActivity. rewrite bind_gets. cbv beta.
  destruct (user w) as [usr |]; [| apply total_ret].
  apply total_try_catch. intros e. apply total_ret.
Qed.

(** The run of [complete]: nothing on an instance that is complete;
    otherwise the instance is marked, the completion comes back without
    a result and the modal shows zeros, unless the handler throws, where
    [CognoNotifications] is not bound on the page of a user. *)
Lemma complete_run s :
  let done := mk (activityId (activity s)) (moduleName (activity s))
                 (startTime (activity s)) (score (activity s)) (maxScore (activity s))
                 true in
  let zeros := {| face := Muscle; shown_percentage := 0; shown_points := 0 |} in
  complete s
  = if isComplete (activity s) then Returned None s
    else
      match user (page s) with
      | None =>
          Returned None {| page := page s; activity := done;
                           modals := modals s ++ [zeros] |}
      | Some _ =>
          if notifications_loaded (page s)
          then Returned None
                 {| page := add_toast "Failed to save progress" "error" (page s);
                    activity := done; modals := modals s ++ [zeros] |}
          else Threw "CognoNotifications is not defined"
                 {| page := page s; activity := done; modals := modals s |}
      end.
Proof.
  intros done zeros. unfold complete. rewrite bind_gets. cbv beta.
  destruct (isComplete (activity s)) eqn:Hc; [reflexivity |].
  unfold bind at 1. unfold assign, modify. cbv beta iota.
  unfold bind at 1. unfold lift at 1. unfold gets at 1. cbv beta iota.
  cbn [page activity modals].
  unfold bind at 1. unfold lift. cbn [page activity modals].
  rewrite completeActivity_run.
  destruct (user (page s)) as [usr |]; [destruct (notifications_loaded (page s)) |];
    reflexivity.
Qed.

(** X20. An activity is completed once.  However [complete] ends, the
    instance is complete afterwards and a further [complete] returns
    nothing and changes nothing; on an instance that is complete it does
    nothing at all; it shows at most one modal and leaves the score, the
    maximum and the start of the instance as they were.  [start] never
    throws and makes the instance ready again: score zero, not complete,
    started at the time of the clock. *)
Theorem complete_once s :
  (let s1 := final (complete s) in
   isComplete (activity s1) = true
   /\ complete s1 = Returned None s1
   /\ (isComplete (activity s) = true -> complete s = Returned None s)
   /\ (length (modals s) <= length (modals s1) <= S (length (modals s)))%nat
   /\ score (activity s1) = score (activity s)
   /\ maxScore (activity s1) = maxScore (activity s)
   /\ startTime (activity s1) = startTime (activity s))
  /\ (exists s0,
        start s = Returned tt s0
        /\ isComplete (activity s0) = false
        /\ score (activity s0) = 0%Q
        /\ startTime (activity s0) = Some (clock (page s))
        /\ maxScore (activity s0) = maxScore (activity s)
        /\ modals s0 = modals s).
Proof.
  split.
  - cbv zeta. rewrite (complete_run s). cbv zeta.
    destruct (isComplete (activity s)) eqn:Hc.
    + cbn [final]. rewrite (complete_run s), Hc.
      repeat split; try reflexivity; try assumption; lia.
    + destruct (user (page s)) as [usr |];
        [destruct (notifications_loaded (page s)) |];
        cbn [final]; rewrite complete_run; cbn [activity isComplete modals score maxScore
                                                startTime];
        rewrite ?length_app; cbn [length];
        repeat split; try reflexivity; try discriminate; lia.
  - unfold start. unfold bind at 1. unfold lift at 1. unfold gets at 1. cbv beta iota.
    unfold bind at 1. unfold assign, modify. cbv beta iota.
    rewrite bind_gets. cbn [page activity modals activityId].
    unfold lift. cbn [page activity modals].
    destruct (total_startActivity (activityId (activity s)) (page s)) as ([] & w' & ->).
    eexists. split; [reflexivity |]. repeat split.
Qed.

(** X21. The completion of an activity page is never saved, and its
    modal never shows the score: [completeActivity] comes back without a
    result, whatever the score, because the client has no [upsert].
    [complete] on an instance that is not complete asks nothing of the
    provider and changes no table; where the page has no user, or has
    [CognoNotifications], it returns nothing and the modal it shows has 0
    percent and 0 points, after the toast of the failure for a user;
    where the page has a user and no [CognoNotifications] it throws and
    shows no modal. *)
Theorem complete_unsaved s :
  isComplete (activity s) = false ->
  let zeros := {| face := Muscle; shown_percentage := 0; shown_points := 0 |} in
  let s1 := final (complete s) in
  (forall c, value (complete s) <> Some (Some c))
  /\ tables (page s1) = tables (page s)
  /\ requests (page s1) = requests (page s)
  /\ (user (page s) = None ->
      complete s = Returned None s1
      /\ modals s1 = modals s ++ [zeros]
      /\ toasts (page s1) = toasts (page s))
  /\ (user (page s) <> None ->
      notifications_loaded (page s) = true ->
      complete s = Returned None s1
      /\ modals s1 = modals s ++ [zeros]
      /\ toasts (page s1) = toasts (page s) ++ [("Failed to save progress", "error")])
  /\ (user (page s) <> None ->
      notifications_loaded (page s) = false ->
      (exists e, complete s = Threw e s1) /\ modals s1 = modals s).
Proof.
  intros Hc zeros s1. subst s1. rewrite (complete_run s). cbv zeta. rewrite Hc.
  destruct (user (page s)) as [usr |] eqn:Hu;
    [destruct (notifications_loaded (page s)) eqn:Hn |];
    cbn [final value page modals];
    (split; [intros c; discriminate |]);
    (split; [reflexivity |]); (split; [reflexivity |]);
    (split; [intros H; try discriminate H; repeat split |]);
    (split; [intros H H'; try discriminate H'; try (contradiction H; reflexivity);
             repeat split |]);
    intros H H'; try discriminate H'; try (contradiction H; reflexivity).
  split; [eexists; reflexivity | reflexivity].
Qed.

Lemma complete_unsaved_witness :
  let a := addScore 90 (new "letter-match" "dyslexia") in
  let s1 := final (complete (fresh_screen a)) in
  complete (fresh_screen a) = Returned None s1
  /\ map shown_percentage (modals s1) = [0]
  /\ toasts (page s1) = [("Failed to save progress", "error")]
  /\ activity_progress (page s1) = [].
Proof.
  intros a s1.
  destruct (complete_unsaved (fresh_screen a)) as (_ & Ht & _ & _ & Hsaved & _);
    [reflexivity |].
  destruct Hsaved as (E & Hm & Htoast); [discriminate | reflexivity |].
  split; [exact E |]. fold s1 in Hm, Htoast, Ht.
  split; [rewrite Hm; reflexivity |]. split; [rewrite Htoast; reflexivity |].
  assert (H : activity_progress (page s1) = fst (fst (tables (page s1)))) by reflexivity.
  rewrite H, Ht. reflexivity.
Defined.

(** The seconds of a minute on two digits. *)
Lemma two_digits (r : Z) :
  0 <= r < 60 ->
  JS.padStart 2 "0"%char (pretty r) = (pretty (r / 10) ++ pretty (r mod 10))%string.
Proof.
  intros Hr.
  assert (Hall : forallb (fun n : nat =>
                            String.eqb (JS.padStart 2 "0"%char (pretty (Z.of_nat n)))
                                       (pretty (Z.of_nat n / 10)
                                          ++ pretty (Z.of_nat n mod 10))%string)
                         (seq 0 60) = true) by (vm_compute; reflexivity).
  rewrite forallb_forall in Hall.
  specialize (Hall (Z.to_nat r)).
  rewrite Z2Nat.id in Hall by lia.
  apply String.eqb_eq, Hall, in_seq. lia.
Qed.

(** X22. For a whole number of seconds that is not negative [formatTime]
    writes the minutes in decimal, a colon and the seconds of the minute
    on exactly two digits. *)
Theorem formatTime_shape (seconds : Z) :
  0 <= seconds ->
  exists tens units : Z,
    0 <= tens < 6
    /\ 0 <= units < 10
    /\ seconds = 60 * (seconds / 60) + 10 * tens + units
    /\ formatTime seconds
       = (pretty (seconds / 60) ++ ":" ++ pretty tens ++ pretty units)%string.
Proof.
  intros H0. unfold formatTime. cbv zeta.
  rewrite Z.rem_mod_nonneg by lia.
  pose proof (Z.mod_pos_bound seconds 60 ltac:(lia)) as Hr.
  exists (seconds mod 60 / 10), ((seconds mod 60) mod 10).
  split; [split; [apply Z.div_pos; lia | apply Z.div_lt_upper_bound; lia] |].
  split; [apply Z.mod_pos_bound; lia |].
  split.
  - pose proof (Z.div_mod seconds 60 ltac:(lia)).
    pose proof (Z.div_mod (seconds mod 60) 10 ltac:(lia)). lia.
  - rewrite (two_digits _ Hr). reflexivity.
Qed.

Lemma formatTime_shape_witness : formatTime 125 = "2:05".
Proof.
  destruct (formatTime_shape 125) as (tens & units & Ht & Hu & Hs & E); [lia |].
  rewrite E.
  assert (tens = 0 /\ units = 5) as [-> ->].
  { change (125 / 60) with 2 in Hs. lia. }
  vm_compute. reflexivity.
Defined.

End Lifecycle.

(** ** The base path of a page *)

Section Paths.
Import CognoPaths.

Lemma split_nonempty c (s : string) : JS.split c s <> [].
Proof.
  destruct s as [| a rest]; simpl; [discriminate |].
  destruct (Ascii.eqb a c); [discriminate |].
  destruct (JS.split c rest); discriminate.
Qed.

(** A separator at the end adds one empty part. *)
Lemma split_trailing c (s : string) :
  JS.split c (s ++ String c EmptyString) = JS.split c s ++ [EmptyString].
Proof.
  induction s as [| a rest IH]; simpl.
  - rewrite Ascii.eqb_refl. reflexivity.
  - destruct (Ascii.eqb a c); [rewrite IH; reflexivity |].
    rewrite IH. pose proof (split_nonempty c rest) as Hne.
    destruct (JS.split c rest) as [| x xs]; [contradiction Hne; reflexivity |].
    reflexivity.
Qed.

Lemma times_empty (s : string) (n : nat) :
  s <> EmptyString -> JS.times s n = EmptyString -> n = 0%nat.
Proof.
  intros Hs. destruct n as [| k]; [reflexivity |]. simpl.
  destruct s as [| a rest]; [contradiction Hs; reflexivity | discriminate].
Qed.

Lemma up_depth (depth : Z) :
  up depth = if (depth <=? 0)%Z then "./" else JS.times "../" (Z.to_nat depth).
Proof.
  unfold up, JS.str_or, JS.truthy.
  destruct (Z.leb_spec depth 0) as [Hle | Hgt].
  - replace (Z.to_nat (Z.max 0 depth)) with 0%nat by lia. reflexivity.
  - rewrite Z.max_r by lia.
    destruct (Z.to_nat depth) as [| k] eqn:E; [lia |]. reflexivity.
Qed.

Lemma indexOf_app (x : string) (pre rest : list string) :
  ~ In x pre -> JS.indexOf x (pre ++ x :: rest) = Some (length pre).
Proof.
  induction pre as [| y pre IH]; intros Hno; simpl.
  - rewrite String.eqb_refl. reflexivity.
  - destruct (String.eqb_spec y x) as [-> | Hne].
    + contradiction Hno. left. reflexivity.
    + rewrite IH by (intros Hin; apply Hno; right; exact Hin). reflexivity.
Qed.

(** X23. [getBasePath] counts the parts of the path that are not empty,
    so a slash at the end of the path changes nothing: the page of a
    directory gets the base path of a file of the same name, one level
    short.  The base path is never empty. *)
Theorem getBasePath_trailing_slash (pathname : string) :
  getBasePath (pathname ++ "/") = getBasePath pathname
  /\ getBasePath pathname <> "".
Proof.
  split.
  - unfold getBasePath, parts.
    change "/"%string with (String "/"%char EmptyString).
    rewrite split_trailing, List.filter_app. simpl. rewrite app_nil_r. reflexivity.
  - unfold getBasePath.
    destruct (JS.indexOf "frontend" (parts pathname)); rewrite up_depth;
      match goal with |- context [(?d <=? 0)%Z] => destruct (Z.leb_spec d 0) end;
      try discriminate;
      intros E; apply times_empty in E; try discriminate; lia.
Qed.

(** X24. Below the folder [frontend] the base path climbs one level for
    every folder between [frontend] and the file, and is [./] for a file
    of [frontend] itself. *)
Theorem getBasePath_depth (pathname : string) (pre dirs : list string) (file : string) :
  parts pathname = pre ++ "frontend" :: dirs ++ [file] ->
  ~ In "frontend" pre ->
  getBasePath pathname
  = match dirs with
    | [] => "./"
    | _ => JS.times "../" (length dirs)
    end.
Proof.
  intros Hparts Hpre. unfold getBasePath. rewrite Hparts.
  rewrite indexOf_app by exact Hpre. rewrite up_depth.
  rewrite !length_app. simpl length. rewrite length_app. simpl length.
  destruct dirs as [| d dirs'].
  - simpl length.
    destruct (Z.leb_spec (Z.of_nat (length pre + S (0 + 1)) - Z.of_nat (length pre) - 2) 0);
      [reflexivity | lia].
  - simpl length.
    destruct (Z.leb_spec (Z.of_nat (length pre + S (S (length dirs') + 1))
                          - Z.of_nat (length pre) - 2) 0); [lia |].
    f_equal. lia.
Qed.

Lemma getBasePath_depth_witness :
  getBasePath "/frontend/modules/dyslexia/letter-match.html" = "../../".
Proof.
  exact (getBasePath_depth "/frontend/modules/dyslexia/letter-match.html"
           [] ["modules"; "dyslexia"] "letter-match.html" eq_refl (fun H => H)).
Defined.

End Paths.

(** ** What a recording earns *)

Section Earns.
Import Store CognoTracker.
Implicit Types (w : World) (d : DB) (usr : User.t) (activity : Activity.t).

Ltac no_write :=
  let r := fresh "r" in
  let H := fresh "H" in
  intros r H; unfold among, rq_history, rq_achievements, rq_notify in H; simpl in H;
  repeat (destruct H as [<- | H]; [reflexivity |]); destruct H.

Lemma trans_user_achievements P w w' :
  trans P w w' ->
  (forall r, P r -> writes_to "user_achievements" r = false) ->
  user_achievements (db w') = user_achievements (db w).
Proof.
  intros (_ & _ & l & _ & _ & Hl & Hd) HP. destruct Hd as (_ & _ & _ & H & _). apply H.
  eapply Forall_impl; [exact Hl | exact HP].
Qed.

Lemma earned_ext userId achievementId d d' :
  user_achievements d' = user_achievements d ->
  earned userId achievementId d' = earned userId achievementId d.
Proof. intros E. unfold earned. rewrite E. reflexivity. Qed.

Lemma awarded_once_ext d d' :
  user_achievements d' = user_achievements d -> awarded_once d -> awarded_once d'.
Proof.
  intros E H userId achievementId. rewrite (earned_ext _ _ _ _ E). apply H.
Qed.

(** The achievements that qualify are among those the evaluator checks. *)
Lemma qualifies moduleId percentage (mine done : list ProgressRow.t) :
  (length mine = 1%nat ->
   In first_activity (achievementsToCheck moduleId percentage (answered mine) (answered done)))
  /\ (percentage = 100 ->
      In (perfect moduleId)
         (achievementsToCheck moduleId percentage (answered mine) (answered done)))
  /\ (forall m,
        moduleInfo_of moduleId = Some m ->
        module_activities m <> [] ->
        (forall a, In a (Object_keys (module_activities m)) ->
                   In a (map ProgressRow.activity_id done)) ->
        In (mastery moduleId)
           (achievementsToCheck moduleId percentage (answered mine) (answered done))).
Proof.
  unfold achievementsToCheck. cbn [data answered]. split; [| split].
  - intros ->. apply in_or_app. left. left. reflexivity.
  - intros ->. apply in_or_app. right. apply in_or_app. left. left. reflexivity.
  - intros m Hm Hne Hall. rewrite Hm.
    apply in_or_app. right. apply in_or_app. right.
    assert (Hlen : (0 <? length (Object_keys (module_activities m)))%nat = true).
    { apply Nat.ltb_lt. unfold Object_keys. rewrite length_map.
      destruct (module_activities m); [contradiction Hne; reflexivity | simpl; lia]. }
    rewrite Hlen. cbn [andb].
    assert (Hf : forallb (fun a => bool_decide
                                     (a ∈ (list_to_set (map ProgressRow.activity_id done)
                                           : gset string)))
                         (Object_keys (module_activities m)) = true).
    { apply forallb_forall. intros a Ha. apply bool_decide_eq_true.
      apply elem_of_list_to_set, list_elem_of_In, Hall, Ha. }
    rewrite Hf. left. reflexivity.
Qed.

(** X25. On a gateway that answers, with at most one record for a user
    and an achievement in the store, a recording by the user of the page
    leaves every achievement that qualifies recorded: the first activity
    when the student then has exactly one row of progress, the perfect
    score of the module at 100 percent, and the mastery of a module of the
    catalog when every activity of the catalog then has a completed row of
    the student; and it keeps at most one record for a user and an
    achievement. *)
Theorem saveActivity_earns activity w usr :
  valid activity = true ->
  healthy w ->
  tracker_user w = Some usr ->
  awarded_once (db w) ->
  exists r w',
    saveActivity activity w = Returned r w'
    /\ awarded_once (db w')
    /\ (length (List.filter (fun p => String.eqb (ProgressRow.student_id p) (User.id usr))
                            (student_progress (db w'))) = 1%nat ->
        earned (User.id usr) "first_activity" (db w') <> [])
    /\ (percentage_of activity = 100 ->
        earned (User.id usr) ("perfect_" ++ Activity.moduleId activity) (db w') <> [])
    /\ (forall m,
          moduleInfo_of (Activity.moduleId activity) = Some m ->
          module_activities m <> [] ->
          (forall a, In a (Object_keys (module_activities m)) ->
                     exists p,
                       In p (student_progress (db w'))
                       /\ ProgressRow.student_id p = User.id usr
                       /\ ProgressRow.module_type p = Activity.moduleId activity
                       /\ ProgressRow.activity_id p = a
                       /\ ProgressRow.completed p = true) ->
          earned (User.id usr) ("mastery_" ++ Activity.moduleId activity) (db w') <> []).
Proof.
  intros Hvalid Hw Husr Honce.
  assert (Hl : supabase_loaded w = true) by apply Hw.
  assert (Hf : head (faults w) = None \/ head (faults w) = Some NoFault).
  { left. destruct Hw as [_ ->]. reflexivity. }
  destruct (saveActivity_saved activity w usr Hvalid Husr Hl Hf)
    as (w3 & w4 & w5 & w6 & E & E3 & E4 & E5 & E6).
  set (w2 := after_call (rq "student_progress" OpUpsert)
               (set_student_progress
                  (upsert_row (progressRecord usr activity (clock w))
                              (student_progress (db w))) (db w)) w) in *.
  assert (Hw2 : healthy w2) by (apply healthy_after_call; exact Hw).
  pose proof (within_returned _ _ _ _ _ (within_logActivityHistory _ _) E3) as T23.
  destruct (after_upsert_trans _ _ _ _ _ _ E3 E4 E5 E6) as (_ & T45 & T56).
  assert (Hw3 : healthy w3) by exact (trans_healthy _ _ _ T23 Hw2).
  assert (Hu3 : tracker_user w3 = Some usr)
    by (rewrite (trans_tracker_user _ _ _ T23); exact Husr).
  assert (Ha3 : user_achievements (db w3) = user_achievements (db w)).
  { rewrite (trans_user_achievements _ _ _ T23) by no_write. reflexivity. }
  assert (Honce3 : awarded_once (db w3)) by exact (awarded_once_ext _ _ Ha3 Honce).
  destruct (checkAchievements_healthy (Activity.moduleId activity) (percentage_of activity)
              w3 usr Hw3 Hu3) as (w3' & todo & Hw3' & Hd3' & _ & Htodo & Hrun).
  assert (Honce3' : awarded_once (db w3')) by (rewrite Hd3'; exact Honce3).
  destruct (awards_healthy usr (percentage_of activity) todo w3' Hw3' Honce3')
    as (w4' & Eloop & _ & _ & Hsp4 & Honce4 & _ & Hthere).
  pose proof (Hrun _ Eloop) as E4'. rewrite E4 in E4'. injection E4' as <-.
  assert (Ha6 : user_achievements (db w6) = user_achievements (db w4)).
  { rewrite (trans_user_achievements _ _ _ T56) by no_write.
    rewrite (trans_user_achievements _ _ _ T45) by no_write. reflexivity. }
  assert (Hs6 : student_progress (db w6) = student_progress (db w3)).
  { rewrite (trans_student_progress _ _ _ T56) by no_write.
    rewrite (trans_student_progress _ _ _ T45) by no_write.
    rewrite Hsp4, Hd3'. reflexivity. }
  eexists _, w6. split; [exact E |].
  split; [exact (awarded_once_ext _ _ Ha6 Honce4) |].
  destruct (qualifies (Activity.moduleId activity) (percentage_of activity)
              (List.filter (fun r => String.eqb (ProgressRow.student_id r) (User.id usr))
                           (student_progress (db w3)))
              (List.filter (fun r => String.eqb (ProgressRow.student_id r) (User.id usr)
                                     && String.eqb (ProgressRow.module_type r)
                                                   (Activity.moduleId activity)
                                     && ProgressRow.completed r)
                           (student_progress (db w3))))
    as (Qfirst & Qperfect & Qmastery).
  rewrite <- Htodo in Qfirst, Qperfect, Qmastery.
  split; [| split].
  - intros Hone. rewrite (earned_ext _ _ _ _ Ha6).
    apply (Hthere first_activity). apply Qfirst. rewrite <- Hs6. exact Hone.
  - intros H100. rewrite (earned_ext _ _ _ _ Ha6).
    apply (Hthere (perfect (Activity.moduleId activity))). apply Qperfect. exact H100.
  - intros m Hm Hne Hall. rewrite (earned_ext _ _ _ _ Ha6).
    apply (Hthere (mastery (Activity.moduleId activity))).
    apply (Qmastery m Hm Hne). intros a Ha.
    destruct (Hall a Ha) as (p & Hin & Hs & Hmod & Hact & Hdone).
    rewrite <- Hact. apply in_map. apply filter_In. split.
    + rewrite <- Hs6. exact Hin.
    + rewrite Hs, Hmod, !String.eqb_refl, Hdone. reflexivity.
Qed.

Lemma saveActivity_earns_witness :
  let w := Sample.page (Some Sample.kid) Sample.empty_db in
  exists r w',
    saveActivity (Sample.attempt 100) w = Returned r w'
    /\ earned "u1" "perfect_dyslexia" (db w') <> [].
Proof.
  intros w.
  destruct (saveActivity_earns (Sample.attempt 100) w Sample.kid)
    as (r & w' & E & _ & _ & Hperfect & _).
  - reflexivity.
  - split; reflexivity.
  - reflexivity.
  - intros userId achievementId. simpl. lia.
  - exists r, w'. split; [exact E |]. apply Hperfect. vm_compute. reflexivity.
Defined.

End Earns.

(** ** The rows a recording leaves alone *)

Section Frame.
Import Store CognoTracker.
Implicit Types (w : World) (usr : User.t) (activity : Activity.t).

Ltac no_write :=
  let r := fresh "r" in
  let H := fresh "H" in
  intros r H; unfold among, rq_history, rq_achievements, rq_notify in H; simpl in H;
  repeat (destruct H as [<- | H]; [reflexivity |]); destruct H.

(** An upsert keeps the rows of the other keys and adds at most one row. *)
Lemma upsert_row_other (r p : ProgressRow.t) rows :
  In p rows -> same_key r p = false -> In p (upsert_row r rows).
Proof.
  intros Hin Hkey. unfold upsert_row. destruct (existsb (same_key r) rows).
  - apply in_map_iff. exists p. rewrite Hkey. split; [reflexivity | exact Hin].
  - apply in_or_app. left. exact Hin.
Qed.

Lemma upsert_row_length (r : ProgressRow.t) rows :
  (length rows <= length (upsert_row r rows) <= S (length rows))%nat.
Proof.
  unfold upsert_row. destruct (existsb (same_key r) rows).
  - rewrite length_map. lia.
  - rewrite length_app. simpl. lia.
Qed.

Lemma other_key usr activity now (p : ProgressRow.t) :
  ProgressRow.student_id p <> User.id usr
  \/ ProgressRow.module_type p <> Activity.moduleId activity
  \/ ProgressRow.activity_id p <> Activity.activityId activity ->
  same_key (progressRecord usr activity now) p = false.
Proof.
  intros H. unfold same_key. simpl.
  destruct (String.eqb_spec (ProgressRow.student_id p) (User.id usr));
    destruct (String.eqb_spec (ProgressRow.module_type p) (Activity.moduleId activity));
    destruct (String.eqb_spec (ProgressRow.activity_id p) (Activity.activityId activity));
    try reflexivity.
  destruct H as [H | [H | H]]; contradiction.
Qed.

(** X26. However it ends, a recording keeps every row of progress of
    another module or another activity, and every row of a student other
    than the user it records for; it never removes a row, and adds at
    most one. *)
Theorem saveActivity_other_rows activity w r w' :
  saveActivity activity w = Returned r w' ->
  (length (student_progress (db w)) <= length (student_progress (db w'))
   <= S (length (student_progress (db w))))%nat
  /\ forall p,
       In p (student_progress (db w)) ->
       ProgressRow.module_type p <> Activity.moduleId activity
       \/ ProgressRow.activity_id p <> Activity.activityId activity
       \/ (forall usr, tracker_user w' = Some usr ->
                       ProgressRow.student_id p <> User.id usr) ->
       In p (student_progress (db w')).
Proof.
  intros E. apply saveActivity_inv in E.
  assert (Hsame : forall d : DB,
             d = db w ->
             (length (student_progress (db w)) <= length (student_progress d)
              <= S (length (student_progress (db w))))%nat
             /\ forall p, In p (student_progress (db w)) -> In p (student_progress d)).
  { intros d ->. split; [lia | auto]. }
  destruct E as [Hvalid | w1 Hvalid Hw1 Husr | usr w1 e w2 Hvalid Hw1 Husr Eup
                 | usr w1 reply e w2 Hvalid Hw1 Husr Eup Herr
                 | usr w1 reply w2 w3 w4 w5 w6 Hvalid Hw1 Husr Eup Herr E3 E4 E5 E6].
  - destruct (Hsame (db w) eq_refl) as [H1 H2]. split; [exact H1 | intros p Hp _; auto].
  - destruct (refreshed_effects _ _ Hw1) as (_ & _ & _ & Hdb & _).
    destruct (Hsame (db w1) Hdb) as [H1 H2]. split; [exact H1 | intros p Hp _; auto].
  - destruct (refreshed_effects _ _ Hw1) as (_ & _ & _ & Hdb & _).
    pose proof (upsert_unanswered (progressRecord usr activity (clock w1)) w1) as Hun.
    rewrite Eup in Hun. destruct Hun as [Hdb2 _].
    destruct (Hsame (db w2) ltac:(congruence)) as [H1 H2].
    split; [exact H1 | intros p Hp _; auto].
  - destruct (refreshed_effects _ _ Hw1) as (_ & _ & _ & Hdb & _).
    pose proof (upsert_unanswered (progressRecord usr activity (clock w1)) w1) as Hun.
    rewrite Eup in Hun. destruct Hun as [Hdb2 _]; [congruence |].
    destruct (Hsame (db w2) ltac:(congruence)) as [H1 H2].
    split; [exact H1 | intros p Hp _; auto].
  - destruct (refreshed_effects _ _ Hw1) as (_ & _ & _ & Hdb & _).
    destruct (upsert_accepted _ _ _ _ Eup Herr) as (_ & Hsp & _).
    destruct (after_upsert_trans _ _ _ _ _ _ E3 E4 E5 E6) as (T24 & T45 & T56).
    pose proof (within_returned _ _ _ _ _ (within_upsert _) Eup) as T12.
    assert (Hu6 : tracker_user w6 = Some usr).
    { rewrite (trans_tracker_user _ _ _ T56), (trans_tracker_user _ _ _ T45),
        (trans_tracker_user _ _ _ T24), (trans_tracker_user _ _ _ T12). exact Husr. }
    assert (Hrows : student_progress (db w6)
                    = upsert_row (progressRecord usr activity (clock w1))
                                 (student_progress (db w))).
    { rewrite (trans_student_progress _ _ _ T56) by no_write.
      rewrite (trans_student_progress _ _ _ T45) by no_write.
      rewrite (trans_student_progress _ _ _ T24) by no_write.
      rewrite Hsp, Hdb. reflexivity. }
    rewrite Hrows. split; [apply upsert_row_length |].
    intros p Hp Hother. apply upsert_row_other; [exact Hp |].
    apply other_key. destruct Hother as [H | [H | H]]; auto.
Qed.

Lemma saveActivity_other_rows_witness :
  let other := progressRecord (User.mk "u2" "pal@example.org" "pal" "student" None)
                              (Sample.attempt 60) 900 in
  let before :=
    {| profiles := []; student_progress := [other]; activity_logs := [];
       user_achievements := []; doctor_patients := []; notifications := [] |} in
  let w := Sample.page (Some Sample.kid) before in
  In other (student_progress (db (final (saveActivity (Sample.attempt 95) w)))).
Proof.
  intros other before w.
  assert (E : saveActivity (Sample.attempt 95) w
              = Returned (saved (answered [progressRecord Sample.kid (Sample.attempt 95) 1000]) 95)
                         (final (saveActivity (Sample.attempt 95) w))).
  { apply returned_final. vm_compute. reflexivity. }
  destruct (saveActivity_other_rows _ _ _ _ E) as [_ H].
  apply H; [left; reflexivity |].
  right. right. intros usr Hu.
  assert (Hk : tracker_user (final (saveActivity (Sample.attempt 95) w)) = Some Sample.kid)
    by (vm_compute; reflexivity).
  rewrite Hk in Hu. injection Hu as <-. discriminate.
Defined.

End Frame.
